(** * Smart e-meter firmware: a shallow embedding and its verified properties

    The firmware (ESP32 + INA219 + Edge Impulse + SSD1306) runs three
    FreeRTOS tasks around one shared [Metrics] record:
    - [taskSerial]  : the serial command parser ([parseCommandByte]);
    - [taskML]      : sampling, feature packing, classification, EWMA and
                      majority vote, telemetry, snapshot update;
    - [taskDisplay] : the OLED phase dispatch and the four renderers.

    A definition named after a C++ function, variable or constant is a
    transcription of it; the others are what the code is compared with.
    C [float] is IEEE-754 binary32, modelled with the Standard Library's
    [spec_float] at precision 24; arrays updated in place are lists with
    stdpp's lookup and insert; calls on the peripherals (GPIO, serial port,
    display driver) and on the shared store are recorded as an ordered trace
    of events.  The three tasks are modelled one at a time: what another
    task may change under a task's feet (the relay pin) is an input of the
    model. *)

From Stdlib Require Import ZArith Bool Ascii String List Lia.
From Stdlib Require Import SpecFloat DecimalString.
From stdpp Require Import base list strings gmap.
Import ListNotations.

Local Open Scope Z_scope.

(* ===================================================================== *)
(** * C [float]: IEEE-754 binary32 *)
(* ===================================================================== *)

Module F32.

Definition prec : Z := 24.
Definition emax : Z := 128.

Definition float : Type := spec_float.

(** Conversion of a C integer to [float] (round to nearest even). *)
Definition of_Z (n : Z) : float := binary_normalize prec emax n 0 false.

Definition add : float -> float -> float := SFadd prec emax.
Definition sub : float -> float -> float := SFsub prec emax.
Definition mul : float -> float -> float := SFmul prec emax.
Definition div : float -> float -> float := SFdiv prec emax.

(** C comparisons; all of them are false on a NaN operand. *)
Definition ltb (x y : float) : bool := SFltb x y.
Definition leb (x y : float) : bool := SFleb x y.
Definition gtb (x y : float) : bool := SFltb y x.
Definition geb (x y : float) : bool := SFleb y x.

(** A decimal literal [n/d] as the compiler rounds it: for [n] and [d]
    below 2^24 the quotient is the binary32 number nearest to [n/d]. *)
Definition lit (n d : Z) : float := div (of_Z n) (of_Z d).

Definition zero : float := of_Z 0.
Definition one : float := of_Z 1.

Definition INT_MIN : Z := - 2 ^ 31.
Definition INT_MAX : Z := 2 ^ 31 - 1.

(** The cast [(int)x]: truncation toward zero; NaN, infinities and values
    outside the range of [int] have no defined result. *)
Definition to_int (x : float) : option Z :=
  match x with
  | S754_zero _ => Some 0
  | S754_finite s m e =>
      let mag := if Z.leb 0 e then Zpos m * 2 ^ e else Zpos m / 2 ^ (- e) in
      let v := if s then - mag else mag in
      if Z.leb INT_MIN v && Z.leb v INT_MAX then Some v else None
  | _ => None
  end.

End F32.

Abbreviation float := F32.float.

(* ===================================================================== *)
(** * The conversions of [printf] used by the firmware *)
(* ===================================================================== *)

Module Printf.

Definition nl : string := String "010"%char EmptyString.

(** [%d] *)
Definition fmt_d (z : Z) : string := NilZero.string_of_int (Z.to_int z).

(** Nearest integer to [num/den] ([den > 0]), ties to even. *)
Definition round_half_even (num den : Z) : Z :=
  let q := num / den in
  let r := num mod den in
  match Z.compare (2 * r) den with
  | Lt => q
  | Gt => q + 1
  | Eq => if Z.even q then q else q + 1
  end.

Fixpoint repeat_char (c : ascii) (n : nat) : string :=
  match n with
  | O => EmptyString
  | S n' => String c (repeat_char c n')
  end.

Definition pad_left (c : ascii) (width : nat) (s : string) : string :=
  (repeat_char c (width - String.length s) +:+ s)%string.

(** The digits of [|x| * 10^p] rounded to an integer, split at the decimal
    point. *)
Definition fixed_digits (p : nat) (m : positive) (e : Z) : string :=
  let scale := 10 ^ Z.of_nat p in
  let n := if Z.leb 0 e then Zpos m * 2 ^ e * scale
           else round_half_even (Zpos m * scale) (2 ^ (- e)) in
  let ip := fmt_d (n / scale) in
  match p with
  | O => ip
  | S _ => (ip +:+ "." +:+ pad_left "0"%char p (fmt_d (n mod scale)))%string
  end.

Definition sign_str (s : bool) : string := if s then "-"%string else EmptyString.

(** [%W.Pf] as the C library defines it, for a [float] argument (promoted
    to [double] without change of value): the exact binary value correctly
    rounded to [p] decimals, then padded with spaces on the left to [width]
    characters. *)
Definition fmt_f (width p : nat) (x : float) : string :=
  pad_left " "%char width
    match x with
    | S754_nan => "nan"%string
    | S754_infinity s => (sign_str s +:+ "inf")%string
    | S754_zero s =>
        (sign_str s +:+
         match p with
         | O => "0"%string
         | S _ => ("0." +:+ repeat_char "0"%char p)%string
         end)%string
    | S754_finite s m e => (sign_str s +:+ fixed_digits p m e)%string
    end.

End Printf.

(* ===================================================================== *)
(** * The shared snapshot and its two accessors *)
(* ===================================================================== *)

Module Store.

Inductive UiPhase : Type := UI_BOOT | UI_LOADING | UI_RUN | UI_ALERT.

Record Metrics : Type := mkMetrics {
  V : float;
  I : float;
  P : float;
  theft : float;
  alert : bool;
  relay : bool;
  phase : UiPhase;
  progress : float
}.

(** The global [g_last] and whether the handle [g_last_mtx] is non-null. *)
Record store : Type := mkStore {
  g_last : Metrics;
  g_last_mtx : bool
}.

(** Assignments to one field of a local copy, [m.V = v] and so on. *)
Definition set_V (v : float) (m : Metrics) : Metrics :=
  mkMetrics v (I m) (P m) (theft m) (alert m) (relay m) (phase m) (progress m).
Definition set_I (v : float) (m : Metrics) : Metrics :=
  mkMetrics (V m) v (P m) (theft m) (alert m) (relay m) (phase m) (progress m).
Definition set_P (v : float) (m : Metrics) : Metrics :=
  mkMetrics (V m) (I m) v (theft m) (alert m) (relay m) (phase m) (progress m).
Definition set_theft (v : float) (m : Metrics) : Metrics :=
  mkMetrics (V m) (I m) (P m) v (alert m) (relay m) (phase m) (progress m).
Definition set_alert (b : bool) (m : Metrics) : Metrics :=
  mkMetrics (V m) (I m) (P m) (theft m) b (relay m) (phase m) (progress m).
Definition set_relay (b : bool) (m : Metrics) : Metrics :=
  mkMetrics (V m) (I m) (P m) (theft m) (alert m) b (phase m) (progress m).
Definition set_phase (ph : UiPhase) (m : Metrics) : Metrics :=
  mkMetrics (V m) (I m) (P m) (theft m) (alert m) (relay m) ph (progress m).
Definition set_progress (v : float) (m : Metrics) : Metrics :=
  mkMetrics (V m) (I m) (P m) (theft m) (alert m) (relay m) (phase m) v.

Definition Metrics_init : Metrics :=
  mkMetrics F32.zero F32.zero F32.zero F32.zero false false UI_BOOT F32.zero.

(** The statics before [setup] runs. *)
Definition store_static : store := mkStore Metrics_init false.

(** [set_metrics(m)].  One task runs at a time in this model, so
    [xSemaphoreTake(.., portMAX_DELAY)] on a created mutex returns [pdTRUE];
    the condition of the [if] is then the non-null test alone. *)
Definition set_metrics (m : Metrics) (s : store) : store :=
  if g_last_mtx s then mkStore m (g_last_mtx s) else s.

(** [get_metrics()] *)
Definition get_metrics (s : store) : Metrics :=
  if g_last_mtx s then g_last s else g_last s.

(** What the prose specification says of the write: it replaces the stored
    snapshot whether or not the lock is available. *)
Definition write_as_specified (m : Metrics) (s : store) : store :=
  mkStore m (g_last_mtx s).

(** While the phase is still [UI_BOOT] the snapshot is the initial one. *)
Definition boot_inv (s : store) : Prop :=
  g_last s = Metrics_init \/ phase (g_last s) <> UI_BOOT.

Definition UiPhase_eqb (a b : UiPhase) : bool :=
  match a, b with
  | UI_BOOT, UI_BOOT | UI_LOADING, UI_LOADING
  | UI_RUN, UI_RUN | UI_ALERT, UI_ALERT => true
  | _, _ => false
  end.

End Store.

(* ===================================================================== *)
(** * Peripherals: pins and the event trace *)
(* ===================================================================== *)

Definition RELAY_PIN : Z := 16.
Definition RELAY_ACTIVE_LOW : bool := false.
Definition STATUS_LED : Z := 2.

(** One call on a peripheral or on the store.  [SerialPrintln s] is
    [Serial.println(s)], [SerialPrintf s] is [Serial.printf] with the format
    already expanded to [s] (the newline of the format string included),
    [SetMetrics m] is a call [set_metrics(m)]. *)
Inductive event : Type :=
  | DigitalWrite (pin : Z) (level : bool)
  | SerialPrintln (s : string)
  | SerialPrintf (s : string)
  | SetMetrics (m : Store.Metrics).

(** [relayWrite(on)] *)
Definition relayWrite (on : bool) : event :=
  DigitalWrite RELAY_PIN (if RELAY_ACTIVE_LOW then negb on else on).

(** The level of a pin after a trace, starting from level [v0]. *)
Fixpoint pin_after (pin : Z) (v0 : bool) (tr : list event) : bool :=
  match tr with
  | [] => v0
  | DigitalWrite p v :: tr' =>
      pin_after pin (if Z.eqb p pin then v else v0) tr'
  | _ :: tr' => pin_after pin v0 tr'
  end.

(** [relayIsOn()] on a pin level [v] ([true] is HIGH). *)
Definition relayIsOn (v : bool) : bool :=
  if RELAY_ACTIVE_LOW then negb v else v.

(* ===================================================================== *)
(** * The serial command parser *)
(* ===================================================================== *)

Module Parser.

Definition NUL : ascii := "000"%char.
Definition LF : ascii := "010"%char.
Definition CR : ascii := "013"%char.

(** [sizeof(buf)] *)
Definition BUF_SIZE : nat := 32.

(** The two function-local statics of [parseCommandByte]. *)
Record state : Type := mkState {
  buf : list ascii;
  len : nat
}.

Definition init : state := mkState (replicate BUF_SIZE NUL) 0.

Definition byte_val (c : ascii) : Z := Z.of_N (N_of_ascii c).

(** C [strcmp] on two character arrays: the comparison stops at the first
    difference or at the first NUL of the left operand; the end of a list
    reads as NUL (every array here is NUL-terminated before it is compared). *)
Fixpoint strcmp (a b : list ascii) : Z :=
  match a with
  | [] => 0 - byte_val (hd NUL b)
  | x :: a' =>
      let y := hd NUL b in
      if Ascii.eqb x y
      then (if Ascii.eqb x NUL then 0 else strcmp a' (tl b))
      else byte_val x - byte_val y
  end.

Definition lit (s : string) : list ascii := list_ascii_of_string s.

(** [parseCommandByte(c)]: the new statics and the peripheral calls made. *)
Definition parseCommandByte (c : ascii) (st : state) : state * list event :=
  if Ascii.eqb c CR then (st, [])
  else if negb (Ascii.eqb c LF) then
    (if Nat.ltb (len st) (BUF_SIZE - 1)
     then mkState (<[len st := c]> (buf st)) (S (len st))
     else st, [])
  else
    let b := <[len st := NUL]> (buf st) in
    let out :=
      if Z.eqb (strcmp b (lit "RELAY:ON")) 0
      then [relayWrite true; SerialPrintln "OK:RELAY:ON"]
      else if Z.eqb (strcmp b (lit "RELAY:OFF")) 0
      then [relayWrite false; SerialPrintln "OK:RELAY:OFF"]
      else if negb (Nat.eqb (len st) 0)
      then [SerialPrintln "ERR:UNKNOWN_CMD"]
      else [] in
    (mkState b 0, out).

(** [handleSerialInput]: every pending byte goes through the parser. *)
Fixpoint feed (bytes : list ascii) (st : state) : state * list event :=
  match bytes with
  | [] => (st, [])
  | c :: rest =>
      let '(st1, ev1) := parseCommandByte c st in
      let '(st2, ev2) := feed rest st1 in
      (st2, ev1 ++ ev2)
  end.

(** The bytes buffered so far for the current line. *)
Definition line (st : state) : list ascii := take (len st) (buf st).

(** The part of a byte sequence that a C string function sees: up to the
    first NUL. *)
Fixpoint cstr (l : list ascii) : list ascii :=
  match l with
  | [] => []
  | x :: l' => if Ascii.eqb x NUL then [] else x :: cstr l'
  end.

(** What a terminated line triggers, as a function of the buffered bytes. *)
Definition dispatch (l : list ascii) : list event :=
  if decide (cstr l = lit "RELAY:ON")
  then [relayWrite true; SerialPrintln "OK:RELAY:ON"]
  else if decide (cstr l = lit "RELAY:OFF")
  then [relayWrite false; SerialPrintln "OK:RELAY:OFF"]
  else match l with
       | [] => []
       | _ :: _ => [SerialPrintln "ERR:UNKNOWN_CMD"]
       end.

(** What the prose specification says a terminated line triggers: the
    whole buffered line is compared with the two commands. *)
Definition dispatch_by_line (l : list ascii) : list event :=
  if decide (l = lit "RELAY:ON")
  then [relayWrite true; SerialPrintln "OK:RELAY:ON"]
  else if decide (l = lit "RELAY:OFF")
  then [relayWrite false; SerialPrintln "OK:RELAY:OFF"]
  else match l with
       | [] => []
       | _ :: _ => [SerialPrintln "ERR:UNKNOWN_CMD"]
       end.

(** The parser described on lines instead of on the array: [cur] is the
    current line, [on_line] what a terminated line triggers. *)
Definition line_step (on_line : list ascii -> list event)
    (c : ascii) (cur : list ascii) : list ascii * list event :=
  if Ascii.eqb c CR then (cur, [])
  else if Ascii.eqb c LF then ([], on_line cur)
  else if Nat.ltb (length cur) (BUF_SIZE - 1) then (cur ++ [c], [])
  else (cur, []).

Fixpoint line_parser (on_line : list ascii -> list event)
    (bytes : list ascii) (cur : list ascii) : list ascii * list event :=
  match bytes with
  | [] => (cur, [])
  | c :: rest =>
      let '(cur1, ev1) := line_step on_line c cur in
      let '(cur2, ev2) := line_parser on_line rest cur1 in
      (cur2, ev1 ++ ev2)
  end.

Definition not_CR (c : ascii) : bool := negb (Ascii.eqb c CR).

(** The invariant of the two statics. *)
Definition wf (st : state) : Prop :=
  length (buf st) = BUF_SIZE /\ (len st <= BUF_SIZE - 1)%nat.

End Parser.

(* ===================================================================== *)
(** * From the classifier result to one theft probability *)
(* ===================================================================== *)

Module Labels.

(** One entry of [result.classification]. *)
Record classification_t : Type := mkClass {
  label : string;
  value : float
}.

(** [result.classification[0 .. EI_CLASSIFIER_LABEL_COUNT-1]] *)
Definition ei_impulse_result_t : Type := list classification_t.

(** C [strstr]: the offset of the first occurrence of [needle], if any. *)
Fixpoint strstr (hay needle : string) : option nat :=
  if String.prefix needle hay then Some O
  else match hay with
       | EmptyString => None
       | String _ hay' => option_map S (strstr hay' needle)
       end.

Definition label_has (L s : string) : bool :=
  match strstr L s with Some _ => true | None => false end.

(** The five accumulators of the loop. *)
Record sums : Type := mkSums {
  p_theft : float;
  p_normal : float;
  p_tamper : float;
  p_on : float;
  p_off : float
}.

Definition sums0 : sums :=
  mkSums F32.zero F32.zero F32.zero F32.zero F32.zero.

(** One iteration of the loop over the labels. *)
Definition accumulate (a : sums) (c : classification_t) : sums :=
  let L := label c in
  let v := value c in
  mkSums
    (if label_has L "theft" then F32.add (p_theft a) v else p_theft a)
    (if label_has L "normal" then F32.add (p_normal a) v else p_normal a)
    (if label_has L "tamper" then F32.add (p_tamper a) v else p_tamper a)
    (if label_has L "on" then F32.add (p_on a) v else p_on a)
    (if label_has L "off" then F32.add (p_off a) v else p_off a).

(** [theft_metric_from_labels(res, relay_on)] *)
Definition theft_metric_from_labels
    (res : ei_impulse_result_t) (relay_on : bool) : float :=
  let a := fold_left accumulate res sums0 in
  if F32.gtb (F32.add (p_theft a) (p_tamper a)) F32.zero
  then F32.add (p_theft a) (p_tamper a)
  else if F32.gtb (p_normal a) F32.zero
  then F32.sub F32.one (p_normal a)
  else if F32.gtb (p_on a) F32.zero || F32.gtb (p_off a) F32.zero
  then (if relay_on then p_on a else p_off a)
  else F32.sub F32.one (p_normal a).

(** The summed probability, in array order, of the labels selected by
    [sel]. *)
Definition sum_where (sel : string -> bool) (res : ei_impulse_result_t) : float :=
  fold_left F32.add (map value (List.filter (fun c => sel (label c)) res)) F32.zero.

(** Whether a label selected by [sel] is present. *)
Definition present (sel : string -> bool) (res : ei_impulse_result_t) : bool :=
  existsb (fun c => sel (label c)) res.

Definition has (s : string) : string -> bool := fun L => label_has L s.

(** The rule cascade as the prose specification words it: rule (a) sums
    over the labels that contain "theft" or "tamper", rules (b) and (c) are
    selected by the presence of a label. *)
Definition metric_as_specified
    (res : ei_impulse_result_t) (relay_on : bool) : float :=
  let tt := sum_where (fun L => has "theft" L || has "tamper" L) res in
  if F32.gtb tt F32.zero then tt
  else if present (has "normal") res
  then F32.sub F32.one (sum_where (has "normal") res)
  else if present (has "on") res || present (has "off") res
  then (if relay_on then sum_where (has "on") res else sum_where (has "off") res)
  else F32.sub F32.one (sum_where (has "normal") res).

End Labels.

(* ===================================================================== *)
(** * The sampling and decision task *)
(* ===================================================================== *)

Module ML.

Import Store.

Definition EWMA_ALPHA : float := F32.lit 1 2.
Definition THEFT_THRESHOLD : float := F32.lit 6 10.
Definition VOTE_N : Z := 3.
Definition EI_IMPULSE_OK : Z := 0.

(** What the hardware returns at one sampling instant: the two INA219
    readings and the level read back on the relay pin. *)
Record sample : Type := mkSample {
  busVoltage_V : float;
  current_mA : float;
  relay_level : bool
}.

(** The environment of one window: the readings of its samples, by loop
    index, and the relay pin level when the decision is taken. *)
Record window_env : Type := mkWindow {
  sensor : nat -> sample;
  relay_at_decision : bool
}.

(** The globals and the task-local flag that outlive a window. *)
Record state : Type := mkML {
  features : list float;
  theft_prob_ewma : float;
  vote_hist : list Z;
  vote_hist_idx : Z;
  first_window : bool;
  shared : store
}.

(** The locals of one iteration of the outer loop. *)
Record locals : Type := mkLocals {
  ix : nat;
  sumV : float;
  sumI : float;
  sumP : float
}.

Definition locals0 : locals := mkLocals O F32.zero F32.zero F32.zero.

Definition with_features (f : list float) (st : state) : state :=
  mkML f (theft_prob_ewma st) (vote_hist st) (vote_hist_idx st)
       (first_window st) (shared st).

Definition with_shared (s : store) (st : state) : state :=
  mkML (features st) (theft_prob_ewma st) (vote_hist st) (vote_hist_idx st)
       (first_window st) s.

(** [(theft_prob >= 0.5f) ? 1 : 0] *)
Definition binarize (p : float) : Z :=
  if F32.geb p (F32.lit 1 2) then 1 else 0.

(** [for (i = 0; i < VOTE_N; i++) vote_sum += vote_hist[i]] *)
Definition vote_sum (hist : list Z) : Z :=
  fold_left (fun s i => s + nth i hist 0) (seq 0 (Z.to_nat VOTE_N)) 0.

Definition vote_theft (hist : list Z) : bool :=
  Z.leb (Z.quot (VOTE_N + 1) 2) (vote_sum hist).

(** The telemetry [printf]. *)
Definition telemetry (V_mean I_mean P_mean ewma : float) (alert : bool) : string :=
  ("DATA:V=" +:+ Printf.fmt_f 0 3 V_mean +:+
   ",I=" +:+ Printf.fmt_f 0 3 I_mean +:+
   ",P=" +:+ Printf.fmt_f 0 3 P_mean +:+
   ",THEFT=" +:+ Printf.fmt_f 0 2 ewma +:+
   ",ALERT=" +:+ Printf.fmt_d (if alert then 1 else 0) +:+ Printf.nl)%string.

(** Axis [k] of a slot packed from [V], [I], [P], [R]. *)
Definition axis_of (V I P R : float) (k : nat) : float :=
  match k with
  | 0%nat => V
  | 1%nat => I
  | 2%nat => P
  | 3%nat => R
  | _ => F32.zero
  end.

Definition classifier_error (err : Z) : string :=
  ("ERR:Classifier(" +:+ Printf.fmt_d err +:+ ")" +:+ Printf.nl)%string.

Section Model.

(** [EI_CLASSIFIER_DSP_INPUT_FRAME_SIZE] and [EI_CLASSIFIER_RAW_SAMPLE_COUNT]
    come from the model header. *)
Variable kTotalLen : nat.
Variable kRawCount : nat.

(** The Edge Impulse classifier: from the feature buffer to a status and
    the labelled probabilities. *)
Variable run_classifier : list float -> Z * Labels.ei_impulse_result_t.

Definition kModelAxes : nat := (kTotalLen / kRawCount)%nat.

(** The statics at the start of [taskML], after [setup] created the mutex
    ([mtx] tells whether the creation succeeded) and seeded the snapshot. *)
Definition init (mtx : bool) : state :=
  mkML (replicate kTotalLen F32.zero) F32.zero
       (replicate (Z.to_nat VOTE_N) 0) 0 true
       (set_metrics Metrics_init (mkStore Metrics_init mtx)).

(** The body of [if (ix + kModelAxes <= kTotalLen)], [ix += ..] apart. *)
Definition pack (base : nat) (V I P R : float) (f : list float) : list float :=
  let f := if (1 <=? kModelAxes)%nat then <[(base + 0)%nat := V]> f else f in
  let f := if (2 <=? kModelAxes)%nat then <[(base + 1)%nat := I]> f else f in
  let f := if (3 <=? kModelAxes)%nat then <[(base + 2)%nat := P]> f else f in
  let f := if (4 <=? kModelAxes)%nat then <[(base + 3)%nat := R]> f else f in
  fold_left (fun g k => <[(base + k)%nat := F32.zero]> g)
            (seq 4 (kModelAxes - 4)) f.

(** One iteration of the inner loop, for sample index [n]. *)
Definition sample_step (w : window_env)
    (acc : locals * state * list event) (n : nat)
    : locals * state * list event :=
  let '(l, st, tr) := acc in
  let V := busVoltage_V (sensor w n) in
  let I := F32.mul (current_mA (sensor w n)) (F32.lit 1 1000) in
  let P := F32.mul V I in
  let R := if relayIsOn (relay_level (sensor w n)) then F32.one else F32.zero in
  let '(f, ix') :=
    if (ix l + kModelAxes <=? kTotalLen)%nat
    then (pack (ix l) V I P R (features st), (ix l + kModelAxes)%nat)
    else (features st, ix l) in
  let l' := mkLocals ix' (F32.add (sumV l) V) (F32.add (sumI l) I)
                     (F32.add (sumP l) P) in
  let st' := with_features f st in
  if first_window st then
    let mm := get_metrics (shared st') in
    let mm := set_phase UI_LOADING mm in
    let mm := set_progress
                (F32.div (F32.of_Z (Z.of_nat (n + 1)))
                         (F32.of_Z (Z.of_nat kRawCount))) mm in
    (l', with_shared (set_metrics mm (shared st')) st', tr ++ [SetMetrics mm])
  else (l', st', tr).

(** The inner loop: [kRawCount] samples. *)
Definition sampling (w : window_env) (st : state)
    : locals * state * list event :=
  fold_left (sample_step w) (seq 0 kRawCount) (locals0, st, []).

(** The tail of the outer loop's body once the classifier succeeded. *)
Definition decision (w : window_env) (l : locals)
    (result : Labels.ei_impulse_result_t) (st : state) : state * list event :=
  let relay_on := relayIsOn (relay_at_decision w) in
  let theft_prob := Labels.theft_metric_from_labels result relay_on in
  let ewma :=
    F32.add (F32.mul EWMA_ALPHA theft_prob)
            (F32.mul (F32.sub F32.one EWMA_ALPHA) (theft_prob_ewma st)) in
  let hist := <[Z.to_nat (vote_hist_idx st) := binarize theft_prob]> (vote_hist st) in
  let idx := Z.rem (vote_hist_idx st + 1) VOTE_N in
  let alert := F32.geb ewma THEFT_THRESHOLD || vote_theft hist in
  let V_mean := F32.div (sumV l) (F32.of_Z (Z.of_nat kRawCount)) in
  let I_mean := F32.div (sumI l) (F32.of_Z (Z.of_nat kRawCount)) in
  let P_mean := F32.div (sumP l) (F32.of_Z (Z.of_nat kRawCount)) in
  let m := get_metrics (shared st) in
  let m := set_V V_mean m in
  let m := set_I I_mean m in
  let m := set_P P_mean m in
  let m := set_theft ewma m in
  let m := set_alert alert m in
  let m := set_relay relay_on m in
  let m := set_progress F32.one m in
  let m := set_phase (if alert then UI_ALERT else UI_RUN) m in
  (mkML (features st) ewma hist idx false (set_metrics m (shared st)),
   [DigitalWrite STATUS_LED alert;
    SerialPrintf (telemetry V_mean I_mean P_mean ewma alert);
    SetMetrics m]).

(** One iteration of the outer [for (;;)]: the state it leaves and the
    calls it made, in order. *)
Definition taskML_window (w : window_env) (st : state) : state * list event :=
  let '(l, st1, tr1) := sampling w st in
  let '(err, result) := run_classifier (features st1) in
  if negb (Z.eqb err EI_IMPULSE_OK)
  then (st1, tr1 ++ [SerialPrintf (classifier_error err)])
  else let '(st2, tr2) := decision w l result st1 in (st2, tr1 ++ tr2).

(** The outer loop over the windows of a run; one trace per window. *)
Fixpoint taskML (ws : list window_env) (st : state)
    : state * list (list event) :=
  match ws with
  | [] => (st, [])
  | w :: ws' =>
      let '(st1, tr) := taskML_window w st in
      let '(st2, trs) := taskML ws' st1 in
      (st2, tr :: trs)
  end.

(** The binarized decision a window pushes into the vote history; [None]
    when the classifier fails. *)
Definition window_vote (w : window_env) (st : state) : option Z :=
  let '(_, st1, _) := sampling w st in
  let '(err, result) := run_classifier (features st1) in
  if negb (Z.eqb err EI_IMPULSE_OK) then None
  else Some (binarize (Labels.theft_metric_from_labels result
                         (relayIsOn (relay_at_decision w)))).

(** The decisions pushed over a run, most recent first, on top of [acc]. *)
Fixpoint votes_cast (ws : list window_env) (st : state) (acc : list Z)
    : list Z :=
  match ws with
  | [] => acc
  | w :: ws' =>
      votes_cast ws' (fst (taskML_window w st))
        (match window_vote w st with Some d => d :: acc | None => acc end)
  end.

(** The snapshot written after sample [n] of a loading window that started
    on snapshot [g]. *)
Definition loading_snapshot (g : Metrics) (n : nat) : Metrics :=
  set_progress
    (F32.div (F32.of_Z (Z.of_nat (n + 1))) (F32.of_Z (Z.of_nat kRawCount)))
    (set_phase UI_LOADING g).

(** The value the packing gives to axis [k] of a sample: voltage, current
    in amperes, power, relay state, then zeros. *)
Definition axis_value (s : sample) (k : nat) : float :=
  let V := busVoltage_V s in
  let I := F32.mul (current_mA s) (F32.lit 1 1000) in
  axis_of V I (F32.mul V I)
          (if relayIsOn (relay_level s) then F32.one else F32.zero) k.

End Model.

(** A window in which every sample reads the same values. *)
Definition steady (V mA : float) (r : bool) : window_env :=
  mkWindow (fun _ => mkSample V mA r) r.

(** A classifier that fails with status [err] on every window. *)
Definition failing (err : Z) : list float -> Z * Labels.ei_impulse_result_t :=
  fun _ => (err, []).

(** A classifier that always answers with the result [res]. *)
Definition answering (res : Labels.ei_impulse_result_t)
    : list float -> Z * Labels.ei_impulse_result_t :=
  fun _ => (EI_IMPULSE_OK, res).

(** After [k] pushes, how many pushes ago slot [i] of the ring was
    written: 0 for the latest, 2 for the oldest. *)
Definition age (k : nat) (i : Z) : nat :=
  Z.to_nat ((Z.of_nat k - 1 - i) mod 3).

(** The ring buffer after the decisions [ds] (most recent first): slot [i]
    holds the decision of age [age (length ds) i], or the initial 0. *)
Definition ring_of (ds : list Z) : list Z :=
  map (fun i => nth (age (length ds) i) ds 0) [0; 1; 2].

(** The vote globals hold the ring of the decisions [ds], and the write
    index is the number of decisions modulo 3. *)
Definition ring_state (ds : list Z) (st : state) : Prop :=
  vote_hist st = ring_of ds
  /\ vote_hist_idx st = Z.of_nat (length ds) mod 3.

(** Whether an event is a snapshot write with [phase = UI_LOADING]. *)
Definition is_loading_write (e : event) : bool :=
  match e with
  | SetMetrics m => UiPhase_eqb (phase m) UI_LOADING
  | _ => false
  end.

Definition is_serial (e : event) : bool :=
  match e with
  | SerialPrintln _ | SerialPrintf _ => true
  | _ => false
  end.

End ML.

(* ===================================================================== *)
(** * The display task *)
(* ===================================================================== *)

Module Display.

Import Store.

Definition SCREEN_WIDTH : Z := 128.
Definition SCREEN_HEIGHT : Z := 64.
Definition SSD1306_BLACK : Z := 0.
Definition SSD1306_WHITE : Z := 1.

(** The frame budget of the boot animation. *)
Definition BOOT_FRAMES : Z := 20.

(** One call on the display driver. *)
Inductive gfx : Type :=
  | ClearDisplay
  | SetTextSize (n : Z)
  | SetTextColor (fg : Z)
  | SetTextColorBg (fg bg : Z)
  | SetCursor (x y : Z)
  | Print (s : string)
  | DrawRect (x y w h color : Z)
  | FillRect (x y w h color : Z)
  | DrawCircle (x y r color : Z)
  | DrawLine (x0 y0 x1 y1 color : Z)
  | DrawBitmap (x y : Z) (bitmap : list Z) (w h color : Z)
  | InvertDisplay (b : bool)
  | DisplayFlush.

Definition kAlertTri_24x24 : list Z :=
  [0x00;0x00;0x80; 0x00;0x01;0xC0; 0x00;0x03;0xE0;
   0x00;0x07;0xF0; 0x00;0x0F;0xF8; 0x00;0x1F;0xFC;
   0x00;0x3E;0x7E; 0x00;0x7C;0x3F; 0x00;0xF8;0x1F;
   0x01;0xF0;0x0F; 0x03;0xE0;0x07; 0x07;0xC0;0x03;
   0x0F;0x80;0x01; 0x1F;0xFF;0xF8; 0x3F;0xFF;0xFC;
   0x7F;0xFF;0xFE; 0x7F;0xFF;0xFE; 0x7F;0xFF;0xFE;
   0x7F;0xFF;0xFE; 0x7F;0xFF;0xFE; 0x7F;0xFF;0xFE;
   0x7F;0xFF;0xFE; 0x7F;0xFF;0xFE; 0x7F;0xFF;0xFE].

(** The value a [uint32_t] parameter takes from its argument. *)
Definition uint32 (z : Z) : Z := z mod 2 ^ 32.

(** [x < 0 ? 0 : (x > 1 ? 1 : x)] *)
Definition clamp01 (x : float) : float :=
  if F32.ltb x (F32.of_Z 0) then F32.of_Z 0
  else if F32.gtb x (F32.of_Z 1) then F32.of_Z 1
  else x.

Definition on_off (b : bool) : string := if b then "ON "%string else "OFF"%string.

(** [drawBootFrame(frame)] *)
Definition drawBootFrame (frame : Z) : list gfx :=
  let x := -80 + frame * 6 in
  let x := if Z.ltb 8 x then 8 else x in
  let dots := [".  "; ".. "; "..."; "   "]%string in
  [ClearDisplay; SetTextSize 2; SetTextColor SSD1306_WHITE;
   SetCursor x 10; Print "SMART";
   SetCursor x 32; Print "EMETER";
   SetTextSize 1; SetCursor 8 54;
   Print "starting";
   Print (nth (Z.to_nat (Z.rem (Z.quot frame 6) 4)) dots EmptyString);
   DisplayFlush].

(** The width of the filled part of the loading bar,
    [(int)((SCREEN_WIDTH - 4) * clamp(m.progress))]. *)
Definition loading_fill (m : Metrics) : option Z :=
  F32.to_int (F32.mul (F32.of_Z (SCREEN_WIDTH - 4)) (clamp01 (progress m))).

(** [drawLoading(m, t_ms)], with [t_ms] a [uint32_t]; [None] when the cast
    to [int] is undefined. *)
Definition drawLoading (m : Metrics) (t_ms : Z) : option (list gfx) :=
  let t_ms := uint32 t_ms in
  match loading_fill m with
  | None => None
  | Some w =>
      let phase := Z.rem (Z.quot t_ms 150) 4 in
      let cx := SCREEN_WIDTH - 12 in
      let cy := 6 in
      Some
        ([ClearDisplay; SetTextSize 1; SetTextColor SSD1306_WHITE;
          SetCursor 0 0; Print "Loading model window";
          DrawRect 0 18 SCREEN_WIDTH 12 SSD1306_WHITE;
          FillRect 2 20 w 8 SSD1306_WHITE;
          DrawCircle cx cy 5 SSD1306_WHITE;
          (if Z.eqb phase 0 then DrawLine cx cy cx (cy - 4) SSD1306_WHITE
           else if Z.eqb phase 1 then DrawLine cx cy (cx + 4) cy SSD1306_WHITE
           else if Z.eqb phase 2 then DrawLine cx cy cx (cy + 4) SSD1306_WHITE
           else DrawLine cx cy (cx - 4) cy SSD1306_WHITE);
          SetCursor 0 40;
          Print ("V:" +:+ Printf.fmt_f 5 1 (V m) +:+ "V  I:" +:+
                 Printf.fmt_f 5 3 (I m) +:+ "A" +:+ Printf.nl);
          Print ("P:" +:+ Printf.fmt_f 5 1 (P m) +:+ "W  R:" +:+
                 on_off (relay m) +:+ Printf.nl);
          DisplayFlush])
  end.

(** [drawRun(m)] *)
Definition drawRun (m : Metrics) : option (list gfx) :=
  match F32.to_int (F32.mul (F32.of_Z (SCREEN_WIDTH - 2)) (clamp01 (theft m))) with
  | None => None
  | Some bw =>
      Some
        ([ClearDisplay; SetTextSize 1; SetTextColor SSD1306_WHITE;
          SetCursor 0 0;
          Print ("V:" +:+ Printf.fmt_f 6 1 (V m) +:+ "V  I:" +:+
                 Printf.fmt_f 6 3 (I m) +:+ "A" +:+ Printf.nl);
          Print ("P:" +:+ Printf.fmt_f 6 1 (P m) +:+ "W  R:" +:+
                 on_off (relay m) +:+ Printf.nl);
          Print ("THEFT: " +:+ Printf.fmt_f 0 2 (theft m) +:+ Printf.nl);
          DrawRect 0 40 SCREEN_WIDTH 12 SSD1306_WHITE;
          FillRect 1 41 bw 10 SSD1306_WHITE;
          SetCursor 0 56; Print "OK";
          DisplayFlush])
  end.

(** The hazard stripes of [drawAlert]: the two nested loops. *)
Definition stripes (t_ms : Z) : list gfx :=
  flat_map
    (fun y =>
       let xoff := Z.rem ((Z.quot t_ms 40 + y) mod 2 ^ 32) 8 in
       map (fun x => FillRect (x + xoff) y 8 8 SSD1306_WHITE)
           (map (fun k => -8 + 16 * Z.of_nat k)
                (seq 0 (Z.to_nat ((SCREEN_WIDTH + 8 + 15) / 16)))))
    (map (fun k => 8 * Z.of_nat k) (seq 0 (Z.to_nat ((SCREEN_HEIGHT + 7) / 8)))).

(** [drawAlert(m, t_ms)], with [t_ms] a [uint32_t] *)
Definition drawAlert (m : Metrics) (t_ms : Z) : list gfx :=
  let t_ms := uint32 t_ms in
  let invert := Z.eqb (Z.rem (Z.quot t_ms 160) 2) 0 in
  [ClearDisplay; InvertDisplay invert]
  ++ stripes t_ms
  ++ [DrawBitmap (Z.quot (SCREEN_WIDTH - 24) 2) 4 kAlertTri_24x24 24 24 SSD1306_BLACK;
      FillRect 0 36 SCREEN_WIDTH 28 SSD1306_BLACK;
      SetTextColorBg SSD1306_WHITE SSD1306_BLACK;
      SetTextSize 1;
      SetCursor 6 40; Print "THEFT DETECTED";
      SetCursor 6 52;
      Print ("p=" +:+ Printf.fmt_f 0 2 (theft m) +:+ "  P:" +:+
             Printf.fmt_f 5 0 (P m) +:+ "W");
      InvertDisplay false; DisplayFlush].

(** Which renderer a tick calls, with its arguments. *)
Inductive draw_call : Type :=
  | CallBoot (frame : Z)
  | CallLoading (m : Metrics) (t_ms : Z)
  | CallAlert (m : Metrics) (t_ms : Z)
  | CallRun (m : Metrics).

Definition render (c : draw_call) : option (list gfx) :=
  match c with
  | CallBoot frame => Some (drawBootFrame frame)
  | CallLoading m t => drawLoading m t
  | CallAlert m t => Some (drawAlert m t)
  | CallRun m => drawRun m
  end.

(** What a tick of [taskDisplay] can touch: the shared store and the
    task-local [boot_frames] (a [uint16_t]). *)
Record state : Type := mkDisplay {
  shared : store;
  boot_frames : Z
}.

Definition init (s : store) : state := mkDisplay s 0.

(** One iteration of the loop of [taskDisplay] at time [now]. *)
Definition tick (now : Z) (st : state) : state * draw_call :=
  let m := get_metrics (shared st) in
  if UiPhase_eqb (phase m) UI_BOOT && Z.ltb (boot_frames st) BOOT_FRAMES
  then (mkDisplay (shared st) ((boot_frames st + 1) mod 2 ^ 16),
        CallBoot (boot_frames st))
  else if UiPhase_eqb (phase m) UI_LOADING
  then (st, CallLoading m now)
  else if UiPhase_eqb (phase m) UI_ALERT
  then (st, CallAlert m now)
  else (st, CallRun m).

(** The four views. *)
Inductive view : Type := BOOT | LOADING | ALERT | RUN.

Definition view_of (c : draw_call) : view :=
  match c with
  | CallBoot _ => BOOT
  | CallLoading _ _ => LOADING
  | CallAlert _ _ => ALERT
  | CallRun _ => RUN
  end.

End Display.

(* ===================================================================== *)
(** * The serial task and the lines of its input *)
(* ===================================================================== *)

Module Serial.

(** [taskSerial]: one call of [handleSerialInput] per poll, each draining
    the bytes pending at that moment. *)
Fixpoint taskSerial (polls : list (list ascii)) (st : Parser.state)
    : Parser.state * list event :=
  match polls with
  | [] => (st, [])
  | pending :: later =>
      let '(st1, ev1) := Parser.feed pending st in
      let '(st2, ev2) := taskSerial later st1 in
      (st2, ev1 ++ ev2)
  end.

(** A byte sequence cut at its newlines: the terminated lines, in order,
    and the bytes after the last newline. *)
Fixpoint split_lines (bytes : list ascii) : list (list ascii) * list ascii :=
  match bytes with
  | [] => ([], [])
  | c :: rest =>
      let '(ls, open_line) := split_lines rest in
      if Ascii.eqb c Parser.LF then ([] :: ls, open_line)
      else match ls with
           | [] => ([], c :: open_line)
           | l :: ls' => ((c :: l) :: ls', open_line)
           end
  end.

(** What the buffer retains of a line: its first 31 bytes other than
    carriage returns. *)
Definition content (l : list ascii) : list ascii :=
  take (Parser.BUF_SIZE - 1) (List.filter Parser.not_CR l).

Definition is_blank (l : list ascii) : bool :=
  match content l with [] => true | _ :: _ => false end.

(** The relay state a line leaves, from the state [r] before it. *)
Definition command_level (r : bool) (l : list ascii) : bool :=
  if decide (Parser.cstr (content l) = Parser.lit "RELAY:ON") then true
  else if decide (Parser.cstr (content l) = Parser.lit "RELAY:OFF") then false
  else r.

End Serial.

(* ===================================================================== *)
(** * The classifier's view of the feature buffer; what a trace touches *)
(* ===================================================================== *)

Module Signal.

(** [raw_feature_get_data(offset, length, out_ptr)] on the global
    [features]: the floats [memcpy] stores at [out_ptr] and the status
    returned; [None] when the copy would read past the end of the array. *)
Definition raw_feature_get_data
    (features : list float) (offset length : nat) : option (list float * Z) :=
  if (offset + length <=? List.length features)%nat
  then Some (take length (drop offset features), 0)
  else None.

End Signal.

Module Trace.

Import Store.

(** Whether an event leaves every pin but [pin] alone. *)
Definition only_pin (pin : Z) (e : event) : bool :=
  match e with
  | DigitalWrite p _ => Z.eqb p pin
  | _ => true
  end.

Definition is_pin_write (e : event) : bool :=
  match e with
  | DigitalWrite _ _ => true
  | _ => false
  end.

(** The snapshot is coherent with the progress of [taskML]: the alert
    flag goes with phase ALERT; until a window has been classified the
    phase is BOOT or LOADING and every metric is still zero; afterwards,
    where the store takes writes, the phase is RUN or ALERT with progress
    1. *)
Definition coherent (first_window : bool) (s : store) : Prop :=
  let g := g_last s in
  (alert g = true <-> phase g = UI_ALERT)
  /\ (phase g = UI_BOOT \/ phase g = UI_LOADING ->
      V g = F32.zero /\ I g = F32.zero /\ P g = F32.zero
      /\ theft g = F32.zero /\ alert g = false /\ relay g = false)
  /\ (phase g = UI_RUN \/ phase g = UI_ALERT -> progress g = F32.one)
  /\ (first_window = true -> phase g = UI_BOOT \/ phase g = UI_LOADING)
  /\ (first_window = false -> g_last_mtx s = true ->
      phase g = UI_RUN \/ phase g = UI_ALERT).

(** None of the five keywords occurs in the label. *)
Definition no_keyword (L : string) : bool :=
  negb (Labels.label_has L "theft" || Labels.label_has L "tamper"
        || Labels.label_has L "normal" || Labels.label_has L "on"
        || Labels.label_has L "off").

End Trace.

Module Screen.

Import Store Display.

(** [taskDisplay]: the loop, one entry of [ticks] per iteration, holding the
    value of [millis()] and the shared store as the other tasks have left
    it when the iteration reads it.  Returns the final [boot_frames] and
    the renderer called by each iteration. *)
Fixpoint taskDisplay (ticks : list (Z * store)) (boot_frames : Z)
    : Z * list draw_call :=
  match ticks with
  | [] => (boot_frames, [])
  | (now, s) :: rest =>
      let r := tick now (mkDisplay s boot_frames) in
      let r' := taskDisplay rest (Display.boot_frames r.1) in
      (r'.1, r.2 :: r'.2)
  end.

(** The frame number of a call of [drawBootFrame]. *)
Definition boot_frame (c : draw_call) : option Z :=
  match c with CallBoot frame => Some frame | _ => None end.

(** Whether an iteration reads the phase [UI_BOOT]. *)
Definition in_boot (t : Z * store) : bool :=
  UiPhase_eqb (phase (g_last t.2)) UI_BOOT.

Definition is_flush (c : gfx) : bool :=
  match c with DisplayFlush => true | _ => false end.

Definition is_clear (c : gfx) : bool :=
  match c with ClearDisplay => true | _ => false end.

(** The inversion a sequence of driver calls leaves the panel in, if it
    sets it at all. *)
Definition last_invert (g : list gfx) : option bool :=
  fold_left (fun acc c => match c with InvertDisplay b => Some b | _ => acc end)
            g None.

End Screen.

Module Boot.

Import Store.







End Boot.

(* ===================================================================== *)
(** * The dashboard end of the serial line (src/lib/webserial.ts) *)
(* ===================================================================== *)

(** JavaScript numbers: IEEE binary64. *)
Module F64.

Definition prec : Z := 53.
Definition emax : Z := 1024.

Definition number : Type := spec_float.

Definition of_Z (n : Z) : number := binary_normalize prec emax n 0 false.

(** [x === y] on two numbers. *)
Definition strict_eq (x y : number) : bool := SFeqb x y.

End F64.

Module Host.

(** The strings of this module hold decoded serial text.  The firmware
    prints ASCII only; on ASCII text the operations below are those of
    JavaScript. *)

(** [s.split(sep)] for a one-character separator. *)
Fixpoint split (sep : ascii) (s : string) : list string :=
  match s with
  | EmptyString => [EmptyString]
  | String c s' =>
      if Ascii.eqb c sep then EmptyString :: split sep s'
      else match split sep s' with
           | [] => [String c EmptyString]
           | h :: t => String c h :: t
           end
  end.

(** White space and line terminators below U+0080. *)
Definition is_white (c : ascii) : bool :=
  let n := N_of_ascii c in
  (N.leb 9 n && N.leb n 13) || N.eqb n 32.

Fixpoint trimStart (s : string) : string :=
  match s with
  | EmptyString => EmptyString
  | String c s' => if is_white c then trimStart s' else s
  end.

Fixpoint trimEnd (s : string) : string :=
  match s with
  | EmptyString => EmptyString
  | String c s' =>
      match trimEnd s' with
      | EmptyString => if is_white c then EmptyString else String c EmptyString
      | String _ _ as r => String c r
      end
  end.

(** [s.trim()] *)
Definition trim (s : string) : string := trimEnd (trimStart s).

(** [s.substring(n)] *)
Fixpoint substring (n : nat) (s : string) : string :=
  match n, s with
  | O, _ => s
  | S _, EmptyString => EmptyString
  | S n', String _ s' => substring n' s'
  end.

Definition lower (c : ascii) : ascii :=
  let n := N_of_ascii c in
  if N.leb 65 n && N.leb n 90 then ascii_of_N (n + 32) else c.

(** [s.toLowerCase()] *)
Fixpoint toLowerCase (s : string) : string :=
  match s with
  | EmptyString => EmptyString
  | String c s' => String (lower c) (toLowerCase s')
  end.

(** A string in a condition: the empty string is falsy. *)
Definition truthy (s : string) : bool :=
  match s with EmptyString => false | String _ _ => true end.

Definition LF : string := String "010"%char EmptyString.

Record DeviceData : Type := mkDeviceData {
  voltage : F64.number;
  current : F64.number;
  power : F64.number;
  theft : F64.number;
  alert : bool;
  relay : bool;
  timestamp : Z
}.

(** What [parseLine] does to the outside: the data callback and the
    console. *)
Inductive effect : Type :=
  | OnData (d : DeviceData)
  | ConsoleLog (line : string).

(** [sendCommand(command)]: the text handed to the writer. *)
Definition sendCommand (command : string) : string := command +:+ LF.

(** [lines.pop()] with its fallback to the empty string, and the array
    left behind. *)
Definition pop (lines : list string) : list string * string :=
  (List.removelast lines, List.last lines EmptyString).

Section Parse.

(** [parseFloat] is the built-in; nothing is assumed of it. *)
Variable parseFloat : string -> F64.number.

(** The body of the loop over the pairs of [parseLine]:
    [const [key, value] = pair.split("=")], then the guarded assignment.
    (An assignment under the key [__proto__] leaves a JavaScript object as
    it is, where the map records it; no lookup of [parseLine] reads that
    key.) *)
Definition assign (data : gmap string F64.number) (pair : string)
    : gmap string F64.number :=
  match split "="%char pair with
  | key :: value :: _ =>
      if truthy key && truthy value
      then <[toLowerCase key := parseFloat value]> data
      else data
  | _ => data
  end.

(** [parseLine(line)], with [now] the value of [Date.now()]. *)
Definition parseLine (now : Z) (line : string) : list effect :=
  if negb (truthy line) then []
  else
    (if String.prefix "DATA:" line
     then
       let data := fold_left assign (split ","%char (substring 5 line)) ∅ in
       match data !! "v"%string, data !! "i"%string, data !! "p"%string with
       | Some v, Some i, Some p =>
           [OnData
              (mkDeviceData v i p
                 (match data !! "theft"%string with
                  | Some t => t
                  | None => F64.of_Z 0
                  end)
                 (match data !! "alert"%string with
                  | Some a => F64.strict_eq a (F64.of_Z 1)
                  | None => false
                  end)
                 (match data !! "relay"%string with
                  | Some r => F64.strict_eq r (F64.of_Z 1)
                  | None => false
                  end)
                 now)]
       | _, _, _ => []
       end
     else [])
    ++ (if String.prefix "OK:" line || String.prefix "ERR:" line
           || String.prefix "HTTP" line
        then [ConsoleLog line] else []).

(** The loop over [lines] in [readLoop]; [clock k] is the value
    [Date.now()] has while the [k]-th line of the stream is parsed. *)
Fixpoint parseLines (clock : nat -> Z) (k : nat) (lines : list string)
    : list effect :=
  match lines with
  | [] => []
  | line :: rest =>
      parseLine (clock k) (trim line) ++ parseLines clock (S k) rest
  end.

(** [readLoop]: one element of [chunks] per successful [reader.read()],
    from the buffer [buffer] with [k] lines parsed so far.  Returns the
    final buffer and the effects in order. *)
Fixpoint readLoop (clock : nat -> Z) (chunks : list string)
    (buffer : string) (k : nat) : string * list effect :=
  match chunks with
  | [] => (buffer, [])
  | value :: rest =>
      let lines := pop (split "010"%char (buffer +:+ value)) in
      let r := readLoop clock rest lines.2 (k + length lines.1) in
      (r.1, parseLines clock k lines.1 ++ r.2)
  end.

End Parse.

(** [handleRelayToggle] of the dashboard component: the command it sends
    when its state [relayOn] has the given value. *)
Definition handleRelayToggle (relayOn : bool) : string :=
  sendCommand (if relayOn then "RELAY:OFF" else "RELAY:ON").

(** A character that a formatted number can hold: a digit, the sign, the
    point, a padding space, or a letter of [nan] and [inf]. *)
Definition plain (c : ascii) : bool :=
  let n := N_of_ascii c in
  (N.leb 48 n && N.leb n 57) || N.eqb n 45 || N.eqb n 46 || N.eqb n 32
  || N.eqb n 110 || N.eqb n 97 || N.eqb n 105 || N.eqb n 102.

Fixpoint all_plain (s : string) : bool :=
  match s with
  | EmptyString => true
  | String c s' => plain c && all_plain s'
  end.

(** [c] does not occur in [s]. *)
Fixpoint absent (c : ascii) (s : string) : bool :=
  match s with
  | EmptyString => true
  | String c' s' => negb (Ascii.eqb c' c) && absent c s'
  end.

End Host.

Module Wire.

(** [l.join(sep)] for a one-character separator. *)
Fixpoint join (sep : ascii) (l : list string) : string :=
  match l with
  | [] => EmptyString
  | [x] => x
  | x :: rest => x +:+ String sep (join sep rest)
  end.

(** The last character of [s] exists and is not white space. *)
Fixpoint ends_black (s : string) : bool :=
  match s with
  | EmptyString => false
  | String c EmptyString => negb (Host.is_white c)
  | String _ s' => ends_black s'
  end.

(** A [key=value] pair as the firmware prints it. *)
Definition pair (key value : string) : string := key +:+ String "="%char value.

(** The text of a [DATA:] line without its line break. *)
Definition data_line (pairs : list string) : string :=
  "DATA:" +:+ join ","%char pairs.

(** The telemetry line of a window without its line break, as a [DATA:]
    line of five pairs. *)
Definition telemetry_body (V I P ewma : float) (alert : bool) : string :=
  data_line [pair "V" (Printf.fmt_f 0 3 V);
             pair "I" (Printf.fmt_f 0 3 I);
             pair "P" (Printf.fmt_f 0 3 P);
             pair "THEFT" (Printf.fmt_f 0 2 ewma);
             pair "ALERT" (if alert then "1" else "0")].

(** What the dashboard hands to its data callback for that line, at time
    [now]. *)
Definition telemetry_data (parseFloat : string -> F64.number)
    (V I P ewma : float) (alert : bool) (now : Z) : Host.DeviceData :=
  Host.mkDeviceData
    (parseFloat (Printf.fmt_f 0 3 V))
    (parseFloat (Printf.fmt_f 0 3 I))
    (parseFloat (Printf.fmt_f 0 3 P))
    (parseFloat (Printf.fmt_f 0 2 ewma))
    (F64.strict_eq (parseFloat (if alert then "1" else "0")) (F64.of_Z 1))
    false now.

(** The complete lines of a text and the unterminated rest, by one pass. *)
Fixpoint lines_rest (s : string) : list string * string :=
  match s with
  | EmptyString => ([], EmptyString)
  | String c s' =>
      let r := lines_rest s' in
      if Ascii.eqb c "010"%char then (EmptyString :: r.1, r.2)
      else match r.1 with
           | [] => ([], String c r.2)
           | l :: ls => (String c l :: ls, r.2)
           end
  end.

(** The text a sequence of chunks carries. *)
Definition stream (chunks : list string) : string :=
  fold_right String.append EmptyString chunks.

(** The characters an event of the firmware puts on the serial line:
    [println] ends its text with CR LF, [printf] sends its text as it is. *)
Definition sent (e : event) : string :=
  match e with
  | SerialPrintln s => s +:+ String "013"%char (String "010"%char EmptyString)
  | SerialPrintf s => s
  | _ => EmptyString
  end.

(** The text printed by an event, without its line end. *)
Definition printed (e : event) : list string :=
  match e with
  | SerialPrintln s => [s]
  | _ => []
  end.

(** The value of the state [relayOn] of the dashboard component after the
    data callbacks among [effects], from the value [r0]. *)
Definition relayOn_after (effects : list Host.effect) (r0 : bool) : bool :=
  fold_left (fun r e => match e with
                        | Host.OnData d => Host.relay d
                        | Host.ConsoleLog _ => r
                        end) effects r0.

End Wire.

Module Smoothing.

Import ML.

Section Model.

Variable kTotalLen : nat.
Variable kRawCount : nat.
Variable run_classifier : list float -> Z * Labels.ei_impulse_result_t.

(** The probability [theft_prob] a window computes from the labels;
    [None] when the classifier fails. *)
Definition window_prob (w : window_env) (st : state) : option float :=
  let '(_, st1, _) := sampling kTotalLen kRawCount w st in
  let '(err, result) := run_classifier (features st1) in
  if negb (Z.eqb err EI_IMPULSE_OK) then None
  else Some (Labels.theft_metric_from_labels result
               (relayIsOn (relay_at_decision w))).

(** The probabilities of the classified windows of a run, oldest first. *)
Fixpoint probs_cast (ws : list window_env) (st : state) : list float :=
  match ws with
  | [] => []
  | w :: ws' =>
      match window_prob w st with Some p => [p] | None => [] end
      ++ probs_cast ws' (fst (taskML_window kTotalLen kRawCount run_classifier w st))
  end.

End Model.

End Smoothing.

(* ===================================================================== *)
(** * Properties of the command parser *)
(* ===================================================================== *)

Section ParserFacts.

Import Parser.

Lemma byte_val_inj (x y : ascii) : byte_val x = byte_val y -> x = y.
Proof.
  unfold byte_val. intros H. apply N2Z.inj in H.
  rewrite <- (ascii_N_embedding x), <- (ascii_N_embedding y). by rewrite H.
Qed.

Lemma strcmp_cstr (a b : list ascii) :
  strcmp a b = 0 <-> cstr a = cstr b.
Proof.
  revert b. induction a as [|x a IH]; intros b; simpl.
  - destruct b as [|y b]; simpl; [done|].
    destruct (Ascii.eqb_spec y NUL) as [->|Hy]; [done|].
    split; [|done]. intros H. exfalso. apply Hy, byte_val_inj.
    change (byte_val NUL) with 0. lia.
  - destruct b as [|y b]; simpl.
    + destruct (Ascii.eqb_spec x NUL) as [->|Hx]; [done|].
      split; [|done]. intros H. exfalso. apply Hx, byte_val_inj. lia.
    + destruct (Ascii.eqb_spec x y) as [->|Hxy].
      * destruct (Ascii.eqb_spec y NUL) as [->|Hy]; [done|].
        rewrite IH. split; [congruence | by intros [= ->]].
      * split.
        -- intros H. exfalso. apply Hxy, byte_val_inj. lia.
        -- destruct (Ascii.eqb_spec x NUL), (Ascii.eqb_spec y NUL);
             subst; congruence.
Qed.

Lemma cstr_app_NUL (l1 l2 : list ascii) : cstr (l1 ++ NUL :: l2) = cstr l1.
Proof.
  induction l1 as [|x l1 IH]; simpl; [done|].
  destruct (Ascii.eqb x NUL); [done | by rewrite IH].
Qed.

Lemma cstr_no_NUL (l : list ascii) : ~ In NUL l -> cstr l = l.
Proof.
  induction l as [|x l IH]; simpl; [done|]. intros H.
  destruct (Ascii.eqb_spec x NUL) as [->|_]; [tauto|].
  rewrite IH; tauto.
Qed.

Lemma cstr_terminated (st : state) :
  wf st -> cstr (<[len st := NUL]> (buf st)) = cstr (line st).
Proof.
  intros [Hb Hl]. unfold line, BUF_SIZE in *.
  rewrite insert_take_drop by lia. apply cstr_app_NUL.
Qed.

Lemma line_length (st : state) : wf st -> length (line st) = len st.
Proof.
  intros [Hb Hl]. unfold line, BUF_SIZE in *. rewrite length_take. lia.
Qed.

Lemma line_append (st : state) (c : ascii) :
  wf st -> (len st < BUF_SIZE - 1)%nat ->
  take (S (len st)) (<[len st := c]> (buf st)) = line st ++ [c].
Proof.
  intros [Hb Hl] Hlt. unfold line, BUF_SIZE in *.
  rewrite insert_take_drop by lia.
  rewrite take_app_ge by (rewrite length_take; lia).
  rewrite length_take.
  replace (S (len st) - len st `min` length (buf st))%nat with 1%nat by lia.
  done.
Qed.

Lemma dispatch_strcmp (st : state) :
  wf st ->
  (if Z.eqb (strcmp (<[len st := NUL]> (buf st)) (lit "RELAY:ON")) 0
   then [relayWrite true; SerialPrintln "OK:RELAY:ON"]
   else if Z.eqb (strcmp (<[len st := NUL]> (buf st)) (lit "RELAY:OFF")) 0
   then [relayWrite false; SerialPrintln "OK:RELAY:OFF"]
   else if negb (Nat.eqb (len st) 0)
   then [SerialPrintln "ERR:UNKNOWN_CMD"]
   else []) = dispatch (line st).
Proof.
  intros Hwf. unfold dispatch.
  pose proof (strcmp_cstr (<[len st := NUL]> (buf st)) (lit "RELAY:ON")) as H1.
  pose proof (strcmp_cstr (<[len st := NUL]> (buf st)) (lit "RELAY:OFF")) as H2.
  rewrite (cstr_terminated st Hwf) in H1, H2.
  change (cstr (lit "RELAY:ON")) with (lit "RELAY:ON") in H1.
  change (cstr (lit "RELAY:OFF")) with (lit "RELAY:OFF") in H2.
  destruct (Z.eqb_spec (strcmp (<[len st := NUL]> (buf st)) (lit "RELAY:ON")) 0)
    as [E1|E1].
  { apply H1 in E1. by rewrite decide_True. }
  rewrite decide_False by (intros E; apply E1, H1, E).
  destruct (Z.eqb_spec (strcmp (<[len st := NUL]> (buf st)) (lit "RELAY:OFF")) 0)
    as [E2|E2].
  { apply H2 in E2. by rewrite decide_True. }
  rewrite decide_False by (intros E; apply E2, H2, E).
  pose proof (line_length st Hwf) as Hlen.
  destruct (line st) as [|x l]; simpl in Hlen.
  - by rewrite <- Hlen.
  - by rewrite <- Hlen.
Qed.

Lemma init_wf : wf init.
Proof. split; [done | unfold BUF_SIZE; simpl; lia]. Qed.

(** One byte: the array parser and the line parser agree, and the
    invariant of the statics is kept. *)
Lemma parseCommandByte_line_step (c : ascii) (st : state) :
  wf st ->
  wf (fst (parseCommandByte c st)) /\
  (line (fst (parseCommandByte c st)), snd (parseCommandByte c st))
  = line_step dispatch c (line st).
Proof.
  intros Hwf. pose proof Hwf as [Hb Hl].
  unfold parseCommandByte, line_step.
  destruct (Ascii.eqb c CR); [done|].
  destruct (Ascii.eqb c LF); cbn [negb fst snd].
  - split.
    + split; cbn [buf len]; [by rewrite length_insert | lia].
    + rewrite (dispatch_strcmp st Hwf). by unfold line.
  - rewrite (line_length st Hwf).
    destruct (Nat.ltb_spec (len st) (BUF_SIZE - 1)); cbn [fst snd].
    + split.
      * split; cbn [buf len]; [by rewrite length_insert | unfold BUF_SIZE in *; lia].
      * unfold line at 1. cbn [buf len]. by rewrite line_append.
    + done.
Qed.

(** Any byte sequence, from any well-formed state. *)
Lemma feed_line_parser (bytes : list ascii) (st : state) :
  wf st ->
  wf (fst (feed bytes st)) /\
  (line (fst (feed bytes st)), snd (feed bytes st))
  = line_parser dispatch bytes (line st).
Proof.
  revert st. induction bytes as [|c rest IH]; intros st Hwf; simpl; [done|].
  destruct (parseCommandByte_line_step c st Hwf) as [Hwf1 Hstep].
  destruct (parseCommandByte c st) as [st1 ev1]. simpl in *.
  rewrite <- Hstep.
  destruct (IH st1 Hwf1) as [Hwf2 Hrest].
  destruct (feed rest st1) as [st2 ev2]. simpl in *.
  by rewrite <- Hrest.
Qed.

Lemma line_parser_app (f : list ascii -> list event) (a b cur : list ascii) :
  line_parser f (a ++ b) cur
  = (fst (line_parser f b (fst (line_parser f a cur))),
     snd (line_parser f a cur) ++ snd (line_parser f b (fst (line_parser f a cur)))).
Proof.
  revert cur. induction a as [|c a IH]; intros cur; simpl.
  - by destruct (line_parser f b cur).
  - destruct (line_step f c cur) as [cur1 ev1]. rewrite IH.
    destruct (line_parser f a cur1) as [cur2 ev2]. simpl.
    destruct (line_parser f b cur2) as [cur3 ev3]. simpl.
    by rewrite app_assoc.
Qed.

(** Without a newline nothing is triggered, and the line is the first 31
    bytes that are not carriage returns. *)
Lemma line_parser_no_LF (f : list ascii -> list event) (l cur : list ascii) :
  ~ In LF l -> (length cur <= BUF_SIZE - 1)%nat ->
  line_parser f l cur = (take (BUF_SIZE - 1) (cur ++ List.filter not_CR l), []).
Proof.
  change (BUF_SIZE - 1)%nat with 31%nat.
  revert cur. induction l as [|c l IH]; intros cur HLF Hlen.
  - simpl. rewrite app_nil_r, take_ge by lia. done.
  - assert (HLF' : ~ In LF l) by (simpl in HLF; tauto).
    cbn [line_parser List.filter]. unfold line_step, not_CR at 1.
    destruct (Ascii.eqb_spec c CR) as [->|HCR]; cbn [negb].
    + by rewrite IH.
    + destruct (Ascii.eqb_spec c LF) as [->|_]; [simpl in HLF; tauto|].
      change (BUF_SIZE - 1)%nat with 31%nat.
      destruct (Nat.ltb_spec (length cur) 31).
      * rewrite IH; [|done | rewrite length_app; simpl; lia].
        by rewrite <- app_assoc.
      * rewrite IH; [|done | done].
        rewrite !take_app_le by lia. done.
Qed.

Lemma dispatch_full_line (l : list ascii) :
  ~ In NUL l -> length l = (BUF_SIZE - 1)%nat ->
  dispatch l = [SerialPrintln "ERR:UNKNOWN_CMD"].
Proof.
  intros HN Hlen. unfold dispatch. rewrite (cstr_no_NUL l HN).
  rewrite decide_False by (intros ->; discriminate Hlen).
  rewrite decide_False by (intros ->; discriminate Hlen).
  destruct l; [discriminate Hlen | done].
Qed.

Lemma In_take {A} (x : A) (n : nat) (l : list A) : In x (take n l) -> In x l.
Proof.
  revert n. induction l as [|y l IH]; intros [|n]; simpl; try tauto.
  intros [->|H]; [tauto | right; eauto].
Qed.

End ParserFacts.

(** C6 (amended).  For every byte sequence fed to [parseCommandByte] from
    its initial statics, the buffered line and the trace of relay writes and
    replies are those of the line parser: a carriage return is discarded;
    any other byte that is not a newline is appended while fewer than 31
    bytes are buffered and dropped afterwards; nothing is executed or replied
    before a newline; at the newline, the line is compared as a C string
    (its bytes before the first NUL): [RELAY:ON] writes the relay on and
    then replies [OK:RELAY:ON], [RELAY:OFF] writes it off and then replies
    [OK:RELAY:OFF], any other line with at least one buffered byte replies
    [ERR:UNKNOWN_CMD] with no relay write, an empty line gives no reply; the
    line is empty again after every newline. *)
Theorem parser_refines_line_parser (bytes : list ascii) :
  (Parser.line (fst (Parser.feed bytes Parser.init)),
   snd (Parser.feed bytes Parser.init))
  = Parser.line_parser Parser.dispatch bytes []
  /\ Parser.dispatch (Parser.lit "RELAY:ON")
     = [DigitalWrite RELAY_PIN true; SerialPrintln "OK:RELAY:ON"]
  /\ Parser.dispatch (Parser.lit "RELAY:OFF")
     = [DigitalWrite RELAY_PIN false; SerialPrintln "OK:RELAY:OFF"]
  /\ Parser.dispatch [] = []
  /\ Parser.dispatch (Parser.lit "RELAY:ONN") = [SerialPrintln "ERR:UNKNOWN_CMD"]
  /\ (forall v0 : bool,
        relayIsOn (pin_after RELAY_PIN v0 (Parser.dispatch (Parser.lit "RELAY:ON")))
        = true
        /\ relayIsOn
             (pin_after RELAY_PIN v0 (Parser.dispatch (Parser.lit "RELAY:OFF")))
           = false)
  /\ (forall l : list ascii,
        Parser.dispatch l
        = if decide (Parser.cstr l = Parser.lit "RELAY:ON")
          then [DigitalWrite RELAY_PIN true; SerialPrintln "OK:RELAY:ON"]
          else if decide (Parser.cstr l = Parser.lit "RELAY:OFF")
          then [DigitalWrite RELAY_PIN false; SerialPrintln "OK:RELAY:OFF"]
          else if decide (l = [])
          then []
          else [SerialPrintln "ERR:UNKNOWN_CMD"]).
Proof.
  split; [|repeat split].
  - destruct (feed_line_parser bytes Parser.init init_wf) as [_ H].
    exact H.
  - intros l. unfold Parser.dispatch.
    repeat case_decide; try done; by destruct l.
Qed.

(** C6 (counterexample).  The line [RELAY:ON], a NUL byte, [x]: it is not
    one of the two commands and it is not empty, so a parser that compares
    the buffered line replies [ERR:UNKNOWN_CMD] and leaves the relay alone;
    [parseCommandByte] switches the relay on and replies [OK:RELAY:ON]. *)
Lemma parser_nul_counterexample :
  snd (Parser.feed (Parser.lit "RELAY:ON" ++ [Parser.NUL; "x"%char; Parser.LF])
                   Parser.init)
  = [DigitalWrite RELAY_PIN true; SerialPrintln "OK:RELAY:ON"]
  /\ snd (Parser.line_parser Parser.dispatch_by_line
            (Parser.lit "RELAY:ON" ++ [Parser.NUL; "x"%char; Parser.LF]) [])
     = [SerialPrintln "ERR:UNKNOWN_CMD"].
Proof. split; vm_compute; reflexivity. Qed.

(** C10.  A line started on an empty buffer, free of NUL bytes, with more
    than 31 bytes other than carriage returns before its newline, is answered
    by [ERR:UNKNOWN_CMD] alone, and the relay pin keeps its level. *)
Theorem overlong_line_rejected (pre l : list ascii) (v0 : bool) :
  Parser.line (fst (Parser.feed pre Parser.init)) = [] ->
  ~ In Parser.LF l -> ~ In Parser.NUL l ->
  (Parser.BUF_SIZE - 1 < length (List.filter Parser.not_CR l))%nat ->
  snd (Parser.feed (l ++ [Parser.LF]) (fst (Parser.feed pre Parser.init)))
  = [SerialPrintln "ERR:UNKNOWN_CMD"]
  /\ pin_after RELAY_PIN v0
       (snd (Parser.feed (l ++ [Parser.LF]) (fst (Parser.feed pre Parser.init))))
     = v0.
Proof.
  intros Hempty HLF HNUL Hlong.
  destruct (feed_line_parser pre Parser.init init_wf) as [Hwf _].
  destruct (feed_line_parser (l ++ [Parser.LF]) _ Hwf) as [_ H].
  apply (f_equal snd) in H. simpl in H. rewrite H, Hempty.
  rewrite line_parser_app, (line_parser_no_LF _ l []);
    [|done | simpl; lia].
  cbn [fst snd Parser.line_parser app]. unfold Parser.line_step.
  change (Ascii.eqb Parser.LF Parser.CR) with false.
  change (Ascii.eqb Parser.LF Parser.LF) with true.
  cbn [fst snd app]. rewrite app_nil_r.
  rewrite dispatch_full_line; [done | |].
  - intros Hin. apply In_take in Hin. apply filter_In in Hin. tauto.
  - rewrite length_take. unfold Parser.BUF_SIZE in *. lia.
Qed.

Lemma overlong_line_rejected_witness :
  snd (Parser.feed (repeat "A"%char 40 ++ [Parser.LF])
         (fst (Parser.feed [] Parser.init)))
  = [SerialPrintln "ERR:UNKNOWN_CMD"]
  /\ pin_after RELAY_PIN true
       (snd (Parser.feed (repeat "A"%char 40 ++ [Parser.LF])
               (fst (Parser.feed [] Parser.init))))
     = true.
Proof.
  apply (overlong_line_rejected [] (repeat "A"%char 40) true).
  - reflexivity.
  - intros H. apply repeat_spec in H. discriminate H.
  - intros H. apply repeat_spec in H. discriminate H.
  - vm_compute. lia.
Defined.

(** A command terminated by CR LF, then an empty line, then a typo. *)
Example parser_session :
  snd (Parser.feed
         (Parser.lit "RELAY:ON" ++ [Parser.CR; Parser.LF; Parser.LF]
          ++ Parser.lit "RELAY:OF" ++ [Parser.LF]
          ++ Parser.lit "RELAY:OFF" ++ [Parser.LF])
         Parser.init)
  = [DigitalWrite RELAY_PIN true; SerialPrintln "OK:RELAY:ON";
     SerialPrintln "ERR:UNKNOWN_CMD";
     DigitalWrite RELAY_PIN false; SerialPrintln "OK:RELAY:OFF"].
Proof. vm_compute. reflexivity. Qed.

(* ===================================================================== *)
(** * Properties of the shared store *)
(* ===================================================================== *)

(** C3 (the code at the failing input).  With a null mutex handle
    [get_metrics] still returns the stored snapshot, but [set_metrics]
    leaves it as it was: the write is dropped, where the specified write
    stores [m]. *)
Theorem set_metrics_null_mutex_drops_write (g m : Store.Metrics) :
  Store.get_metrics (Store.mkStore g false) = g
  /\ Store.set_metrics m (Store.mkStore g false) = Store.mkStore g false
  /\ Store.g_last (Store.write_as_specified m (Store.mkStore g false)) = m
  /\ Store.g_last
       (Store.set_metrics (Store.set_phase Store.UI_LOADING Store.Metrics_init)
          Store.store_static)
     = Store.Metrics_init.
Proof. repeat split. Qed.

(* ===================================================================== *)
(** * Properties of the label aggregation *)
(* ===================================================================== *)

Section LabelFacts.

Import Labels.

(** The loop with five accumulators computes the five filtered sums. *)
Lemma fold_accumulate (res : ei_impulse_result_t) (a : sums) :
  fold_left accumulate res a
  = mkSums
      (fold_left F32.add (map value (List.filter (fun c => has "theft" (label c)) res)) (p_theft a))
      (fold_left F32.add (map value (List.filter (fun c => has "normal" (label c)) res)) (p_normal a))
      (fold_left F32.add (map value (List.filter (fun c => has "tamper" (label c)) res)) (p_tamper a))
      (fold_left F32.add (map value (List.filter (fun c => has "on" (label c)) res)) (p_on a))
      (fold_left F32.add (map value (List.filter (fun c => has "off" (label c)) res)) (p_off a)).
Proof.
  revert a. induction res as [|c res IH]; intros a.
  - by destruct a.
  - cbn [fold_left List.filter]. rewrite IH. unfold accumulate, has.
    cbn [p_theft p_normal p_tamper p_on p_off].
    f_equal.
    + by destruct (label_has (label c) "theft").
    + by destruct (label_has (label c) "normal").
    + by destruct (label_has (label c) "tamper").
    + by destruct (label_has (label c) "on").
    + by destruct (label_has (label c) "off").
Qed.

End LabelFacts.

(** C2 (amended).  For every classifier result and relay state,
    [theft_metric_from_labels] returns, trying the rules in order: (a) the
    summed probability of the labels containing "theft" plus the summed
    probability of the labels containing "tamper", if that total is > 0;
    (b) else 1 minus the summed probability of the labels containing
    "normal", if that sum is > 0; (c) else, if the "on" sum or the "off" sum
    is > 0, the "on" sum when the relay is on and the "off" sum otherwise;
    (d) else 1 minus the "normal" sum. *)
Theorem theft_metric_by_sums
    (res : Labels.ei_impulse_result_t) (relay_on : bool) :
  let sum_of (s : string) := Labels.sum_where (Labels.has s) res in
  Labels.theft_metric_from_labels res relay_on
  = if F32.gtb (F32.add (sum_of "theft") (sum_of "tamper")) (F32.of_Z 0)
    then F32.add (sum_of "theft") (sum_of "tamper")
    else if F32.gtb (sum_of "normal") (F32.of_Z 0)
    then F32.sub (F32.of_Z 1) (sum_of "normal")
    else if F32.gtb (sum_of "on") (F32.of_Z 0)
            || F32.gtb (sum_of "off") (F32.of_Z 0)
    then (if relay_on then sum_of "on" else sum_of "off")
    else F32.sub (F32.of_Z 1) (sum_of "normal").
Proof.
  intros sum_of. subst sum_of.
  unfold Labels.theft_metric_from_labels.
  rewrite fold_accumulate. reflexivity.
Qed.

(** C2 (counterexample).  Three results on which the function differs from
    the cascade as worded: a label containing both "theft" and "tamper" is
    counted twice; a "normal" label of probability 0 is present but does not
    select rule (b); "on"/"off" labels of probability 0 are present but do
    not select rule (c). *)
Lemma theft_metric_counterexample :
  (Labels.theft_metric_from_labels
     [Labels.mkClass "theft_tamper" (F32.lit 1 4);
      Labels.mkClass "normal" (F32.lit 3 4)] false = F32.lit 1 2
   /\ Labels.metric_as_specified
        [Labels.mkClass "theft_tamper" (F32.lit 1 4);
         Labels.mkClass "normal" (F32.lit 3 4)] false = F32.lit 1 4)
  /\ (Labels.theft_metric_from_labels
        [Labels.mkClass "normal" F32.zero;
         Labels.mkClass "on" (F32.lit 3 4);
         Labels.mkClass "off" (F32.lit 1 4)] true = F32.lit 3 4
      /\ Labels.metric_as_specified
           [Labels.mkClass "normal" F32.zero;
            Labels.mkClass "on" (F32.lit 3 4);
            Labels.mkClass "off" (F32.lit 1 4)] true = F32.one)
  /\ (Labels.theft_metric_from_labels
        [Labels.mkClass "idle" F32.one;
         Labels.mkClass "on" F32.zero;
         Labels.mkClass "off" F32.zero] true = F32.one
      /\ Labels.metric_as_specified
           [Labels.mkClass "idle" F32.one;
            Labels.mkClass "on" F32.zero;
            Labels.mkClass "off" F32.zero] true = F32.zero).
Proof. repeat split; vm_compute; reflexivity. Qed.

(* ===================================================================== *)
(** * Properties of the sampling and decision task *)
(* ===================================================================== *)

Section PackFacts.

Import ML.

Variable kTotalLen : nat.
Variable kRawCount : nat.

Local Abbreviation A := (kModelAxes kTotalLen kRawCount).

Lemma zero_fill_length (base : nat) (ks : list nat) (f : list float) :
  length (fold_left (fun g k => <[(base + k)%nat := F32.zero]> g) ks f)
  = length f.
Proof.
  revert f. induction ks as [|k ks IH]; intros f; simpl; [done|].
  by rewrite IH, length_insert.
Qed.

Lemma zero_fill_other (base : nat) (ks : list nat) (f : list float) (i : nat) :
  (forall k, In k ks -> i <> (base + k)%nat) ->
  fold_left (fun g k => <[(base + k)%nat := F32.zero]> g) ks f !! i = f !! i.
Proof.
  revert f. induction ks as [|k ks IH]; intros f H; simpl; [done|].
  rewrite IH by (intros k' Hk'; apply H; by right).
  apply list_lookup_insert_ne. intros E. by apply (H k); [left|].
Qed.

Lemma zero_fill_hit (base : nat) (ks : list nat) (f : list float) (k : nat) :
  In k ks -> (base + k < length f)%nat ->
  fold_left (fun g k => <[(base + k)%nat := F32.zero]> g) ks f !! (base + k)%nat
  = Some F32.zero.
Proof.
  revert f. induction ks as [|k0 ks IH]; intros f Hin Hlt; simpl; [done|].
  destruct (in_dec Nat.eq_dec k ks) as [Hk|Hk].
  - apply IH; [done | by rewrite length_insert].
  - destruct Hin as [->|Hin]; [|done].
    rewrite zero_fill_other by (intros k' Hk' E; apply Hk;
                                replace k with k' by lia; done).
    by apply list_lookup_insert_eq.
Qed.

Lemma pack_length (base : nat) (V I P R : float) (f : list float) :
  length (pack kTotalLen kRawCount base V I P R f) = length f.
Proof.
  unfold pack. rewrite zero_fill_length.
  repeat match goal with
         | |- context [if ?b then _ else _] => destruct b
         end; by rewrite ?length_insert.
Qed.

Lemma pack_outside (base : nat) (V I P R : float) (f : list float) (i : nat) :
  (i < base \/ base + A <= i)%nat ->
  pack kTotalLen kRawCount base V I P R f !! i = f !! i.
Proof.
  intros Hi. unfold pack.
  rewrite zero_fill_other
    by (intros k Hk; apply in_seq in Hk; lia).
  repeat match goal with
         | |- context [if (?n <=? ?m)%nat then _ else _] =>
             destruct (Nat.leb_spec n m)
         end; rewrite ?list_lookup_insert_ne by lia; done.
Qed.

Lemma pack_inside (base : nat) (V I P R : float) (f : list float) (k : nat) :
  (base + A <= length f)%nat -> (k < A)%nat ->
  pack kTotalLen kRawCount base V I P R f !! (base + k)%nat
  = Some (axis_of V I P R k).
Proof.
  intros Hfit Hk. unfold pack.
  destruct (Nat.lt_ge_cases k 4) as [Hlow|Hhigh].
  - rewrite zero_fill_other
      by (intros k' Hk'; apply in_seq in Hk'; lia).
    repeat match goal with
           | |- context [if (?n <=? ?m)%nat then _ else _] =>
               destruct (Nat.leb_spec n m)
           end;
      destruct k as [|[|[|[|k]]]]; try lia; simpl axis_of;
      repeat first
        [ rewrite list_lookup_insert_eq by (rewrite ?length_insert; lia); done
        | rewrite list_lookup_insert_ne by lia ].
  - rewrite zero_fill_hit.
    + destruct k as [|[|[|[|k]]]]; try lia; done.
    + apply in_seq. lia.
    + repeat match goal with
             | |- context [if ?b then _ else _] => destruct b
             end; rewrite ?length_insert; lia.
Qed.

End PackFacts.

Section SamplingFacts.

Import Store ML.

Variable kTotalLen : nat.
Variable kRawCount : nat.
Variable run_classifier : list float -> Z * Labels.ei_impulse_result_t.

Local Abbreviation A := (kModelAxes kTotalLen kRawCount).
Local Abbreviation step := (sample_step kTotalLen kRawCount).
Local Abbreviation loading := (loading_snapshot kRawCount).

(** The inner loop cut after [n] iterations. *)
Local Abbreviation upto w st n :=
  (fold_left (step w) (seq 0 n) (locals0, st, [])).

Lemma upto_S (w : window_env) (st : state) (n : nat) :
  upto w st (S n) = step w (upto w st n) n.
Proof. by rewrite seq_S, fold_left_app. Qed.

(** What the inner loop never touches. *)
Lemma upto_frame (w : window_env) (st : state) (n : nat) :
  theft_prob_ewma (upto w st n).1.2 = theft_prob_ewma st
  /\ vote_hist (upto w st n).1.2 = vote_hist st
  /\ vote_hist_idx (upto w st n).1.2 = vote_hist_idx st
  /\ first_window (upto w st n).1.2 = first_window st
  /\ g_last_mtx (shared (upto w st n).1.2) = g_last_mtx (shared st).
Proof.
  induction n as [|n IH]; [done|].
  rewrite upto_S. destruct (upto w st n) as [[l st'] tr].
  simpl in IH. destruct IH as (E1 & E2 & E3 & E4 & E5).
  unfold sample_step.
  destruct (ix l + A <=? kTotalLen)%nat;
    destruct (first_window st') eqn:Hf;
    simpl; unfold set_metrics; rewrite ?E1, ?E2, ?E3, ?E5, ?Hf;
    destruct (g_last_mtx (shared st)); simpl; rewrite ?E5; done.
Qed.

(** The running sums are the sums of the readings, in sampling order. *)
Lemma upto_sums (w : window_env) (st : state) (n : nat) :
  sumV (upto w st n).1.1
  = fold_left F32.add (map (fun j => axis_value (sensor w j) 0) (seq 0 n)) F32.zero
  /\ sumI (upto w st n).1.1
     = fold_left F32.add (map (fun j => axis_value (sensor w j) 1) (seq 0 n)) F32.zero
  /\ sumP (upto w st n).1.1
     = fold_left F32.add (map (fun j => axis_value (sensor w j) 2) (seq 0 n)) F32.zero.
Proof.
  induction n as [|n IH]; [done|].
  rewrite upto_S, seq_S, !map_app, !fold_left_app.
  destruct (upto w st n) as [[l st'] tr]. cbn [fst snd] in IH.
  destruct IH as (E1 & E2 & E3). rewrite <- E1, <- E2, <- E3.
  unfold sample_step.
  destruct (ix l + A <=? kTotalLen)%nat; destruct (first_window st'); done.
Qed.

Lemma get_metrics_g_last (s : store) : get_metrics s = g_last s.
Proof. unfold get_metrics. by destruct (g_last_mtx s). Qed.

Lemma set_metrics_twice (m m' : Metrics) (s : store) :
  set_metrics m (set_metrics m' s) = set_metrics m s.
Proof. unfold set_metrics. by destruct s as [g []]. Qed.

(** A loading write depends on the snapshot it starts from only through
    the fields that loading writes leave alone. *)
Lemma loading_over_loading (s : store) (i j : nat) :
  loading (g_last (set_metrics (loading (g_last s) i) s)) j
  = loading (g_last s) j.
Proof. unfold set_metrics. by destruct s as [g []]. Qed.

(** The snapshot writes of the inner loop: none once [first_window] is
    cleared; before that, one [UI_LOADING] snapshot per sample, with
    progress [(n+1)/kRawCount]. *)
Lemma upto_trace (w : window_env) (st : state) (n : nat) :
  (upto w st n).2
  = (if first_window st
     then map (fun j => SetMetrics (loading (g_last (shared st)) j)) (seq 0 n)
     else [])
  /\ shared (upto w st n).1.2
     = (if first_window st
        then match n with
             | O => shared st
             | S n' => set_metrics (loading (g_last (shared st)) n') (shared st)
             end
        else shared st).
Proof.
  induction n as [|n IH]; [by destruct (first_window st)|].
  rewrite upto_S, seq_S, map_app.
  pose proof (upto_frame w st n) as (_ & _ & _ & Hfw & _).
  destruct (upto w st n) as [[l st'] tr]. cbn [fst snd] in IH, Hfw.
  destruct IH as [Etr Esh]. unfold sample_step.
  destruct (ix l + A <=? kTotalLen)%nat; rewrite Hfw;
    destruct (first_window st);
    cbn [fst snd shared with_features with_shared map Nat.add]; try done;
    rewrite get_metrics_g_last, Etr, Esh;
    fold (loading (g_last
            match n with
            | 0%nat => shared st
            | S n' => set_metrics (loading (g_last (shared st)) n') (shared st)
            end) n);
    (destruct n as [|n'];
     [ done
     | by rewrite loading_over_loading, set_metrics_twice ]).
Qed.

Hypothesis static_assert : (kTotalLen mod kRawCount = 0)%nat.

Lemma kTotalLen_axes : kTotalLen = (kRawCount * A)%nat.
Proof.
  unfold kModelAxes. pose proof (Nat.div_mod_eq kTotalLen kRawCount). lia.
Qed.

(** The feature buffer after [n] samples: slots [0 .. n-1] are packed. *)
Lemma upto_features (w : window_env) (st : state) (n : nat) :
  length (features st) = kTotalLen -> (n <= kRawCount)%nat ->
  ix (upto w st n).1.1 = (n * A)%nat
  /\ length (features (upto w st n).1.2) = kTotalLen
  /\ forall j k, (j < n)%nat -> (k < A)%nat ->
       features (upto w st n).1.2 !! (j * A + k)%nat
       = Some (axis_value (sensor w j) k).
Proof.
  intros Hlen. induction n as [|n IH]; intros Hn.
  - split; [done|]. split; [done|]. intros; lia.
  - rewrite upto_S. destruct IH as (Hix & Hl & Hslots); [lia|].
    destruct (upto w st n) as [[l st'] tr]. simpl in Hix, Hl, Hslots.
    pose proof kTotalLen_axes as HT.
    assert (Hfit : (ix l + A <= kTotalLen)%nat) by (rewrite Hix; nia).
    unfold sample_step. apply Nat.leb_le in Hfit as Hb. rewrite Hb.
    assert (Hgoal :
      forall f : list float,
        f = pack kTotalLen kRawCount (ix l) (busVoltage_V (sensor w n))
              (F32.mul (current_mA (sensor w n)) (F32.lit 1 1000))
              (F32.mul (busVoltage_V (sensor w n))
                 (F32.mul (current_mA (sensor w n)) (F32.lit 1 1000)))
              (if relayIsOn (relay_level (sensor w n)) then F32.one else F32.zero)
              (features st') ->
        length f = kTotalLen
        /\ forall j k, (j < S n)%nat -> (k < A)%nat ->
             f !! (j * A + k)%nat = Some (axis_value (sensor w j) k)).
    { intros f ->. split; [by rewrite pack_length|].
      intros j k Hj Hk. destruct (Nat.eq_dec j n) as [->|Hne].
      - rewrite <- Hix. rewrite pack_inside by (done || lia). done.
      - rewrite pack_outside by (left; rewrite Hix; nia).
        apply Hslots; [lia | done]. }
    destruct (first_window st'); simpl; (split; [lia|]); by apply Hgoal.
Qed.

End SamplingFacts.

Section RingFacts.

Import ML.

Ltac age_arith :=
  unfold age; cbn [length]; zify;
  Z.to_euclidean_division_equations; lia.

Lemma length_mod3 (k : nat) :
  Z.of_nat k mod 3 = 0 \/ Z.of_nat k mod 3 = 1 \/ Z.of_nat k mod 3 = 2.
Proof. zify. Z.to_euclidean_division_equations. lia. Qed.

(** Writing at the index overwrites the slot of age 2 and yields the ring
    of the extended history. *)
Lemma ring_push (d : Z) (ds : list Z) :
  <[Z.to_nat (Z.of_nat (length ds) mod 3) := d]> (ring_of ds) = ring_of (d :: ds).
Proof.
  unfold ring_of. cbn [map].
  destruct (length_mod3 (length ds)) as [H|[H|H]]; rewrite H.
  - replace (age (length ds) 1) with 1%nat by age_arith.
    replace (age (length ds) 2) with 0%nat by age_arith.
    replace (age (length (d :: ds)) 0) with 0%nat by age_arith.
    replace (age (length (d :: ds)) 1) with 2%nat by age_arith.
    replace (age (length (d :: ds)) 2) with 1%nat by age_arith.
    done.
  - replace (age (length ds) 0) with 0%nat by age_arith.
    replace (age (length ds) 2) with 1%nat by age_arith.
    replace (age (length (d :: ds)) 0) with 1%nat by age_arith.
    replace (age (length (d :: ds)) 1) with 0%nat by age_arith.
    replace (age (length (d :: ds)) 2) with 2%nat by age_arith.
    done.
  - replace (age (length ds) 0) with 1%nat by age_arith.
    replace (age (length ds) 1) with 0%nat by age_arith.
    replace (age (length (d :: ds)) 0) with 2%nat by age_arith.
    replace (age (length (d :: ds)) 1) with 1%nat by age_arith.
    replace (age (length (d :: ds)) 2) with 0%nat by age_arith.
    done.
Qed.

Lemma ring_index_oldest (ds : list Z) :
  age (length ds) (Z.of_nat (length ds) mod 3) = 2%nat.
Proof. age_arith. Qed.

(** The three slots add up to the three most recent decisions. *)
Lemma ring_sum (ds : list Z) :
  vote_sum (ring_of ds) = nth 0 ds 0 + nth 1 ds 0 + nth 2 ds 0.
Proof.
  unfold vote_sum, ring_of, VOTE_N.
  change (Z.to_nat 3) with 3%nat. cbn [seq fold_left map nth].
  destruct (length_mod3 (length ds)) as [H|[H|H]].
  - replace (age (length ds) 0) with 2%nat by age_arith.
    replace (age (length ds) 1) with 1%nat by age_arith.
    replace (age (length ds) 2) with 0%nat by age_arith. lia.
  - replace (age (length ds) 0) with 0%nat by age_arith.
    replace (age (length ds) 1) with 2%nat by age_arith.
    replace (age (length ds) 2) with 1%nat by age_arith. lia.
  - replace (age (length ds) 0) with 1%nat by age_arith.
    replace (age (length ds) 1) with 0%nat by age_arith.
    replace (age (length ds) 2) with 2%nat by age_arith. lia.
Qed.

Lemma ring_state_push (d : Z) (ds : list Z) (hist : list Z) (idx : Z) :
  hist = ring_of ds -> idx = Z.of_nat (length ds) mod 3 ->
  <[Z.to_nat idx := d]> hist = ring_of (d :: ds)
  /\ Z.rem (idx + 1) VOTE_N = Z.of_nat (length (d :: ds)) mod 3.
Proof.
  intros -> ->. split; [apply ring_push|].
  unfold VOTE_N. rewrite Z.rem_mod_nonneg by
    (zify; Z.to_euclidean_division_equations; lia).
  cbn [length]. zify. Z.to_euclidean_division_equations. lia.
Qed.

Variable kTotalLen : nat.
Variable kRawCount : nat.
Variable run_classifier : list float -> Z * Labels.ei_impulse_result_t.

Local Abbreviation window := (taskML_window kTotalLen kRawCount run_classifier).
Local Abbreviation run := (taskML kTotalLen kRawCount run_classifier).
Local Abbreviation cast := (votes_cast kTotalLen kRawCount run_classifier).
Local Abbreviation vote := (window_vote kTotalLen kRawCount run_classifier).

Lemma window_ring (w : window_env) (st : state) (ds : list Z) :
  ring_state ds st ->
  ring_state (match vote w st with Some d => d :: ds | None => ds end)
             (window w st).1.
Proof.
  intros [Hh Hi]. unfold taskML_window, window_vote.
  pose proof (upto_frame kTotalLen kRawCount w st kRawCount)
    as (_ & Eh & Ei & _ & _).
  fold (sampling kTotalLen kRawCount w st) in Eh, Ei.
  destruct (sampling kTotalLen kRawCount w st) as [[l st1] tr1].
  cbn [fst snd] in Eh, Ei.
  destruct (run_classifier (features st1)) as [err result].
  destruct (negb (err =? EI_IMPULSE_OK)); cbn [fst].
  - split; congruence.
  - unfold decision. cbn [fst]. unfold ring_state. cbn [vote_hist vote_hist_idx].
    apply ring_state_push; congruence.
Qed.

Lemma run_ring (ws : list window_env) (st : state) (ds : list Z) :
  ring_state ds st -> ring_state (cast ws st ds) (run ws st).1.
Proof.
  revert st ds. induction ws as [|w ws IH]; intros st ds H; [done|].
  cbn [taskML votes_cast].
  pose proof (window_ring w st ds H) as H1.
  destruct (window w st) as [st1 tr]. cbn [fst] in *.
  specialize (IH st1 _ H1).
  destruct (run ws st1) as [st2 trs]. done.
Qed.

Lemma init_ring (mtx : bool) : ring_state [] (init kTotalLen mtx).
Proof. done. Qed.

End RingFacts.

Section RunFacts.

Import Store ML.

Variable kTotalLen : nat.
Variable kRawCount : nat.
Variable run_classifier : list float -> Z * Labels.ei_impulse_result_t.

Local Abbreviation window := (taskML_window kTotalLen kRawCount run_classifier).
Local Abbreviation run := (taskML kTotalLen kRawCount run_classifier).
Local Abbreviation sample_all := (sampling kTotalLen kRawCount).

Lemma filter_serial_writes (f : nat -> Metrics) (l : list nat) :
  List.filter is_serial (map (fun j => SetMetrics (f j)) l) = [].
Proof. induction l; done. Qed.

Lemma pin_after_writes (pin : Z) (v0 : bool) (f : nat -> Metrics)
    (l : list nat) (tr : list event) :
  pin_after pin v0 (map (fun j => SetMetrics (f j)) l ++ tr)
  = pin_after pin v0 tr.
Proof. induction l; done. Qed.

Lemma set_metrics_boot_inv (m : Metrics) (s : store) :
  phase m <> UI_BOOT -> boot_inv s -> boot_inv (set_metrics m s).
Proof.
  intros Hm Hs. unfold set_metrics. destruct (g_last_mtx s); [|done].
  by right.
Qed.

Lemma sampling_boot_inv (w : window_env) (st : state) :
  boot_inv (shared st) -> boot_inv (shared (sample_all w st).1.2).
Proof.
  intros H. unfold sampling.
  destruct (upto_trace kTotalLen kRawCount w st kRawCount) as [_ ->].
  destruct (first_window st); [|done].
  destruct kRawCount; [done|]. by apply set_metrics_boot_inv.
Qed.

Lemma window_boot_inv (w : window_env) (st : state) :
  boot_inv (shared st) -> boot_inv (shared (window w st).1).
Proof.
  intros H. apply (sampling_boot_inv w) in H. unfold taskML_window.
  destruct (sample_all w st) as [[l st1] tr1]. cbn [fst snd] in H.
  destruct (run_classifier (features st1)) as [err result].
  destruct (negb (err =? EI_IMPULSE_OK)); [done|].
  unfold decision. cbn [fst shared]. apply set_metrics_boot_inv; [|done].
  cbn. by destruct (_ || _).
Qed.

Lemma run_boot_inv (ws : list window_env) (st : state) :
  boot_inv (shared st) -> boot_inv (shared (run ws st).1).
Proof.
  revert st. induction ws as [|w ws IH]; intros st H; [done|].
  cbn [taskML]. apply (window_boot_inv w) in H.
  destruct (window w st) as [st1 tr]. specialize (IH st1 H).
  by destruct (run ws st1).
Qed.

Lemma init_boot_inv (mtx : bool) : boot_inv (shared (init kTotalLen mtx)).
Proof. left. by destruct mtx. Qed.

Hypothesis static_assert : (kTotalLen mod kRawCount = 0)%nat.

Lemma window_features_length (w : window_env) (st : state) :
  length (features st) = kTotalLen ->
  length (features (window w st).1) = kTotalLen.
Proof.
  intros H.
  destruct (upto_features kTotalLen kRawCount static_assert w st kRawCount H)
    as (_ & Hl & _); [done|].
  unfold taskML_window. fold (sample_all w st) in Hl.
  destruct (sample_all w st) as [[l st1] tr1]. cbn [fst snd] in Hl.
  destruct (run_classifier (features st1)) as [err result].
  by destruct (negb (err =? EI_IMPULSE_OK)).
Qed.

Lemma run_features_length (ws : list window_env) (st : state) :
  length (features st) = kTotalLen ->
  length (features (run ws st).1) = kTotalLen.
Proof.
  revert st. induction ws as [|w ws IH]; intros st H; [done|].
  cbn [taskML]. apply (window_features_length w) in H.
  destruct (window w st) as [st1 tr]. specialize (IH st1 H).
  by destruct (run ws st1).
Qed.

End RunFacts.

Section LoadingFacts.

Import Store ML.

Variable kTotalLen : nat.
Variable kRawCount : nat.
Variable run_classifier : list float -> Z * Labels.ei_impulse_result_t.

Local Abbreviation window := (taskML_window kTotalLen kRawCount run_classifier).
Local Abbreviation run := (taskML kTotalLen kRawCount run_classifier).

(** A window sampled with [first_window] cleared writes no loading
    snapshot and leaves the flag cleared. *)
Lemma window_no_loading (w : window_env) (st : state) :
  first_window st = false ->
  first_window (window w st).1 = false
  /\ List.filter is_loading_write (window w st).2 = [].
Proof.
  intros Hf.
  destruct (upto_trace kTotalLen kRawCount w st kRawCount) as [Htr _].
  destruct (upto_frame kTotalLen kRawCount w st kRawCount)
    as (_ & _ & _ & Hfw & _).
  fold (sampling kTotalLen kRawCount w st) in Htr, Hfw.
  rewrite Hf in Htr, Hfw. unfold taskML_window.
  destruct (sampling kTotalLen kRawCount w st) as [[l st1] tr1].
  cbn [fst snd] in Htr, Hfw. subst tr1.
  destruct (run_classifier (features st1)) as [err result].
  destruct (negb (err =? EI_IMPULSE_OK)); [done|].
  unfold decision. cbn [fst snd app List.filter is_loading_write].
  split; [done|]. cbn. by destruct (_ || _).
Qed.

Lemma run_no_loading (ws : list window_env) (st : state) :
  first_window st = false ->
  Forall (fun tr => List.filter is_loading_write tr = []) (run ws st).2.
Proof.
  revert st. induction ws as [|w ws IH]; intros st Hf; [by constructor|].
  cbn [taskML]. destruct (window_no_loading w st Hf) as [Hf1 Htr].
  destruct (window w st) as [st1 tr]. cbn [fst snd] in Hf1, Htr.
  specialize (IH st1 Hf1). destruct (run ws st1) as [st2 trs].
  by constructor.
Qed.

Lemma window_success_clears (w : window_env) (st : state) :
  (run_classifier (features (sampling kTotalLen kRawCount w st).1.2)).1
    = EI_IMPULSE_OK ->
  first_window (window w st).1 = false.
Proof.
  intros Hok. unfold taskML_window.
  destruct (sampling kTotalLen kRawCount w st) as [[l st1] tr1].
  cbn [fst snd] in Hok.
  destruct (run_classifier (features st1)) as [err result].
  cbn [fst] in Hok. by subst err.
Qed.

End LoadingFacts.

(** C7.  In every window of a run (the first and all later ones), the
    feature buffer handed to the classifier has length [kTotalLen], an exact
    multiple of the axes per sample, and the slot of each sample [n] holds
    the bus voltage on axis 0, the current on axis 1, their product on axis
    2, the relay state as 1.0 or 0.0 on axis 3, and 0.0 on every further
    axis. *)
Theorem feature_buffer_packing
    (kTotalLen kRawCount : nat)
    (run_classifier : list float -> Z * Labels.ei_impulse_result_t)
    (static_assert : (kTotalLen mod kRawCount = 0)%nat)
    (ws : list ML.window_env) (mtx : bool) (w : ML.window_env) :
  let A := ML.kModelAxes kTotalLen kRawCount in
  let st := (ML.taskML kTotalLen kRawCount run_classifier ws
               (ML.init kTotalLen mtx)).1 in
  let f := ML.features (ML.sampling kTotalLen kRawCount w st).1.2 in
  length f = kTotalLen
  /\ kTotalLen = (kRawCount * A)%nat
  /\ (kTotalLen mod A = 0)%nat
  /\ (forall n k : nat, (n < kRawCount)%nat -> (k < A)%nat ->
        f !! (n * A + k)%nat
        = Some
            (let V := ML.busVoltage_V (ML.sensor w n) in
             let I := F32.mul (ML.current_mA (ML.sensor w n)) (F32.lit 1 1000) in
             match k with
             | 0%nat => V
             | 1%nat => I
             | 2%nat => F32.mul V I
             | 3%nat => if relayIsOn (ML.relay_level (ML.sensor w n))
                        then F32.of_Z 1 else F32.of_Z 0
             | _ => F32.of_Z 0
             end)).
Proof.
  intros A st f.
  assert (Hlen : length (ML.features st) = kTotalLen).
  { apply run_features_length; [done|]. apply length_replicate. }
  destruct (upto_features kTotalLen kRawCount static_assert w st kRawCount Hlen)
    as (_ & Hl & Hslots); [done|].
  pose proof (kTotalLen_axes kTotalLen kRawCount static_assert) as HT.
  split; [exact Hl|]. split; [exact HT|]. split.
  - fold A in HT. rewrite HT. apply Nat.Div0.mod_mul.
  - intros n k Hn Hk. subst f A. unfold ML.sampling.
    rewrite (Hslots n k Hn Hk).
    by destruct k as [|[|[|[|k]]]].
Qed.

Lemma feature_buffer_packing_witness :
  ML.features
    (ML.sampling 10 2 (ML.steady (F32.of_Z 230) (F32.of_Z 500) true)
       (ML.taskML 10 2 (ML.answering [])
          [ML.steady (F32.of_Z 229) (F32.of_Z 400) false]
          (ML.init 10 true)).1).1.2
  !! 8%nat = Some (F32.of_Z 1)
  /\ ML.features
       (ML.sampling 10 2 (ML.steady (F32.of_Z 230) (F32.of_Z 500) true)
          (ML.taskML 10 2 (ML.answering [])
             [ML.steady (F32.of_Z 229) (F32.of_Z 400) false]
             (ML.init 10 true)).1).1.2
     !! 9%nat = Some (F32.of_Z 0).
Proof.
  pose proof (feature_buffer_packing 10 2 (ML.answering []) eq_refl
                [ML.steady (F32.of_Z 229) (F32.of_Z 400) false] true
                (ML.steady (F32.of_Z 230) (F32.of_Z 500) true))
    as (_ & _ & _ & H).
  split; [apply (H 1%nat 3%nat) | apply (H 1%nat 4%nat)]; vm_compute; lia.
Defined.

(** C5 (amended).  When the classifier returns a non-success status, the
    rest of the window does one thing: it sends the line
    [ERR:Classifier(<code>)].  That line is the only serial output of the
    window (no DATA line), the alert LED is not written, and the EWMA, the
    vote history and its index are those at the start of the window.  The
    snapshot is not written after the classifier returns: it is the one at
    the start of the window when [first_window] is cleared, which is so
    after any successful window; in a window sampled with [first_window]
    set, as the first window of a run is, it carries the loading progress
    written while sampling.  The outer loop then goes on with the next
    window. *)
Theorem classifier_failure_skips_decision
    (kTotalLen kRawCount : nat)
    (run_classifier : list float -> Z * Labels.ei_impulse_result_t)
    (w : ML.window_env) (st : ML.state) (ws : list ML.window_env) (v0 : bool) :
  (run_classifier (ML.features (ML.sampling kTotalLen kRawCount w st).1.2)).1
    <> ML.EI_IMPULSE_OK ->
  let err :=
    (run_classifier (ML.features (ML.sampling kTotalLen kRawCount w st).1.2)).1 in
  let st' := (ML.taskML_window kTotalLen kRawCount run_classifier w st).1 in
  let tr := (ML.taskML_window kTotalLen kRawCount run_classifier w st).2 in
  let line :=
    SerialPrintf ("ERR:Classifier(" +:+ Printf.fmt_d err +:+ ")" +:+ Printf.nl) in
  tr = (ML.sampling kTotalLen kRawCount w st).2 ++ [line]
  /\ (ML.sampling kTotalLen kRawCount w st).2
     = (if ML.first_window st
        then map (fun j => SetMetrics
                    (ML.loading_snapshot kRawCount (Store.g_last (ML.shared st)) j))
                 (seq 0 kRawCount)
        else [])
  /\ List.filter ML.is_serial tr = [line]
  /\ pin_after STATUS_LED v0 tr = v0
  /\ ML.theft_prob_ewma st' = ML.theft_prob_ewma st
  /\ ML.vote_hist st' = ML.vote_hist st
  /\ ML.vote_hist_idx st' = ML.vote_hist_idx st
  /\ st' = (ML.sampling kTotalLen kRawCount w st).1.2
  /\ ML.shared st'
     = (if ML.first_window st
        then match kRawCount with
             | O => ML.shared st
             | S n' =>
                 Store.set_metrics
                   (ML.loading_snapshot kRawCount (Store.g_last (ML.shared st)) n')
                   (ML.shared st)
             end
        else ML.shared st)
  /\ ML.taskML kTotalLen kRawCount run_classifier (w :: ws) st
     = ((ML.taskML kTotalLen kRawCount run_classifier ws st').1,
        tr :: (ML.taskML kTotalLen kRawCount run_classifier ws st').2)
  /\ (forall mtx : bool, ML.first_window (ML.init kTotalLen mtx) = true)
  /\ (forall (w0 : ML.window_env) (st0 : ML.state),
        (run_classifier
           (ML.features (ML.sampling kTotalLen kRawCount w0 st0).1.2)).1
          = ML.EI_IMPULSE_OK
        \/ ML.first_window st0 = false ->
        ML.first_window
          (ML.taskML_window kTotalLen kRawCount run_classifier w0 st0).1
        = false).
Proof.
  intros Herr err st' tr line.
  destruct (upto_trace kTotalLen kRawCount w st kRawCount) as [Htr Hsh].
  destruct (upto_frame kTotalLen kRawCount w st kRawCount)
    as (He & Hh & Hi & _ & _).
  fold (ML.sampling kTotalLen kRawCount w st) in Htr, Hsh, He, Hh, Hi.
  assert (Hw : ML.taskML_window kTotalLen kRawCount run_classifier w st
               = ((ML.sampling kTotalLen kRawCount w st).1.2,
                  (ML.sampling kTotalLen kRawCount w st).2 ++ [line])).
  { unfold ML.taskML_window. subst line err.
    destruct (ML.sampling kTotalLen kRawCount w st) as [[l st1] tr1].
    cbn [fst snd] in *.
    destruct (run_classifier (ML.features st1)) as [e result].
    cbn [fst] in *. apply Z.eqb_neq in Herr. by rewrite Herr. }
  subst st' tr. cbn [ML.taskML]. rewrite Hw. cbn [fst snd].
  repeat split; try done.
  - rewrite Htr. destruct (ML.first_window st); [|done].
    by rewrite List.filter_app, filter_serial_writes.
  - rewrite Htr. destruct (ML.first_window st); [|done].
    by rewrite pin_after_writes.
  - by destruct (ML.taskML kTotalLen kRawCount run_classifier ws _).
  - intros w0 st0 [Hok|Hf].
    + by apply window_success_clears.
    + by apply window_no_loading.
Qed.

(** C5 (counterexample).  The first window of a run, with a classifier
    that fails: the snapshot was the initial one, phase BOOT, when the window
    started; when the window ends it has phase LOADING and progress 1, and
    the only serial output is the error line. *)
Lemma failed_first_window_changes_snapshot :
  Store.g_last (ML.shared (ML.init 8 true)) = Store.Metrics_init
  /\ Store.g_last
       (ML.shared
          (ML.taskML_window 8 2 (ML.failing (-3))
             (ML.steady (F32.of_Z 230) (F32.of_Z 500) true)
             (ML.init 8 true)).1)
     = Store.set_progress (F32.of_Z 1)
         (Store.set_phase Store.UI_LOADING Store.Metrics_init)
  /\ List.filter ML.is_serial
       (ML.taskML_window 8 2 (ML.failing (-3))
          (ML.steady (F32.of_Z 230) (F32.of_Z 500) true)
          (ML.init 8 true)).2
     = [SerialPrintf ("ERR:Classifier(-3)" +:+ Printf.nl)].
Proof. repeat split; vm_compute; reflexivity. Qed.

Lemma classifier_failure_skips_decision_witness :
  (ML.taskML_window 8 2 (ML.failing (-3))
     (ML.steady (F32.of_Z 230) (F32.of_Z 500) true) (ML.init 8 true)).2
  = (ML.sampling 8 2 (ML.steady (F32.of_Z 230) (F32.of_Z 500) true)
       (ML.init 8 true)).2
    ++ [SerialPrintf ("ERR:Classifier(-3)" +:+ Printf.nl)].
Proof.
  pose proof (classifier_failure_skips_decision 8 2 (ML.failing (-3))
                (ML.steady (F32.of_Z 230) (F32.of_Z 500) true)
                (ML.init 8 true) [] false) as H.
  apply H. vm_compute. discriminate.
Defined.

Section SmoothingFacts.

Import Store ML Smoothing.

Variable kTotalLen : nat.
Variable kRawCount : nat.
Variable run_classifier : list float -> Z * Labels.ei_impulse_result_t.

Local Abbreviation window := (taskML_window kTotalLen kRawCount run_classifier).
Local Abbreviation run := (taskML kTotalLen kRawCount run_classifier).
Local Abbreviation prob := (window_prob kTotalLen kRawCount run_classifier).
Local Abbreviation probs := (probs_cast kTotalLen kRawCount run_classifier).
Local Abbreviation cast := (votes_cast kTotalLen kRawCount run_classifier).
Local Abbreviation vote := (window_vote kTotalLen kRawCount run_classifier).

(** What one iteration of the outer loop does to the smoothing globals and
    to the LED, from any state. *)
Lemma window_smoothing (w : window_env) (st : state) (v0 : bool) :
  match prob w st with
  | Some p =>
      theft_prob_ewma (window w st).1
      = F32.add (F32.mul EWMA_ALPHA p)
                (F32.mul (F32.sub F32.one EWMA_ALPHA) (theft_prob_ewma st))
      /\ vote_hist (window w st).1
         = <[Z.to_nat (vote_hist_idx st) := binarize p]> (vote_hist st)
      /\ vote_hist_idx (window w st).1 = Z.rem (vote_hist_idx st + 1) VOTE_N
      /\ pin_after STATUS_LED v0 (window w st).2
         = F32.geb (theft_prob_ewma (window w st).1) THEFT_THRESHOLD
           || vote_theft (vote_hist (window w st).1)
  | None =>
      theft_prob_ewma (window w st).1 = theft_prob_ewma st
      /\ vote_hist (window w st).1 = vote_hist st
      /\ vote_hist_idx (window w st).1 = vote_hist_idx st
      /\ pin_after STATUS_LED v0 (window w st).2 = v0
  end.
Proof.
  unfold window_prob, taskML_window.
  destruct (upto_trace kTotalLen kRawCount w st kRawCount) as [Htr _].
  destruct (upto_frame kTotalLen kRawCount w st kRawCount)
    as (Ee & Eh & Ei & _ & _).
  fold (sampling kTotalLen kRawCount w st) in Htr, Ee, Eh, Ei.
  destruct (sampling kTotalLen kRawCount w st) as [[l st1] tr1].
  cbn [fst snd] in Htr, Ee, Eh, Ei.
  destruct (run_classifier (features st1)) as [err result].
  destruct (negb (err =? EI_IMPULSE_OK)).
  - cbn [fst snd]. rewrite Ee, Eh, Ei, Htr.
    split; [done|]. split; [done|]. split; [done|].
    destruct (first_window st); [by rewrite pin_after_writes | done].
  - unfold decision.
    cbn [fst snd theft_prob_ewma vote_hist vote_hist_idx].
    rewrite Ee, Eh, Ei, Htr.
    split; [done|]. split; [done|]. split; [done|].
    destruct (first_window st).
    + rewrite pin_after_writes. cbn [pin_after].
      by change (STATUS_LED =? STATUS_LED) with true.
    + cbn [app pin_after]. by change (STATUS_LED =? STATUS_LED) with true.
Qed.

Lemma window_vote_prob (w : window_env) (st : state) :
  vote w st = option_map binarize (prob w st).
Proof.
  unfold window_vote, window_prob.
  destruct (sampling kTotalLen kRawCount w st) as [[l st1] tr1].
  destruct (run_classifier (features st1)) as [err result].
  by destruct (negb (err =? EI_IMPULSE_OK)).
Qed.

(** The EWMA after a run is the recurrence folded over the probabilities of
    its classified windows, from the value before the run. *)
Lemma run_ewma (ws : list window_env) (st : state) :
  theft_prob_ewma (run ws st).1
  = fold_left
      (fun e p => F32.add (F32.mul EWMA_ALPHA p)
                          (F32.mul (F32.sub F32.one EWMA_ALPHA) e))
      (probs ws st) (theft_prob_ewma st).
Proof.
  revert st. induction ws as [|w ws IH]; intros st; [done|].
  cbn [taskML probs_cast].
  pose proof (window_smoothing w st false) as H.
  destruct (window w st) as [st1 tr] eqn:E. cbn [fst] in *.
  specialize (IH st1). destruct (run ws st1) as [st2 trs]. cbn [fst] in *.
  rewrite IH, fold_left_app.
  destruct (prob w st) as [p|]; cbn [fold_left];
    destruct H as (-> & _); done.
Qed.

Lemma run_votes (ws : list window_env) (st : state) (acc : list Z) :
  cast ws st acc = rev (map binarize (probs ws st)) ++ acc.
Proof.
  revert st acc. induction ws as [|w ws IH]; intros st acc; [done|].
  cbn [votes_cast probs_cast]. rewrite IH, window_vote_prob.
  rewrite map_app, rev_app_distr, <- app_assoc.
  by destruct (prob w st).
Qed.

End SmoothingFacts.

(** C1.  After each successfully classified window, with probability [p],
    the task sets the EWMA to [0.5*p + 0.5*ewma] of the value the previous
    window left, writes 1 if [p >= 0.5] else 0 at the ring index and
    advances the index modulo 3, and drives the LED with an alert flag that
    is true exactly when the new EWMA is [>= 0.6] or the three slots add up
    to at least 2; a window whose classification fails changes none of the
    three and leaves the LED alone.  The EWMA starts at 0, so after a run it
    is the recurrence folded over the probabilities of the classified
    windows in order; the three slots hold the three most recent binarized
    decisions and the index points at the oldest of them.  History [1,0,1]
    satisfies the vote condition and [1,0,0] does not; with an all-zero
    history the alert is the EWMA test alone. *)
Theorem ewma_vote_alert
    (kTotalLen kRawCount : nat)
    (run_classifier : list float -> Z * Labels.ei_impulse_result_t) :
  (forall (w : ML.window_env) (st : ML.state) (v0 : bool),
     let r := ML.taskML_window kTotalLen kRawCount run_classifier w st in
     match Smoothing.window_prob kTotalLen kRawCount run_classifier w st with
     | Some p =>
         let alert := F32.geb (ML.theft_prob_ewma r.1) (F32.lit 6 10)
                      || Z.leb 2 (ML.vote_sum (ML.vote_hist r.1)) in
         ML.theft_prob_ewma r.1
         = F32.add (F32.mul (F32.lit 1 2) p)
                   (F32.mul (F32.lit 1 2) (ML.theft_prob_ewma st))
         /\ ML.vote_hist r.1
            = <[Z.to_nat (ML.vote_hist_idx st)
                := if F32.geb p (F32.lit 1 2) then 1 else 0]> (ML.vote_hist st)
         /\ ML.vote_hist_idx r.1 = Z.rem (ML.vote_hist_idx st + 1) 3
         /\ pin_after STATUS_LED v0 r.2 = alert
     | None =>
         ML.theft_prob_ewma r.1 = ML.theft_prob_ewma st
         /\ ML.vote_hist r.1 = ML.vote_hist st
         /\ ML.vote_hist_idx r.1 = ML.vote_hist_idx st
         /\ pin_after STATUS_LED v0 r.2 = v0
     end)
  /\ (forall (w : ML.window_env) (l : ML.locals)
             (result : Labels.ei_impulse_result_t) (st : ML.state) (v0 : bool),
     let p := Labels.theft_metric_from_labels result
                (relayIsOn (ML.relay_at_decision w)) in
     let st' := (ML.decision kRawCount w l result st).1 in
     let alert := F32.geb (ML.theft_prob_ewma st') (F32.lit 6 10)
                  || Z.leb 2 (ML.vote_sum (ML.vote_hist st')) in
     ML.theft_prob_ewma st'
     = F32.add (F32.mul (F32.lit 1 2) p)
               (F32.mul (F32.lit 1 2) (ML.theft_prob_ewma st))
     /\ ML.vote_hist st'
        = <[Z.to_nat (ML.vote_hist_idx st)
            := if F32.geb p (F32.lit 1 2) then 1 else 0]> (ML.vote_hist st)
     /\ ML.vote_hist_idx st' = Z.rem (ML.vote_hist_idx st + 1) 3
     /\ pin_after STATUS_LED v0 (ML.decision kRawCount w l result st).2 = alert)
  /\ (forall mtx : bool, ML.theft_prob_ewma (ML.init kTotalLen mtx) = F32.of_Z 0)
  /\ (forall (ws : list ML.window_env) (mtx : bool),
        let st := (ML.taskML kTotalLen kRawCount run_classifier ws
                     (ML.init kTotalLen mtx)).1 in
        let ps := Smoothing.probs_cast kTotalLen kRawCount run_classifier ws
                    (ML.init kTotalLen mtx) in
        let ds := ML.votes_cast kTotalLen kRawCount run_classifier ws
                    (ML.init kTotalLen mtx) [] in
        ML.theft_prob_ewma st
        = fold_left
            (fun e p => F32.add (F32.mul (F32.lit 1 2) p)
                                (F32.mul (F32.lit 1 2) e))
            ps (F32.of_Z 0)
        /\ ds = rev (map (fun p => if F32.geb p (F32.lit 1 2) then 1 else 0) ps)
        /\ ML.vote_hist st = ML.ring_of ds
        /\ ML.age (length ds) (ML.vote_hist_idx st) = 2%nat
        /\ ML.vote_sum (ML.vote_hist st) = nth 0 ds 0 + nth 1 ds 0 + nth 2 ds 0)
  /\ ML.vote_theft [1; 0; 1] = true
  /\ ML.vote_theft [1; 0; 0] = false
  /\ (forall e : float,
        F32.geb e ML.THEFT_THRESHOLD || ML.vote_theft [0; 0; 0]
        = F32.geb e ML.THEFT_THRESHOLD).
Proof.
  split; [|split; [|split; [|split; [|split; [|split]]]]].
  - intros w st v0 r. subst r.
    pose proof (window_smoothing kTotalLen kRawCount run_classifier w st v0)
      as H.
    destruct (Smoothing.window_prob kTotalLen kRawCount run_classifier w st)
      as [p|]; exact H.
  - intros w l result st v0 p st' alert. subst alert st' p.
    unfold ML.decision. cbn [fst snd pin_after ML.theft_prob_ewma ML.vote_hist
                             ML.vote_hist_idx].
    change (STATUS_LED =? STATUS_LED) with true.
    repeat split; reflexivity.
  - reflexivity.
  - intros ws mtx st ds0 ds.
    destruct (run_ring kTotalLen kRawCount run_classifier ws
                (ML.init kTotalLen mtx) [] (init_ring kTotalLen mtx))
      as [Hh Hi].
    fold st ds in Hh, Hi. rewrite Hh, Hi.
    split; [apply run_ewma|].
    split.
    { unfold ds, ds0. rewrite run_votes. apply app_nil_r. }
    split; [done|]. split; [apply ring_index_oldest | apply ring_sum].
  - reflexivity.
  - reflexivity.
  - intros e. apply orb_false_r.
Qed.

(** The EWMA is carried from window to window: with probability 1 in
    every window it is 0.5 after the first, 0.75 after the second and, a
    failed window in between changing nothing, 0.875 after the next
    classified one. *)
Example ewma_persists_across_windows :
  ML.theft_prob_ewma
    (ML.taskML 8 2 (ML.answering [Labels.mkClass "theft" (F32.of_Z 1)])
       [ML.steady (F32.of_Z 230) (F32.of_Z 500) true;
        ML.steady (F32.of_Z 230) (F32.of_Z 500) true;
        ML.steady (F32.of_Z 230) (F32.of_Z 500) true]
       (ML.init 8 true)).1
  = F32.lit 7 8
  /\ ML.theft_prob_ewma
       (ML.taskML 8 2 (ML.failing (-3))
          [ML.steady (F32.of_Z 230) (F32.of_Z 500) true]
          (ML.taskML 8 2 (ML.answering [Labels.mkClass "theft" (F32.of_Z 1)])
             [ML.steady (F32.of_Z 230) (F32.of_Z 500) true;
              ML.steady (F32.of_Z 230) (F32.of_Z 500) true]
             (ML.init 8 true)).1).1
     = F32.lit 3 4.
Proof. split; vm_compute; reflexivity. Qed.

Example fmt_f_rounds :
  Printf.fmt_f 0 3 (F32.lit 230150 1000) = "230.150"%string
  /\ Printf.fmt_f 5 1 (F32.lit 2345 1000) = "  2.3"%string
  /\ Printf.fmt_f 0 2 (F32.lit 1 8) = "0.12"%string
  /\ Printf.fmt_f 5 0 (F32.lit 1045 10) = "  104"%string
  /\ Printf.fmt_f 0 3 (F32.lit (-5) 1000) = "-0.005"%string
  /\ Printf.fmt_d (-3) = "-3"%string.
Proof. repeat split; vm_compute; reflexivity. Qed.

(** C8.  A successfully classified window sends exactly one serial line,
    [DATA:V=%.3f,I=%.3f,P=%.3f,THEFT=%.2f,ALERT=%d], carrying the means over
    the window of the voltage, of the current and of the per-sample products
    voltage times current, the new EWMA, and the alert flag as 0 or 1; for
    the means 230.150, 0.452 and 104.170, EWMA 0.15 and no alert, the line is
    [DATA:V=230.150,I=0.452,P=104.170,THEFT=0.15,ALERT=0]. *)
Theorem telemetry_line
    (kTotalLen kRawCount : nat)
    (run_classifier : list float -> Z * Labels.ei_impulse_result_t)
    (w : ML.window_env) (st : ML.state) :
  (run_classifier (ML.features (ML.sampling kTotalLen kRawCount w st).1.2)).1
    = ML.EI_IMPULSE_OK ->
  let st' := (ML.taskML_window kTotalLen kRawCount run_classifier w st).1 in
  let mean (k : nat) :=
    F32.div
      (fold_left F32.add
         (map (fun j => ML.axis_value (ML.sensor w j) k) (seq 0 kRawCount))
         (F32.of_Z 0))
      (F32.of_Z (Z.of_nat kRawCount)) in
  let alert := F32.geb (ML.theft_prob_ewma st') ML.THEFT_THRESHOLD
               || ML.vote_theft (ML.vote_hist st') in
  List.filter ML.is_serial
    (ML.taskML_window kTotalLen kRawCount run_classifier w st).2
  = [SerialPrintf
       ("DATA:V=" +:+ Printf.fmt_f 0 3 (mean 0%nat) +:+
        ",I=" +:+ Printf.fmt_f 0 3 (mean 1%nat) +:+
        ",P=" +:+ Printf.fmt_f 0 3 (mean 2%nat) +:+
        ",THEFT=" +:+ Printf.fmt_f 0 2 (ML.theft_prob_ewma st') +:+
        ",ALERT=" +:+ (if alert then "1" else "0") +:+ Printf.nl)]
  /\ ML.telemetry (F32.lit 230150 1000) (F32.lit 452 1000)
       (F32.lit 104170 1000) (F32.lit 15 100) false
     = ("DATA:V=230.150,I=0.452,P=104.170,THEFT=0.15,ALERT=0" +:+ Printf.nl).
Proof.
  intros Hok st' mean alert. split; [|vm_compute; reflexivity].
  destruct (upto_trace kTotalLen kRawCount w st kRawCount) as [Htr _].
  destruct (upto_sums kTotalLen kRawCount w st kRawCount) as (HV & HI & HP).
  fold (ML.sampling kTotalLen kRawCount w st) in Htr, HV, HI, HP.
  subst alert st' mean. unfold ML.taskML_window.
  destruct (ML.sampling kTotalLen kRawCount w st) as [[l st1] tr1].
  cbn [fst snd] in *.
  destruct (run_classifier (ML.features st1)) as [e result].
  cbn [fst] in Hok. subst e. cbn [Z.eqb ML.EI_IMPULSE_OK negb].
  unfold ML.decision. cbn [fst snd ML.theft_prob_ewma ML.vote_hist].
  rewrite List.filter_app, Htr, HV, HI, HP.
  replace (List.filter ML.is_serial
             (if ML.first_window st
              then map (fun j => SetMetrics
                          (ML.loading_snapshot kRawCount
                             (Store.g_last (ML.shared st)) j))
                       (seq 0 kRawCount)
              else [])) with (@nil event)
    by (destruct (ML.first_window st); [by rewrite filter_serial_writes | done]).
  cbn [app List.filter ML.is_serial]. unfold ML.telemetry.
  by destruct (_ || _).
Qed.

Lemma telemetry_line_witness :
  List.filter ML.is_serial
    (ML.taskML_window 8 2
       (ML.answering [Labels.mkClass "normal" (F32.of_Z 1)])
       (ML.steady (F32.of_Z 230) (F32.of_Z 500) true) (ML.init 8 true)).2
  = [SerialPrintf
       ("DATA:V=230.000,I=0.500,P=115.000,THEFT=0.00,ALERT=0" +:+ Printf.nl)].
Proof.
  pose proof (telemetry_line 8 2
                (ML.answering [Labels.mkClass "normal" (F32.of_Z 1)])
                (ML.steady (F32.of_Z 230) (F32.of_Z 500) true)
                (ML.init 8 true) eq_refl) as [H _].
  rewrite H. vm_compute. reflexivity.
Defined.

(** C4 (the code at the failing input).  With a classifier that fails on
    the first window, [first_window] is still set when the second window is
    sampled: the second window writes its [UI_LOADING] snapshots again, one
    per sample. *)
Theorem loading_writes_after_failed_first_window :
  map (fun tr => length (List.filter ML.is_loading_write tr))
      (ML.taskML 8 2 (ML.failing (-3))
         [ML.steady (F32.of_Z 230) (F32.of_Z 500) true;
          ML.steady (F32.of_Z 230) (F32.of_Z 500) true]
         (ML.init 8 true)).2
  = [2%nat; 2%nat]
  /\ ML.first_window
       (ML.taskML 8 2 (ML.failing (-3))
          [ML.steady (F32.of_Z 230) (F32.of_Z 500) true]
          (ML.init 8 true)).1
     = true.
Proof. split; vm_compute; reflexivity. Qed.

(** X1.  Loading writes end with the first success.  Once a window has been
    classified successfully, no later window of the run writes a snapshot
    with phase LOADING, whatever the classifier returns from then on. *)
Theorem no_loading_write_after_first_success
    (kTotalLen kRawCount : nat)
    (run_classifier : list float -> Z * Labels.ei_impulse_result_t)
    (w : ML.window_env) (st : ML.state) (ws : list ML.window_env) :
  (run_classifier (ML.features (ML.sampling kTotalLen kRawCount w st).1.2)).1
    = ML.EI_IMPULSE_OK ->
  Forall (fun tr => List.filter ML.is_loading_write tr = [])
    (ML.taskML kTotalLen kRawCount run_classifier ws
       (ML.taskML_window kTotalLen kRawCount run_classifier w st).1).2.
Proof.
  intros Hok. apply run_no_loading. by apply window_success_clears.
Qed.

Lemma no_loading_write_after_first_success_witness :
  Forall (fun tr => List.filter ML.is_loading_write tr = [])
    (ML.taskML 8 2 (ML.answering [Labels.mkClass "normal" (F32.of_Z 1)])
       [ML.steady (F32.of_Z 230) (F32.of_Z 500) true]
       (ML.taskML_window 8 2
          (ML.answering [Labels.mkClass "normal" (F32.of_Z 1)])
          (ML.steady (F32.of_Z 230) (F32.of_Z 500) true)
          (ML.init 8 true)).1).2.
Proof.
  apply (no_loading_write_after_first_success 8 2
           (ML.answering [Labels.mkClass "normal" (F32.of_Z 1)])).
  reflexivity.
Defined.

(** The round trip of the specification: a window of constant readings
    230 V, 500 mA, relay on, classified [normal] with probability 1, gives
    probability 0, leaves the EWMA at 0 and raises no alert. *)
Example normal_window_no_alert :
  Labels.theft_metric_from_labels [Labels.mkClass "normal" (F32.of_Z 1)] true
  = F32.of_Z 0
  /\ ML.theft_prob_ewma
       (ML.taskML_window 8 2
          (ML.answering [Labels.mkClass "normal" (F32.of_Z 1)])
          (ML.steady (F32.of_Z 230) (F32.of_Z 500) true)
          (ML.init 8 true)).1
     = F32.of_Z 0
  /\ pin_after STATUS_LED true
       (ML.taskML_window 8 2
          (ML.answering [Labels.mkClass "normal" (F32.of_Z 1)])
          (ML.steady (F32.of_Z 230) (F32.of_Z 500) true)
          (ML.init 8 true)).2
     = false.
Proof. repeat split; vm_compute; reflexivity. Qed.

(** Two spikes in a row: the first already lifts the EWMA to 0.5, below
    the threshold, with one vote; the second gives 0.75 and two votes. *)
Example two_spikes_alert :
  map (pin_after STATUS_LED false)
      (ML.taskML 8 2 (ML.answering [Labels.mkClass "theft" (F32.of_Z 1)])
         [ML.steady (F32.of_Z 230) (F32.of_Z 500) true;
          ML.steady (F32.of_Z 230) (F32.of_Z 500) true]
         (ML.init 8 true)).2
  = [false; true].
Proof. vm_compute. reflexivity. Qed.

(* ===================================================================== *)
(** * Properties of the display task *)
(* ===================================================================== *)

Section DisplayFacts.

Import Store Display.

(** Which view a tick selects, from the phase and the frame counter. *)
Lemma tick_view (now : Z) (st : state) :
  view_of (tick now st).2
  = (if UiPhase_eqb (phase (g_last (shared st))) UI_BOOT
        && Z.ltb (boot_frames st) BOOT_FRAMES
     then BOOT
     else match phase (g_last (shared st)) with
          | UI_LOADING => LOADING
          | UI_ALERT => ALERT
          | _ => RUN
          end).
Proof.
  unfold tick. rewrite get_metrics_g_last.
  destruct (phase (g_last (shared st))); cbn [UiPhase_eqb andb];
    by destruct (Z.ltb (boot_frames st) BOOT_FRAMES).
Qed.

Lemma loading_fill_clamped (m : Metrics) :
  loading_fill m
  = (if F32.ltb (progress m) (F32.of_Z 0) then Some 0
     else if F32.gtb (progress m) (F32.of_Z 1) then Some (SCREEN_WIDTH - 4)
     else F32.to_int (F32.mul (F32.of_Z (SCREEN_WIDTH - 4)) (progress m))).
Proof.
  unfold loading_fill, clamp01.
  destruct (F32.ltb (progress m) (F32.of_Z 0)); [reflexivity|].
  destruct (F32.gtb (progress m) (F32.of_Z 1)); reflexivity.
Qed.

End DisplayFacts.

(** C9.  A display tick calls exactly one of the four renderers, chosen
    from the snapshot phase and the local frame counter alone, with the
    snapshot and the wall time as its arguments: the boot frame if and only
    if the phase is BOOT and the counter is below 20, the loading view if and
    only if the phase is LOADING, the alert view if and only if the phase is
    ALERT, the run view otherwise, so also when the phase is still BOOT with
    the counter at 20 (the snapshot of a run is then still the initial, zero
    one).  A tick leaves the store as it was and only advances its own
    counter.  The fill of the loading bar is the cast to [int] of 124 times
    the progress clamped to [0,1]: 0 below 0, 124 above 1, 62 at 0.5. *)
Theorem display_dispatch (now : Z) (st : Display.state) :
  let m := Store.g_last (Display.shared st) in
  let bf := Display.boot_frames st in
  let c := (Display.tick now st).2 in
  (Display.view_of c = Display.BOOT
     <-> Store.phase m = Store.UI_BOOT /\ bf < Display.BOOT_FRAMES)
  /\ (Display.view_of c = Display.LOADING <-> Store.phase m = Store.UI_LOADING)
  /\ (Display.view_of c = Display.ALERT <-> Store.phase m = Store.UI_ALERT)
  /\ (Display.view_of c = Display.RUN
        <-> Store.phase m = Store.UI_RUN
            \/ (Store.phase m = Store.UI_BOOT /\ Display.BOOT_FRAMES <= bf))
  /\ c = match Display.view_of c with
         | Display.BOOT => Display.CallBoot bf
         | Display.LOADING => Display.CallLoading m now
         | Display.ALERT => Display.CallAlert m now
         | Display.RUN => Display.CallRun m
         end
  /\ Display.shared (Display.tick now st).1 = Display.shared st
  /\ Display.boot_frames (Display.tick now st).1
     = match Display.view_of c with
       | Display.BOOT => (bf + 1) mod 2 ^ 16
       | _ => bf
       end
  /\ (forall (kTotalLen kRawCount : nat)
             (run_classifier : list float -> Z * Labels.ei_impulse_result_t)
             (ws : list ML.window_env) (mtx : bool),
        Store.boot_inv
          (ML.shared (ML.taskML kTotalLen kRawCount run_classifier ws
                        (ML.init kTotalLen mtx)).1))
  /\ (forall (g : Store.Metrics) (t : Z),
        match Display.drawLoading g t, Display.loading_fill g with
        | Some ops, Some w =>
            In (Display.FillRect 2 20 w 8 Display.SSD1306_WHITE) ops
        | None, None => True
        | _, _ => False
        end)
  /\ (forall g : Store.Metrics,
        Display.loading_fill g
        = if F32.ltb (Store.progress g) (F32.of_Z 0) then Some 0
          else if F32.gtb (Store.progress g) (F32.of_Z 1) then Some 124
          else F32.to_int (F32.mul (F32.of_Z 124) (Store.progress g)))
  /\ Display.loading_fill (Store.set_progress (F32.lit 1 2) Store.Metrics_init)
     = Some ((Display.SCREEN_WIDTH - 4) / 2)
  /\ map (fun q => Display.loading_fill
                     (Store.set_progress (F32.lit q 4) Store.Metrics_init))
         [0; 1; 2; 3; 4]
     = [Some 0; Some 31; Some 62; Some 93; Some 124].
Proof.
  intros m bf c.
  pose proof (tick_view now st) as Hv. fold c m bf in Hv.
  assert (Hc : c = match Display.view_of c with
                   | Display.BOOT => Display.CallBoot bf
                   | Display.LOADING => Display.CallLoading m now
                   | Display.ALERT => Display.CallAlert m now
                   | Display.RUN => Display.CallRun m
                   end
               /\ Display.shared (Display.tick now st).1 = Display.shared st
               /\ Display.boot_frames (Display.tick now st).1
                  = match Display.view_of c with
                    | Display.BOOT => (bf + 1) mod 2 ^ 16
                    | _ => bf
                    end).
  { subst c m bf. unfold Display.tick. rewrite get_metrics_g_last.
    destruct (Store.phase (Store.g_last (Display.shared st)));
      cbn [Store.UiPhase_eqb andb];
      by destruct (Z.ltb (Display.boot_frames st) Display.BOOT_FRAMES). }
  destruct Hc as (Hc1 & Hc2 & Hc3).
  split; [|split; [|split; [|split; [|split; [exact Hc1|
    split; [exact Hc2|split; [exact Hc3|split; [|split; [|split]]]]]]]]].
  1-4: rewrite Hv; clear Hv Hc1 Hc2 Hc3;
       destruct (Store.phase m); cbn [Store.UiPhase_eqb andb];
       destruct (Z.ltb_spec bf Display.BOOT_FRAMES);
       intuition (try discriminate; try lia).
  - intros kTotalLen kRawCount run_classifier ws mtx.
    apply run_boot_inv, init_boot_inv.
  - intros g t. unfold Display.drawLoading. cbv zeta.
    destruct (Display.loading_fill g); [|done].
    cbn. tauto.
  - intros g. apply loading_fill_clamped.
  - split; reflexivity.
Qed.

(* ===================================================================== *)
(** * Properties of the serial task *)
(* ===================================================================== *)

Section SerialFacts.

Import Parser Serial.

Lemma feed_app (a b : list ascii) (st : state) :
  feed (a ++ b) st
  = ((feed b (feed a st).1).1, (feed a st).2 ++ (feed b (feed a st).1).2).
Proof.
  revert st. induction a as [|c a IH]; intros st; cbn [app feed].
  - cbn [fst snd app]. by destruct (feed b st).
  - destruct (parseCommandByte c st) as [st1 ev1]. rewrite IH.
    destruct (feed a st1) as [st2 ev2]. cbn [fst snd].
    destruct (feed b st2) as [st3 ev3]. cbn [fst snd].
    by rewrite app_assoc.
Qed.

Lemma take_full_app (cur rest : list ascii) (n : nat) :
  length cur = n -> take n (cur ++ rest) = cur.
Proof. intros <-. apply take_app_length. Qed.

(** The line parser on a whole byte sequence, in terms of its lines. *)
Lemma line_parser_lines (f : list ascii -> list event)
    (bytes cur : list ascii) :
  (length cur <= BUF_SIZE - 1)%nat ->
  cur = List.filter not_CR cur ->
  line_parser f bytes cur
  = match split_lines bytes with
    | ([], open_line) =>
        (take (BUF_SIZE - 1) (cur ++ List.filter not_CR open_line), [])
    | (l :: ls, open_line) =>
        (content open_line,
         f (take (BUF_SIZE - 1) (cur ++ List.filter not_CR l))
         ++ flat_map (fun l' => f (content l')) ls)
    end.
Proof.
  unfold content. change (BUF_SIZE - 1)%nat with 31%nat.
  revert cur. induction bytes as [|c rest IH]; intros cur Hlen Hcur.
  - cbn. by rewrite app_nil_r, take_ge by lia.
  - cbn [line_parser split_lines]. unfold line_step.
    change (BUF_SIZE - 1)%nat with 31%nat.
    destruct (Ascii.eqb_spec c CR) as [->|HCR].
    + change (Ascii.eqb CR LF) with false. rewrite (IH cur Hlen Hcur).
      destruct (split_lines rest) as [[|l ls] open_line]; cbn [List.filter];
        change (not_CR CR) with false; done.
    + destruct (Ascii.eqb_spec c LF) as [->|HLF].
      * rewrite (IH [] ltac:(simpl; lia) eq_refl). cbn [app].
        destruct (split_lines rest) as [[|l ls] open_line];
          cbn [List.filter flat_map app];
          rewrite ?app_nil_r, ?(take_ge cur) by lia; done.
      * assert (Hc : not_CR c = true)
          by (unfold not_CR; by destruct (Ascii.eqb_spec c CR)).
        destruct (Nat.ltb_spec (length cur) 31) as [Hlt|Hge].
        -- rewrite IH;
             [| rewrite length_app; simpl; lia
              | rewrite List.filter_app, <- Hcur; cbn; by rewrite Hc ].
           destruct (split_lines rest) as [[|l ls] open_line];
             cbn [List.filter]; rewrite Hc, <- app_assoc; done.
        -- rewrite (IH cur Hlen Hcur).
           assert (Hfull : length cur = 31%nat) by lia.
           destruct (split_lines rest) as [[|l ls] open_line];
             cbn [List.filter]; rewrite Hc, !take_full_app by done; done.
Qed.

Lemma dispatch_serial_count (l : list ascii) :
  length (List.filter ML.is_serial (dispatch l))
  = match l with [] => 0%nat | _ :: _ => 1%nat end.
Proof.
  unfold dispatch. repeat case_decide.
  - destruct l; [discriminate | done].
  - destruct l; [discriminate | done].
  - by destruct l.
Qed.

Lemma dispatch_relay (l : list ascii) (v : bool) :
  relayIsOn (pin_after RELAY_PIN v (dispatch l))
  = if decide (cstr l = lit "RELAY:ON") then true
    else if decide (cstr l = lit "RELAY:OFF") then false
    else relayIsOn v.
Proof.
  unfold dispatch. repeat case_decide; try done. by destruct l.
Qed.

Lemma pin_after_app (pin : Z) (v : bool) (a b : list event) :
  pin_after pin v (a ++ b) = pin_after pin (pin_after pin v a) b.
Proof.
  revert v. induction a as [|e a IH]; intros v; [done|].
  destruct e; cbn [app pin_after]; apply IH.
Qed.

End SerialFacts.

(** X2.  How the input is cut into polls does not matter: the polls of
    [taskSerial], each draining what is pending, leave the parser in the
    state and produce the relay writes and replies of one pass over all the
    bytes, from any state of the parser.  A command split between two polls
    is a command. *)
Theorem polls_same_as_one_pass
    (polls : list (list ascii)) (st : Parser.state) :
  Serial.taskSerial polls st = Parser.feed (concat polls) st.
Proof.
  revert st. induction polls as [|p ps IH]; intros st; [done|].
  cbn [Serial.taskSerial concat]. rewrite feed_app.
  destruct (Parser.feed p st) as [st1 ev1]. cbn [fst snd]. rewrite IH.
  by destruct (Parser.feed (concat ps) st1).
Qed.

(** X3.  The output of the parser on a byte sequence is the output of its
    newline-terminated lines taken one by one, each reduced to its first 31
    bytes other than carriage returns; the bytes after the last newline
    trigger nothing and stay buffered.  Hence there is exactly one reply per
    terminated line that buffers at least one byte, and none for the
    others. *)
Theorem replies_line_by_line (bytes : list ascii) :
  (Parser.feed bytes Parser.init).2
  = flat_map (fun l => Parser.dispatch (Serial.content l))
             (Serial.split_lines bytes).1
  /\ Parser.line (Parser.feed bytes Parser.init).1
     = Serial.content (Serial.split_lines bytes).2
  /\ length (List.filter ML.is_serial (Parser.feed bytes Parser.init).2)
     = length (List.filter (fun l => negb (Serial.is_blank l))
                           (Serial.split_lines bytes).1).
Proof.
  destruct (feed_line_parser bytes Parser.init init_wf) as [_ H].
  change (Parser.line Parser.init) with (@nil ascii) in H.
  rewrite (line_parser_lines Parser.dispatch bytes [])
    in H by (done || (simpl; lia)).
  assert (Hev : (Parser.feed bytes Parser.init).2
                = flat_map (fun l => Parser.dispatch (Serial.content l))
                           (Serial.split_lines bytes).1
                /\ Parser.line (Parser.feed bytes Parser.init).1
                   = Serial.content (Serial.split_lines bytes).2).
  { destruct (Serial.split_lines bytes) as [[|l ls] open_line];
      injection H as H1 H2; split; done. }
  destruct Hev as [Hev Hline]. split; [done|]. split; [done|].
  rewrite Hev. generalize (Serial.split_lines bytes).1. intros ls.
  induction ls as [|l ls IH]; [done|].
  cbn [flat_map List.filter]. rewrite List.filter_app, length_app, IH.
  rewrite dispatch_serial_count. unfold Serial.is_blank.
  by destruct (Serial.content l).
Qed.

(** X4.  After any input, the relay is in the state asked for by the last
    terminated line that reads [RELAY:ON] or [RELAY:OFF] (as a C string,
    within the 31 retained bytes); if there is no such line it is in the
    state it had before, whatever else was sent. *)
Theorem relay_follows_last_command (bytes : list ascii) (v0 : bool) :
  relayIsOn (pin_after RELAY_PIN v0 (Parser.feed bytes Parser.init).2)
  = fold_left Serial.command_level (Serial.split_lines bytes).1 (relayIsOn v0).
Proof.
  destruct (feed_line_parser bytes Parser.init init_wf) as [_ H].
  change (Parser.line Parser.init) with (@nil ascii) in H.
  rewrite (line_parser_lines Parser.dispatch bytes [])
    in H by (done || (simpl; lia)).
  assert (Hev : (Parser.feed bytes Parser.init).2
                = flat_map (fun l => Parser.dispatch (Serial.content l))
                           (Serial.split_lines bytes).1).
  { destruct (Serial.split_lines bytes) as [[|l ls] open_line];
      injection H as H1 H2; done. }
  rewrite Hev. generalize (Serial.split_lines bytes).1. intros ls.
  revert v0. induction ls as [|l ls IH]; intros v0; [done|].
  cbn [flat_map fold_left]. rewrite pin_after_app, IH.
  f_equal. rewrite dispatch_relay. unfold Serial.command_level.
  by repeat case_decide.
Qed.

(* ===================================================================== *)
(** * Further properties of the sampling and decision task *)
(* ===================================================================== *)

Section WindowFacts.

Import Store ML Trace.

Variable kTotalLen : nat.
Variable kRawCount : nat.
Variable run_classifier : list float -> Z * Labels.ei_impulse_result_t.

Local Abbreviation window := (taskML_window kTotalLen kRawCount run_classifier).
Local Abbreviation run := (taskML kTotalLen kRawCount run_classifier).
Local Abbreviation sample_all := (sampling kTotalLen kRawCount).

Lemma filter_pin_writes (f : nat -> Metrics) (l : list nat) :
  List.filter is_pin_write (map (fun j => SetMetrics (f j)) l) = [].
Proof. induction l; done. Qed.

Lemma only_pin_writes (pin : Z) (f : nat -> Metrics) (l : list nat) :
  Forall (fun e => only_pin pin e = true) (map (fun j => SetMetrics (f j)) l).
Proof. induction l; by constructor. Qed.

(** The trace of the inner loop holds snapshot writes only. *)
Lemma sampling_trace_quiet (w : window_env) (st : state) :
  List.filter is_serial (sample_all w st).2 = []
  /\ List.filter is_pin_write (sample_all w st).2 = []
  /\ Forall (fun e => only_pin STATUS_LED e = true) (sample_all w st).2.
Proof.
  unfold sampling.
  destruct (upto_trace kTotalLen kRawCount w st kRawCount) as [-> _].
  destruct (first_window st).
  - by rewrite filter_serial_writes, filter_pin_writes; split; [|split;
      [|apply only_pin_writes]].
  - by repeat split.
Qed.

(** Every window: one serial line, at most one pin write, on the LED. *)
Lemma window_trace_counts (w : window_env) (st : state) :
  length (List.filter is_serial (window w st).2) = 1%nat
  /\ (length (List.filter is_pin_write (window w st).2) <= 1)%nat
  /\ Forall (fun e => only_pin STATUS_LED e = true) (window w st).2.
Proof.
  destruct (sampling_trace_quiet w st) as (Hs & Hp & Ho).
  unfold taskML_window.
  destruct (sample_all w st) as [[l st1] tr1]. cbn [fst snd] in Hs, Hp, Ho.
  destruct (run_classifier (features st1)) as [err result].
  destruct (negb (err =? EI_IMPULSE_OK)); cbn [fst snd decision];
    rewrite !List.filter_app, Hs, Hp; cbn [app List.filter is_serial
      is_pin_write length]; (split; [done|]); (split; [lia|]);
    apply Forall_app; split; try done; by repeat constructor.
Qed.

Lemma only_pin_keeps (pin other : Z) (v : bool) (tr : list event) :
  other <> pin ->
  Forall (fun e => only_pin pin e = true) tr ->
  pin_after other v tr = v.
Proof.
  intros Hne H. revert v. induction H as [|e tr He _ IH]; intros v; [done|].
  destruct e as [p lv| | |]; cbn [pin_after]; try apply IH.
  cbn in He. apply Z.eqb_eq in He. subst p.
  destruct (Z.eqb_spec pin other); [congruence | apply IH].
Qed.

Lemma run_trace_counts (ws : list window_env) (st : state) :
  Forall (fun tr => length (List.filter is_serial tr) = 1%nat
                    /\ (length (List.filter is_pin_write tr) <= 1)%nat
                    /\ Forall (fun e => only_pin STATUS_LED e = true) tr)
         (run ws st).2.
Proof.
  revert st. induction ws as [|w ws IH]; intros st; [by constructor|].
  cbn [taskML]. pose proof (window_trace_counts w st) as Hw.
  destruct (window w st) as [st1 tr]. specialize (IH st1).
  destruct (run ws st1) as [st2 trs]. by constructor.
Qed.

(** One window keeps the snapshot coherent. *)
Lemma window_coherent (w : window_env) (st : state) :
  coherent (first_window st) (shared st) ->
  coherent (first_window (window w st).1) (shared (window w st).1).
Proof.
  intros Hc.
  destruct (upto_trace kTotalLen kRawCount w st kRawCount) as [_ Hsh].
  destruct (upto_frame kTotalLen kRawCount w st kRawCount)
    as (_ & _ & _ & Hfw & _).
  fold (sample_all w st) in Hsh, Hfw. unfold taskML_window.
  destruct (sample_all w st) as [[l st1] tr1]. cbn [fst snd] in Hsh, Hfw.
  assert (Hc1 : coherent (first_window st1) (shared st1)).
  { rewrite Hfw, Hsh. destruct (first_window st) eqn:Ef; [|done].
    destruct kRawCount as [|n']; [done|].
    unfold set_metrics. destruct (shared st) as [g [|]]; [|done].
    unfold coherent in *. unfold loading_snapshot.
    cbn [g_last g_last_mtx phase alert progress V I P theft relay
         set_progress set_phase] in *.
    destruct Hc as (Ha & Hz & _ & Hb & _).
    specialize (Hz (Hb eq_refl)). destruct Hz as (? & ? & ? & ? & Hal & ?).
    rewrite Hal. intuition (discriminate || congruence). }
  destruct (run_classifier (features st1)) as [err result].
  destruct (negb (err =? EI_IMPULSE_OK)); cbn [fst snd]; [done|].
  unfold decision. cbn [fst first_window shared]. unfold set_metrics.
  destruct (shared st1) as [g [|]].
  - unfold coherent. cbn [g_last g_last_mtx phase alert progress V I P theft
                          relay set_V set_I set_P set_theft set_alert
                          set_relay set_progress set_phase].
    destruct (F32.geb _ _ || vote_theft _);
      intuition (discriminate || congruence).
  - unfold coherent in *. cbn [g_last g_last_mtx] in *.
    intuition (discriminate || congruence).
Qed.

Lemma run_coherent (ws : list window_env) (st : state) :
  coherent (first_window st) (shared st) ->
  coherent (first_window (run ws st).1) (shared (run ws st).1).
Proof.
  revert st. induction ws as [|w ws IH]; intros st H; [done|].
  cbn [taskML]. apply (window_coherent w) in H.
  destruct (window w st) as [st1 tr]. specialize (IH st1 H).
  by destruct (run ws st1).
Qed.

Lemma init_coherent (mtx : bool) :
  coherent (first_window (init kTotalLen mtx)) (shared (init kTotalLen mtx)).
Proof.
  unfold coherent. destruct mtx; cbn; intuition (discriminate || congruence).
Qed.

End WindowFacts.

(** X5.  In any run of [taskML], from any state, every window sends
    exactly one serial line (the DATA line or the classifier error) and
    writes at most one pin, the status LED; the relay pin is never written,
    so an alert by itself never switches the relay.  Conversely, the command
    parser never writes the status LED. *)
Theorem one_line_per_window_relay_untouched
    (kTotalLen kRawCount : nat)
    (run_classifier : list float -> Z * Labels.ei_impulse_result_t)
    (ws : list ML.window_env) (st : ML.state) (v0 : bool) :
  Forall (fun tr => length (List.filter ML.is_serial tr) = 1%nat)
         (ML.taskML kTotalLen kRawCount run_classifier ws st).2
  /\ Forall (fun tr => (length (List.filter Trace.is_pin_write tr) <= 1)%nat)
            (ML.taskML kTotalLen kRawCount run_classifier ws st).2
  /\ Forall (fun tr => pin_after RELAY_PIN v0 tr = v0)
            (ML.taskML kTotalLen kRawCount run_classifier ws st).2
  /\ (forall (bytes : list ascii) (pst : Parser.state),
        pin_after STATUS_LED v0 (Parser.feed bytes pst).2 = v0).
Proof.
  pose proof (run_trace_counts kTotalLen kRawCount run_classifier ws st) as H.
  repeat split.
  - eapply Forall_impl; [exact H|]. by intros tr (? & _).
  - eapply Forall_impl; [exact H|]. by intros tr (_ & ? & _).
  - eapply Forall_impl; [exact H|]. intros tr (_ & _ & Ho).
    by apply (only_pin_keeps STATUS_LED).
  - intros bytes. induction bytes as [|c bytes IH]; intros pst; [done|].
    cbn [Parser.feed]. unfold Parser.parseCommandByte.
    destruct (Ascii.eqb c Parser.CR); [|destruct (negb (Ascii.eqb c Parser.LF))].
    + specialize (IH pst). by destruct (Parser.feed bytes pst).
    + match goal with
      | |- context [Parser.feed bytes ?s] =>
          specialize (IH s); by destruct (Parser.feed bytes s)
      end.
    + match goal with
      | |- context [Parser.feed bytes ?s] =>
          specialize (IH s); destruct (Parser.feed bytes s) as [s2 e2]
      end.
      cbn [fst snd] in *.
      repeat match goal with
             | |- context [if ?b then _ else _] => destruct b
             end; cbn; exact IH.
Qed.

(** X6.  Over any run of [taskML] from start-up the shared snapshot stays
    coherent: its alert flag is set exactly when its phase is ALERT; as long
    as no window has been classified, the phase is BOOT or LOADING and
    voltage, current, power and theft probability are all still zero, with
    no alert; in phase RUN or ALERT the progress is 1; and once a window has
    been classified the phase (of a store with a mutex) is RUN or ALERT. *)
Theorem snapshot_stays_coherent
    (kTotalLen kRawCount : nat)
    (run_classifier : list float -> Z * Labels.ei_impulse_result_t)
    (ws : list ML.window_env) (mtx : bool) :
  Trace.coherent
    (ML.first_window
       (ML.taskML kTotalLen kRawCount run_classifier ws
          (ML.init kTotalLen mtx)).1)
    (ML.shared
       (ML.taskML kTotalLen kRawCount run_classifier ws
          (ML.init kTotalLen mtx)).1).
Proof. apply run_coherent, init_coherent. Qed.

Section VoteFacts.

Import Store ML.

Variable kTotalLen : nat.
Variable kRawCount : nat.
Variable run_classifier : list float -> Z * Labels.ei_impulse_result_t.

Local Abbreviation window := (taskML_window kTotalLen kRawCount run_classifier).
Local Abbreviation run := (taskML kTotalLen kRawCount run_classifier).
Local Abbreviation cast := (votes_cast kTotalLen kRawCount run_classifier).
Local Abbreviation vote := (window_vote kTotalLen kRawCount run_classifier).

Lemma window_vote_range (w : window_env) (st : state) (d : Z) :
  vote w st = Some d -> 0 <= d.
Proof.
  unfold window_vote.
  destruct (sampling kTotalLen kRawCount w st) as [[l st1] tr1].
  destruct (run_classifier (features st1)) as [err result].
  destruct (negb (err =? EI_IMPULSE_OK)); [done|].
  intros [= <-]. unfold binarize. destruct (F32.geb _ _); lia.
Qed.

Lemma votes_cast_range (ws : list window_env) (st : state) (acc : list Z) :
  Forall (fun d => 0 <= d) acc -> Forall (fun d => 0 <= d) (cast ws st acc).
Proof.
  revert st acc. induction ws as [|w ws IH]; intros st acc H; [done|].
  cbn [votes_cast]. apply IH.
  destruct (vote w st) as [d|] eqn:E; [|done].
  constructor; [by apply (window_vote_range w st) | done].
Qed.

(** The LED level a window leaves when it casts the vote [d] on top of the
    decisions [ds]. *)
Lemma window_led (w : window_env) (st : state) (ds : list Z) (d : Z) (v0 : bool) :
  ring_state ds st -> vote w st = Some d ->
  pin_after STATUS_LED v0 (window w st).2
  = F32.geb (theft_prob_ewma (window w st).1) THEFT_THRESHOLD
    || Z.leb 2 (d + nth 0 ds 0 + nth 1 ds 0).
Proof.
  intros [Hh Hi]. unfold window_vote, taskML_window.
  destruct (upto_trace kTotalLen kRawCount w st kRawCount) as [Htr _].
  destruct (upto_frame kTotalLen kRawCount w st kRawCount)
    as (_ & Eh & Ei & _ & _).
  fold (sampling kTotalLen kRawCount w st) in Htr, Eh, Ei.
  destruct (sampling kTotalLen kRawCount w st) as [[l st1] tr1].
  cbn [fst snd] in Htr, Eh, Ei.
  destruct (run_classifier (features st1)) as [err result].
  destruct (negb (err =? EI_IMPULSE_OK)); [done|].
  intros [= Hd]. unfold decision. cbn [fst snd theft_prob_ewma].
  rewrite Htr.
  replace (pin_after STATUS_LED v0
             ((if first_window st
               then map (fun j => SetMetrics
                           (loading_snapshot kRawCount (g_last (shared st)) j))
                        (seq 0 kRawCount)
               else []) ++ _))
    with (pin_after STATUS_LED v0
            [DigitalWrite STATUS_LED
               (F32.geb
                  (F32.add
                     (F32.mul EWMA_ALPHA
                        (Labels.theft_metric_from_labels result
                           (relayIsOn (relay_at_decision w))))
                     (F32.mul (F32.sub F32.one EWMA_ALPHA) (theft_prob_ewma st1)))
                  THEFT_THRESHOLD
                || vote_theft
                     (<[Z.to_nat (vote_hist_idx st1) := d]> (vote_hist st1)))]).
  2:{ rewrite Hd. destruct (first_window st); [by rewrite pin_after_writes|done]. }
  cbn [pin_after]. change (STATUS_LED =? STATUS_LED) with true. cbn iota.
  f_equal. rewrite Eh, Ei.
  destruct (ring_state_push d ds _ _ Hh Hi) as [-> _].
  unfold vote_theft. rewrite ring_sum. cbn [nth].
  change (Z.quot (VOTE_N + 1) 2) with 2. done.
Qed.

End VoteFacts.

(** X7.  Two votes make an alert.  When two consecutive windows of a run
    are both classified with a probability of at least 0.5, the second one
    switches the status LED on, whatever the EWMA and the older history
    are: the majority vote alone raises the alert within two windows. *)
Theorem two_votes_raise_alert
    (kTotalLen kRawCount : nat)
    (run_classifier : list float -> Z * Labels.ei_impulse_result_t)
    (ws : list ML.window_env) (mtx : bool)
    (w1 w2 : ML.window_env) (v0 : bool) :
  let st :=
    (ML.taskML kTotalLen kRawCount run_classifier ws (ML.init kTotalLen mtx)).1 in
  let st1 := (ML.taskML_window kTotalLen kRawCount run_classifier w1 st).1 in
  ML.window_vote kTotalLen kRawCount run_classifier w1 st = Some 1 ->
  ML.window_vote kTotalLen kRawCount run_classifier w2 st1 = Some 1 ->
  pin_after STATUS_LED v0
    (ML.taskML_window kTotalLen kRawCount run_classifier w2 st1).2
  = true.
Proof.
  intros st st1 H1 H2.
  pose proof (run_ring kTotalLen kRawCount run_classifier ws
                (ML.init kTotalLen mtx) [] (init_ring kTotalLen mtx)) as Hr.
  fold st in Hr.
  pose proof (votes_cast_range kTotalLen kRawCount run_classifier ws
                (ML.init kTotalLen mtx) [] ltac:(constructor)) as Hds.
  pose proof (window_ring kTotalLen kRawCount run_classifier w1 st _ Hr) as Hr1.
  rewrite H1 in Hr1. fold st1 in Hr1.
  rewrite (window_led kTotalLen kRawCount run_classifier w2 st1 _ 1 v0 Hr1 H2).
  cbn [nth]. apply orb_true_iff. right. apply Z.leb_le.
  destruct Hds as [|d ds Hd _]; cbn [nth]; lia.
Qed.

Lemma two_votes_raise_alert_witness :
  pin_after STATUS_LED false
    (ML.taskML_window 8 2 (ML.answering [Labels.mkClass "tamper" (F32.lit 1 2)])
       (ML.steady (F32.of_Z 230) (F32.of_Z 500) true)
       (ML.taskML_window 8 2
          (ML.answering [Labels.mkClass "tamper" (F32.lit 1 2)])
          (ML.steady (F32.of_Z 230) (F32.of_Z 500) true)
          (ML.taskML 8 2
             (ML.answering [Labels.mkClass "tamper" (F32.lit 1 2)]) []
             (ML.init 8 true)).1).1).2
  = true.
Proof.
  apply (two_votes_raise_alert 8 2
           (ML.answering [Labels.mkClass "tamper" (F32.lit 1 2)]) [] true);
    reflexivity.
Defined.

Section SignalFacts.

Import ML Signal.

Lemma take_drop_slice (f : list float) (off a b : nat) :
  take (a + b) (drop off f) = take a (drop off f) ++ take b (drop (off + a) f).
Proof. by rewrite <- take_take_drop, drop_drop. Qed.

End SignalFacts.

(** X8.  What the classifier reads through [raw_feature_get_data].  In
    every window of a run, a read of one sample's worth of floats at the
    offset of sample [n] returns status 0 and the axes packed for that
    sample: voltage, current, power, relay state, then zeros.  A read of the
    whole buffer returns it; a read in two parts returns the two halves of
    the one read; a read that would pass the end of the buffer is outside
    the array. *)
Theorem classifier_reads_packed_slots
    (kTotalLen kRawCount : nat)
    (run_classifier : list float -> Z * Labels.ei_impulse_result_t)
    (static_assert : (kTotalLen mod kRawCount = 0)%nat)
    (ws : list ML.window_env) (mtx : bool) (w : ML.window_env) (n : nat) :
  (n < kRawCount)%nat ->
  let A := ML.kModelAxes kTotalLen kRawCount in
  let f :=
    ML.features
      (ML.sampling kTotalLen kRawCount w
         (ML.taskML kTotalLen kRawCount run_classifier ws
            (ML.init kTotalLen mtx)).1).1.2 in
  Signal.raw_feature_get_data f (n * A) A
  = Some (map (ML.axis_value (ML.sensor w n)) (seq 0 A), 0)
  /\ Signal.raw_feature_get_data f 0 kTotalLen = Some (f, 0)
  /\ (forall off a b : nat, (off + a + b <= kTotalLen)%nat ->
        Signal.raw_feature_get_data f off (a + b)
        = Some (take a (drop off f) ++ take b (drop (off + a) f), 0)
        /\ Signal.raw_feature_get_data f off a = Some (take a (drop off f), 0)
        /\ Signal.raw_feature_get_data f (off + a) b
           = Some (take b (drop (off + a) f), 0))
  /\ (forall off len : nat, (kTotalLen < off + len)%nat ->
        Signal.raw_feature_get_data f off len = None).
Proof.
  intros Hn A f.
  assert (Hlen0 : length (ML.features
                    (ML.taskML kTotalLen kRawCount run_classifier ws
                       (ML.init kTotalLen mtx)).1) = kTotalLen).
  { apply run_features_length; [done|]. apply length_replicate. }
  destruct (upto_features kTotalLen kRawCount static_assert w _ kRawCount Hlen0)
    as (_ & Hl & Hslots); [done|].
  fold (ML.sampling kTotalLen kRawCount w
          (ML.taskML kTotalLen kRawCount run_classifier ws
             (ML.init kTotalLen mtx)).1) in Hl, Hslots.
  fold f A in Hl, Hslots.
  pose proof (kTotalLen_axes kTotalLen kRawCount static_assert) as HT.
  fold A in HT.
  unfold Signal.raw_feature_get_data. rewrite Hl.
  split; [|split; [|split]].
  - replace (n * A + A <=? kTotalLen)%nat with true
      by (symmetry; apply Nat.leb_le; nia).
    f_equal. f_equal. apply list_eq. intros i.
    destruct (Nat.lt_ge_cases i A) as [Hi|Hi].
    + rewrite lookup_take_lt, lookup_drop by done.
      rewrite (Hslots n i Hn Hi).
      change (map ?g ?l) with (g <$> l).
      by rewrite list_lookup_fmap, lookup_seq_lt.
    + rewrite lookup_take_ge by done.
      change (map ?g ?l) with (g <$> l).
      by rewrite list_lookup_fmap, lookup_seq_ge.
  - rewrite Nat.leb_refl. by rewrite drop_0, <- Hl at 1 by done;
      rewrite firstn_all.
  - intros off a b Hfit.
    replace (off + (a + b) <=? kTotalLen)%nat with true
      by (symmetry; apply Nat.leb_le; lia).
    replace (off + a <=? kTotalLen)%nat with true
      by (symmetry; apply Nat.leb_le; lia).
    replace (off + a + b <=? kTotalLen)%nat with true
      by (symmetry; apply Nat.leb_le; lia).
    by rewrite take_drop_slice.
  - intros off len Hout.
    by replace (off + len <=? kTotalLen)%nat with false
      by (symmetry; apply Nat.leb_gt; lia).
Qed.

Lemma classifier_reads_packed_slots_witness :
  Signal.raw_feature_get_data
    (ML.features
       (ML.sampling 10 2 (ML.steady (F32.of_Z 230) (F32.of_Z 500) true)
          (ML.taskML 10 2 (ML.answering []) [] (ML.init 10 true)).1).1.2)
    (1 * ML.kModelAxes 10 2) (ML.kModelAxes 10 2)
  = Some (map (ML.axis_value (ML.sensor
                 (ML.steady (F32.of_Z 230) (F32.of_Z 500) true) 1))
              (seq 0 (ML.kModelAxes 10 2)), 0).
Proof.
  assert (H : (1 < 2)%nat) by lia.
  exact (proj1 (classifier_reads_packed_slots 10 2 (ML.answering []) eq_refl
                  [] true (ML.steady (F32.of_Z 230) (F32.of_Z 500) true)
                  1%nat H)).
Defined.

Section KeywordFacts.

Import Labels.

Lemma prefix_app (s h : string) :
  String.prefix s h = true <-> exists post, h = (s ++ post)%string.
Proof.
  revert h. induction s as [|a s IH]; intros h.
  - split; [by exists h | by destruct h].
  - destruct h as [|b h]; cbn.
    + split; [done | by intros [post ?]].
    + destruct (ascii_dec a b) as [->|Hab].
      * rewrite IH. split; intros [post E]; exists post.
        -- by rewrite E.
        -- by injection E.
      * split; [done | intros [post E]; by injection E].
Qed.

Lemma strstr_offset (L s : string) (n : nat) :
  strstr L s = Some n ->
  exists pre post, L = (pre ++ s ++ post)%string /\ String.length pre = n.
Proof.
  revert n. induction L as [|a L IH]; intros n; cbn [strstr].
  - destruct (String.prefix s EmptyString) eqn:E; [|done].
    intros [= <-]. apply prefix_app in E as [post E].
    by exists EmptyString, post.
  - destruct (String.prefix s (String a L)) eqn:E.
    + intros [= <-]. apply prefix_app in E as [post E].
      by exists EmptyString, post.
    + destruct (strstr L s) as [m|]; [|done]. intros [= <-].
      destruct (IH m eq_refl) as (pre & post & -> & Hm).
      exists (String a pre), post. cbn. by rewrite Hm.
Qed.

Lemma strstr_found (pre s post : string) :
  exists n, strstr (pre ++ s ++ post) s = Some n /\ (n <= String.length pre)%nat.
Proof.
  induction pre as [|a pre (m & IH & Hm)].
  - exists O. split; [|done].
    change (strstr (s ++ post) s = Some O).
    assert (E : String.prefix s (s ++ post) = true)
      by (apply prefix_app; by exists post).
    destruct (s ++ post)%string; cbn [strstr]; by rewrite E.
  - change (String a pre ++ s ++ post)%string
      with (String a (pre ++ s ++ post)).
    cbn [strstr].
    destruct (String.prefix s (String a (pre ++ s ++ post))).
    + exists O. split; [done | lia].
    + rewrite IH. exists (S m). split; [done | cbn; lia].
Qed.

Lemma no_keyword_sums (res : ei_impulse_result_t) (s : string) :
  Forall (fun c => label_has (label c) s = false) res ->
  List.filter (fun c => has s (label c)) res = [].
Proof.
  induction 1 as [|c res Hc _ IH]; [done|].
  cbn [List.filter]. unfold has at 1. by rewrite Hc.
Qed.

End KeywordFacts.

(** X9.  A label matches a keyword exactly when the keyword occurs in it
    as a contiguous, case-sensitive substring. *)
Theorem label_has_is_substring (L s : string) :
  Labels.label_has L s = true
  <-> exists pre post : string, L = (pre ++ s ++ post)%string.
Proof.
  unfold Labels.label_has. split.
  - destruct (Labels.strstr L s) as [n|] eqn:E; [|done]. intros _.
    destruct (strstr_offset L s n E) as (pre & post & -> & _).
    by exists pre, post.
  - intros (pre & post & ->).
    destruct (strstr_found pre s post) as (n & -> & _). done.
Qed.

(** X10.  A result none of whose labels contains one of the five keywords
    (the empty result included) is scored as certain theft: the function
    returns 1.0 whatever the probabilities and the relay state are. *)
Theorem unknown_labels_score_one
    (res : Labels.ei_impulse_result_t) (relay_on : bool) :
  Forall (fun c => Trace.no_keyword (Labels.label c) = true) res ->
  Labels.theft_metric_from_labels res relay_on = F32.one.
Proof.
  intros H. unfold Labels.theft_metric_from_labels.
  rewrite fold_accumulate.
  rewrite !no_keyword_sums.
  - vm_compute. reflexivity.
  - eapply Forall_impl; [exact H|]. intros c Hc. unfold Trace.no_keyword in Hc.
    apply negb_true_iff in Hc. by repeat (apply orb_false_elim in Hc as [Hc ?]).
  - eapply Forall_impl; [exact H|]. intros c Hc. unfold Trace.no_keyword in Hc.
    apply negb_true_iff in Hc. by repeat (apply orb_false_elim in Hc as [Hc ?]).
  - eapply Forall_impl; [exact H|]. intros c Hc. unfold Trace.no_keyword in Hc.
    apply negb_true_iff in Hc. by repeat (apply orb_false_elim in Hc as [Hc ?]).
  - eapply Forall_impl; [exact H|]. intros c Hc. unfold Trace.no_keyword in Hc.
    apply negb_true_iff in Hc. by repeat (apply orb_false_elim in Hc as [Hc ?]).
  - eapply Forall_impl; [exact H|]. intros c Hc. unfold Trace.no_keyword in Hc.
    apply negb_true_iff in Hc. by repeat (apply orb_false_elim in Hc as [Hc ?]).
Qed.

Lemma unknown_labels_score_one_witness :
  Labels.theft_metric_from_labels
    [Labels.mkClass "idle" (F32.lit 9 10); Labels.mkClass "Theft" (F32.lit 1 10)]
    true
  = F32.one.
Proof.
  apply (unknown_labels_score_one
           [Labels.mkClass "idle" (F32.lit 9 10);
            Labels.mkClass "Theft" (F32.lit 1 10)] true).
  repeat constructor.
Defined.

Section ScreenFacts.

Import Store Display Screen.

Lemma omap_cons {A B : Type} (f : A -> option B) (x : A) (l : list A) :
  omap f (x :: l)
  = match f x with Some y => y :: omap f l | None => omap f l end.
Proof. reflexivity. Qed.

Lemma taskDisplay_frames (ticks : list (Z * store)) (b : Z) :
  0 <= b <= BOOT_FRAMES ->
  let r := taskDisplay ticks b in
  r.1 = Z.min BOOT_FRAMES (b + Z.of_nat (length (List.filter in_boot ticks)))
  /\ omap boot_frame r.2
     = map (fun k => b + Z.of_nat k) (seq 0 (Z.to_nat (r.1 - b)))
  /\ length r.2 = length ticks.
Proof.
  revert b. unfold BOOT_FRAMES.
  induction ticks as [|[now s] ticks IH]; intros b Hb.
  - cbn [taskDisplay List.filter length fst snd omap list_omap].
    replace (Z.min 20 (b + Z.of_nat 0)) with b by lia.
    by rewrite Z.sub_diag.
  - cbn [taskDisplay List.filter fst snd]. unfold tick.
    change (in_boot (now, s)) with (UiPhase_eqb (phase (g_last s)) UI_BOOT).
    rewrite get_metrics_g_last. cbn [shared Display.boot_frames snd].
    destruct (UiPhase_eqb (phase (g_last s)) UI_BOOT) eqn:Eph;
      cbn [andb]; unfold BOOT_FRAMES.
    + destruct (Z.ltb_spec b 20) as [Hlt|Hge].
      * cbn [fst snd Display.boot_frames].
        rewrite (Z.mod_small (b + 1)) by lia.
        destruct (IH (b + 1) ltac:(lia)) as (E1 & E2 & E3).
        cbn [length]. split; [|split].
        -- rewrite E1. lia.
        -- rewrite omap_cons. cbn [boot_frame]. rewrite E2.
           replace (Z.to_nat ((taskDisplay ticks (b + 1)).1 - b))
             with (S (Z.to_nat ((taskDisplay ticks (b + 1)).1 - (b + 1))))
             by (rewrite E1; lia).
           cbn [seq map]. rewrite <- seq_shift, map_map.
           f_equal; [lia|]. apply map_ext. intros k. lia.
        -- by rewrite E3.
      * assert (b = 20) as -> by lia.
        destruct (IH 20 ltac:(lia)) as (E1 & E2 & E3).
        destruct (phase (g_last s)); try discriminate Eph.
        cbn [UiPhase_eqb fst snd Display.boot_frames length].
        split; [|split].
        -- rewrite E1. lia.
        -- rewrite omap_cons. cbn [boot_frame]. apply E2.
        -- by rewrite E3.
    + destruct (IH b Hb) as (E1 & E2 & E3).
      destruct (phase (g_last s)); try discriminate Eph;
        cbn [UiPhase_eqb fst snd Display.boot_frames length];
        rewrite omap_cons; cbn [boot_frame]; by rewrite E3.
Qed.

Lemma stripes_fill (t : Z) (c : gfx) :
  In c (stripes t) -> exists x y, c = FillRect x y 8 8 SSD1306_WHITE.
Proof.
  unfold stripes. rewrite in_flat_map. intros (y & _ & Hc).
  apply in_map_iff in Hc as (x & <- & _). by eexists _, _.
Qed.

Lemma filter_stripes (f : gfx -> bool) (t : Z) :
  (forall x y, f (FillRect x y 8 8 SSD1306_WHITE) = false) ->
  List.filter f (stripes t) = [].
Proof.
  intros Hf.
  assert (H : Forall (fun c => f c = false) (stripes t)).
  { apply List.Forall_forall. intros c Hc.
    destruct (stripes_fill t c Hc) as (x & y & ->). apply Hf. }
  induction H as [|c l Hc _ IH]; [done|]. cbn [List.filter]. by rewrite Hc.
Qed.

Lemma last_invert_stripes (t : Z) (acc : option bool) (rest : list gfx) :
  fold_left (fun acc c => match c with InvertDisplay b => Some b | _ => acc end)
            (stripes t ++ rest) acc
  = fold_left (fun acc c => match c with InvertDisplay b => Some b | _ => acc end)
              rest acc.
Proof.
  rewrite fold_left_app.
  assert (H : Forall (fun c => exists x y, c = FillRect x y 8 8 SSD1306_WHITE)
                     (stripes t)).
  { apply List.Forall_forall. apply stripes_fill. }
  induction H as [|c l (x & y & ->) _ IH]; [done|]. apply IH.
Qed.

Lemma stripes_period (t : Z) : 0 <= t -> stripes (t + 320) = stripes t.
Proof.
  intros Ht. unfold stripes. apply flat_map_ext. intros y.
  apply map_ext. intros x. f_equal. f_equal.
  assert (Z.quot (t + 320) 40 = Z.quot t 40 + 8) as ->.
  { rewrite !Z.quot_div_nonneg by lia.
    replace (t + 320) with (t + 8 * 40) by lia. by rewrite Z.div_add by lia. }
  assert (H8 : (8 | 2 ^ 32)) by (by exists 536870912).
  rewrite !Z.rem_mod_nonneg by (try apply Z.mod_pos_bound; lia).
  rewrite !Z.mod_mod_divide by done.
  replace (Z.quot t 40 + 8 + y) with (Z.quot t 40 + y + 1 * 8) by lia.
  by rewrite Z.mod_add by lia.
Qed.

End ScreenFacts.

(** X11.  The boot animation.  Over any sequence of iterations of
    [taskDisplay], the boot frames drawn carry the numbers 0, 1, 2, ... in
    order without gap or repetition; their number is that of the iterations
    that read the phase BOOT, capped at 20, so the 16-bit frame counter
    never wraps; and every iteration draws one frame. *)
Theorem boot_frames_in_order (ticks : list (Z * Store.store)) :
  let r := Screen.taskDisplay ticks 0 in
  r.1 = Z.min Display.BOOT_FRAMES
          (Z.of_nat (length (List.filter Screen.in_boot ticks)))
  /\ omap Screen.boot_frame r.2 = map Z.of_nat (seq 0 (Z.to_nat r.1))
  /\ length r.2 = length ticks.
Proof.
  destruct (taskDisplay_frames ticks 0 ltac:(by unfold Display.BOOT_FRAMES))
    as (E1 & E2 & E3).
  cbv zeta. rewrite Z.sub_0_r in E2. by rewrite E1 at 1.
Qed.

(** X12.  The periods of the animations.  Within the range of the 32-bit
    millisecond counter, the alert screen repeats every 320 ms and flips
    its inversion every 160 ms, and the loading screen, with its rotating
    bar, repeats every 600 ms.  The alert period does not survive the wrap
    of the counter: 320 ms after its last value the stripes have moved. *)
Theorem animation_periods (m : Store.Metrics) (t : Z) :
  0 <= t ->
  (t + 320 < 2 ^ 32 ->
   Display.drawAlert m (t + 320) = Display.drawAlert m t)
  /\ (t + 160 < 2 ^ 32 ->
      nth_error (Display.drawAlert m (t + 160)) 1
      = option_map
          (fun c => match c with
                    | Display.InvertDisplay b => Display.InvertDisplay (negb b)
                    | _ => c
                    end)
          (nth_error (Display.drawAlert m t) 1))
  /\ (t + 600 < 2 ^ 32 ->
      Display.drawLoading m (t + 600) = Display.drawLoading m t)
  /\ Display.drawAlert m (2 ^ 32 - 1 + 320) <> Display.drawAlert m (2 ^ 32 - 1).
Proof.
  intros Ht. split; [|split; [|split]].
  - intros Hr. unfold Display.drawAlert, Display.uint32. cbv zeta.
    rewrite !Z.mod_small by lia.
    rewrite stripes_period by done.
    do 3 f_equal.
    rewrite !Z.quot_div_nonneg, !Z.rem_mod_nonneg
      by (try apply Z.div_pos; lia).
    replace (t + 320) with (t + 2 * 160) by lia.
    rewrite Z.div_add by lia.
    replace (t / 160 + 2) with (t / 160 + 1 * 2) by lia.
    by rewrite Z.mod_add by lia.
  - intros Hr. unfold Display.drawAlert, Display.uint32. cbv zeta.
    rewrite !Z.mod_small by lia.
    cbn [app nth_error option_map]. do 2 f_equal.
    rewrite !Z.quot_div_nonneg, !Z.rem_mod_nonneg
      by (try apply Z.div_pos; lia).
    replace (t + 160) with (t + 1 * 160) by lia.
    rewrite Z.div_add by lia.
    pose proof (Z.mod_pos_bound (t / 160) 2 ltac:(lia)).
    pose proof (Z.mod_pos_bound (t / 160 + 1) 2 ltac:(lia)).
    destruct (Z.eqb_spec ((t / 160 + 1) mod 2) 0),
      (Z.eqb_spec ((t / 160) mod 2) 0); cbn [negb]; try done;
      exfalso; revert H H0; zify; Z.to_euclidean_division_equations; lia.
  - intros Hr. unfold Display.drawLoading, Display.uint32. cbv zeta.
    rewrite !Z.mod_small by lia.
    destruct (Display.loading_fill m) as [w|]; [|done].
    do 10 f_equal.
    rewrite !Z.quot_div_nonneg, !Z.rem_mod_nonneg
      by (try apply Z.div_pos; lia).
    replace (t + 600) with (t + 4 * 150) by lia.
    rewrite Z.div_add by lia.
    replace (t / 150 + 4) with (t / 150 + 1 * 4) by lia.
    by rewrite Z.mod_add by lia.
  - intros H. apply (f_equal (fun g => nth_error g 2)) in H.
    unfold Display.drawAlert in H. cbv zeta in H.
    cbn [app nth_error] in H. vm_compute in H. discriminate H.
Qed.

Lemma animation_periods_witness :
  Display.drawAlert Store.Metrics_init (1000 + 320)
  = Display.drawAlert Store.Metrics_init 1000.
Proof.
  assert (H : 0 <= 1000) by lia.
  assert (Hr : 1000 + 320 < 2 ^ 32) by lia.
  exact (proj1 (animation_periods Store.Metrics_init 1000 H) Hr).
Defined.

(** X13.  Every frame is drawn whole.  Whatever a tick renders, the calls
    on the driver begin with the one [clearDisplay], end with the one
    [display()] that sends the buffer to the panel, and leave the panel
    uninverted if they touch the inversion at all. *)
Theorem frame_cleared_flushed_uninverted
    (c : Display.draw_call) (g : list Display.gfx) :
  Display.render c = Some g ->
  head g = Some Display.ClearDisplay
  /\ last g = Some Display.DisplayFlush
  /\ List.filter Screen.is_clear g = [Display.ClearDisplay]
  /\ List.filter Screen.is_flush g = [Display.DisplayFlush]
  /\ (Screen.last_invert g = None \/ Screen.last_invert g = Some false).
Proof.
  destruct c as [frame|m t|m t|m]; cbn [Display.render].
  - intros [= <-]. repeat split; try done. by left.
  - unfold Display.drawLoading. cbv zeta.
    destruct (Display.loading_fill m) as [w|]; [|done]. intros [= <-].
    repeat split; try done.
    + cbn [List.filter Screen.is_clear].
      by destruct (Z.rem (Z.quot (Display.uint32 t) 150) 4 =? 0), (Z.rem (Z.quot (Display.uint32 t) 150) 4 =? 1),
        (Z.rem (Z.quot (Display.uint32 t) 150) 4 =? 2).
    + cbn [List.filter Screen.is_flush].
      by destruct (Z.rem (Z.quot (Display.uint32 t) 150) 4 =? 0), (Z.rem (Z.quot (Display.uint32 t) 150) 4 =? 1),
        (Z.rem (Z.quot (Display.uint32 t) 150) 4 =? 2).
    + left. unfold Screen.last_invert. cbn [fold_left].
      by destruct (Z.rem (Z.quot (Display.uint32 t) 150) 4 =? 0), (Z.rem (Z.quot (Display.uint32 t) 150) 4 =? 1),
        (Z.rem (Z.quot (Display.uint32 t) 150) 4 =? 2).
  - intros [= <-]. unfold Display.drawAlert. cbv zeta. split; [done|]. split; [|split; [|split]].
    + rewrite app_assoc. rewrite last_app. done.
    + cbn [app List.filter Screen.is_clear].
      rewrite List.filter_app, filter_stripes by done. done.
    + cbn [app List.filter Screen.is_flush].
      rewrite List.filter_app, filter_stripes by done. done.
    + right. unfold Screen.last_invert. cbn [app fold_left].
      by rewrite last_invert_stripes.
  - unfold Display.drawRun.
    destruct (F32.to_int _) as [bw|]; [|done]. intros [= <-].
    repeat split; try done. by left.
Qed.

Lemma frame_cleared_flushed_uninverted_witness :
  last (Display.drawAlert Store.Metrics_init 0) = Some Display.DisplayFlush.
Proof.
  assert (H : Display.render (Display.CallAlert Store.Metrics_init 0)
              = Some (Display.drawAlert Store.Metrics_init 0)) by reflexivity.
  exact (proj1 (proj2 (frame_cleared_flushed_uninverted _ _ H))).
Defined.


(* ===================================================================== *)
(** * The firmware and the dashboard across the serial line *)
(* ===================================================================== *)

Section HostFacts.

Import Host Wire.

Lemma append_assoc_s (a b c : string) : (a +:+ b) +:+ c = a +:+ b +:+ c.
Proof.
  induction a as [|x a IH]; [done|].
  change (String x ((a +:+ b) +:+ c) = String x (a +:+ b +:+ c)).
  by rewrite IH.
Qed.

Lemma append_empty_r (a : string) : a +:+ EmptyString = a.
Proof.
  induction a as [|x a IH]; [done|].
  change (String x (a +:+ EmptyString) = String x a). by rewrite IH.
Qed.

Lemma absent_app (c : ascii) (a b : string) :
  absent c (a +:+ b) = absent c a && absent c b.
Proof.
  induction a as [|x a IH]; [done|].
  change (negb (Ascii.eqb x c) && absent c (a +:+ b)
          = negb (Ascii.eqb x c) && absent c a && absent c b).
  rewrite IH. by destruct (Ascii.eqb x c).
Qed.

Lemma all_plain_app (a b : string) :
  all_plain (a +:+ b) = all_plain a && all_plain b.
Proof.
  induction a as [|x a IH]; [done|].
  change (plain x && all_plain (a +:+ b) = plain x && all_plain a && all_plain b).
  rewrite IH. by destruct (plain x).
Qed.

Lemma truthy_app (a b : string) : truthy (a +:+ b) = truthy a || truthy b.
Proof. by destruct a. Qed.

Lemma plain_absent (c : ascii) (s : string) :
  plain c = false -> all_plain s = true -> absent c s = true.
Proof.
  intros Hc. induction s as [|x s IH]; [done|]. cbn [all_plain absent].
  intros [Hx Hs]%andb_true_iff. rewrite (IH Hs), andb_true_r.
  destruct (Ascii.eqb_spec x c) as [->|]; [congruence | done].
Qed.

Lemma split_absent (sep : ascii) (s : string) :
  absent sep s = true -> split sep s = [s].
Proof.
  induction s as [|x s IH]; [done|]. cbn [absent split].
  intros [Hx Hs]%andb_true_iff. rewrite (IH Hs).
  by destruct (Ascii.eqb x sep).
Qed.

Lemma split_app_sep (sep : ascii) (a b : string) :
  absent sep a = true ->
  split sep (a +:+ String sep b) = a :: split sep b.
Proof.
  induction a as [|x a IH].
  - intros _. change (split sep (String sep b) = EmptyString :: split sep b).
    cbn [split]. by rewrite Ascii.eqb_refl.
  - cbn [absent]. intros [Hx Hs]%andb_true_iff.
    change (split sep (String x (a +:+ String sep b))
            = String x a :: split sep b).
    cbn [split]. rewrite (IH Hs). by destruct (Ascii.eqb x sep).
Qed.

Lemma split_join (sep : ascii) (l : list string) :
  l <> [] -> Forall (fun s => absent sep s = true) l ->
  split sep (join sep l) = l.
Proof.
  induction l as [|x [|y l] IH]; [done| |].
  - intros _ H. apply Forall_inv in H. cbn [join]. by apply split_absent.
  - intros _ H. inversion H as [|? ? Hx Hl]; subst.
    change (join sep (x :: y :: l)) with (x +:+ String sep (join sep (y :: l))).
    rewrite split_app_sep by done. f_equal. by apply IH.
Qed.

Lemma split_nonempty (sep : ascii) (s : string) : split sep s <> [].
Proof.
  induction s as [|x s IH]; [done|]. cbn [split].
  destruct (Ascii.eqb x sep); [done|]. by destruct (split sep s).
Qed.

Lemma trimEnd_id (s : string) : ends_black s = true -> trimEnd s = s.
Proof.
  induction s as [|x s IH]; [done|]. cbn [ends_black trimEnd].
  destruct s as [|y s].
  - intros H. cbn [trimEnd]. by destruct (is_white x).
  - intros H. by rewrite (IH H).
Qed.

Lemma ends_black_app (a b : string) :
  ends_black b = true -> ends_black (a +:+ b) = true.
Proof.
  intros Hb. induction a as [|x a IH]; [done|].
  change (ends_black (String x (a +:+ b)) = true). cbn [ends_black].
  destruct (a +:+ b) eqn:E; [|done].
  destruct a; [|done]. change (b = EmptyString) in E. by rewrite E in Hb.
Qed.

Lemma ends_black_cons (x : ascii) (s : string) :
  ends_black s = true -> ends_black (String x s) = true.
Proof. intros H. cbn [ends_black]. by destruct s. Qed.

Lemma ends_black_join (sep : ascii) (l : list string) (x : string) :
  ends_black x = true -> ends_black (join sep (l ++ [x])) = true.
Proof.
  intros Hx. induction l as [|y l IH]; [done|].
  change (join sep ((y :: l) ++ [x]))
    with (join sep (y :: (l ++ [x]))).
  destruct (l ++ [x]) as [|z r] eqn:E; [by destruct l|].
  change (join sep (y :: z :: r)) with (y +:+ String sep (join sep (z :: r))).
  apply ends_black_app. by apply ends_black_cons.
Qed.

Lemma uint_plain (d : Decimal.uint) :
  all_plain (NilEmpty.string_of_uint d) = true.
Proof. induction d; cbn [NilEmpty.string_of_uint all_plain]; by rewrite ?IHd. Qed.

Lemma fmt_d_plain (z : Z) : all_plain (Printf.fmt_d z) = true.
Proof.
  unfold Printf.fmt_d.
  assert (H : forall d, all_plain (NilZero.string_of_uint d) = true).
  { intros d. destruct d; try done; apply (uint_plain (_ d)) || apply uint_plain. }
  destruct (Z.to_int z) as [d|d]; cbn [NilZero.string_of_int all_plain].
  - apply H.
  - by rewrite H.
Qed.

Lemma fmt_d_truthy (z : Z) : truthy (Printf.fmt_d z) = true.
Proof.
  unfold Printf.fmt_d.
  destruct (Z.to_int z) as [d|d]; [|done]. by destruct d.
Qed.

Lemma repeat_char_plain (c : ascii) (n : nat) :
  plain c = true -> all_plain (Printf.repeat_char c n) = true.
Proof.
  intros Hc. induction n as [|n IH]; [done|].
  cbn [Printf.repeat_char all_plain]. by rewrite Hc, IH.
Qed.

Lemma pad_left_plain (c : ascii) (w : nat) (s : string) :
  plain c = true -> all_plain s = true ->
  all_plain (Printf.pad_left c w s) = true.
Proof.
  intros Hc Hs. unfold Printf.pad_left.
  by rewrite all_plain_app, repeat_char_plain, Hs.
Qed.

Lemma pad_left_truthy (c : ascii) (w : nat) (s : string) :
  truthy s = true -> truthy (Printf.pad_left c w s) = true.
Proof.
  intros Hs. unfold Printf.pad_left. rewrite truthy_app, Hs. apply orb_true_r.
Qed.

Lemma sign_plain (s : bool) : all_plain (Printf.sign_str s) = true.
Proof. by destruct s. Qed.

(** A formatted number holds digits, a sign, a point, padding and the
    letters of [nan] and [inf] only. *)
Lemma fmt_f_plain (w p : nat) (x : float) :
  all_plain (Printf.fmt_f w p x) = true.
Proof.
  unfold Printf.fmt_f. apply pad_left_plain; [done|].
  destruct x as [s|s| |s m e].
  - rewrite all_plain_app, sign_plain. destruct p; [done|].
    rewrite all_plain_app. by rewrite repeat_char_plain.
  - by rewrite all_plain_app, sign_plain.
  - done.
  - rewrite all_plain_app, sign_plain. unfold Printf.fixed_digits.
    destruct p; [apply fmt_d_plain|].
    rewrite !all_plain_app, fmt_d_plain.
    by rewrite pad_left_plain by (done || apply fmt_d_plain).
Qed.

(** A formatted number is never the empty string. *)
Lemma fmt_f_truthy (w p : nat) (x : float) :
  truthy (Printf.fmt_f w p x) = true.
Proof.
  unfold Printf.fmt_f. apply pad_left_truthy.
  destruct x as [s|s| |s m e]; rewrite ?truthy_app.
  - destruct p; [apply orb_true_r|]. rewrite truthy_app. apply orb_true_r.
  - apply orb_true_r.
  - done.
  - unfold Printf.fixed_digits. destruct p.
    + rewrite fmt_d_truthy. apply orb_true_r.
    + rewrite truthy_app, fmt_d_truthy. apply orb_true_r.
Qed.

Variable parseFloat : string -> F64.number.

Lemma assign_pair (data : gmap string F64.number) (key value : string) :
  absent "="%char key = true -> absent "="%char value = true ->
  truthy key = true -> truthy value = true ->
  assign parseFloat data (pair key value)
  = <[toLowerCase key := parseFloat value]> data.
Proof.
  intros Hk Hv Tk Tv. unfold assign, pair.
  rewrite split_app_sep, (split_absent _ value) by done.
  by rewrite Tk, Tv.
Qed.

(** The telemetry line is a [DATA:] line of five pairs and a line break. *)
Lemma telemetry_shape (V I P ewma : float) (alert : bool) :
  ML.telemetry V I P ewma alert = telemetry_body V I P ewma alert +:+ LF.
Proof.
  unfold ML.telemetry, telemetry_body, data_line, pair. cbn [join].
  repeat (rewrite !append_assoc_s
          || change (String ?c ?a +:+ ?b) with (String c (a +:+ b))).
  by destruct alert.
Qed.

Lemma fmt_f_absent (w p : nat) (x : float) (c : ascii) :
  plain c = false -> absent c (Printf.fmt_f w p x) = true.
Proof. intros Hc. apply plain_absent; [done | apply fmt_f_plain]. Qed.

Lemma telemetry_body_absent (V I P ewma : float) (alert : bool) :
  absent "010"%char (telemetry_body V I P ewma alert) = true.
Proof.
  unfold telemetry_body, data_line, pair. cbn [join].
  repeat (progress (rewrite ?absent_app, ?fmt_f_absent by done; cbn [absent])).
  by destruct alert.
Qed.

End HostFacts.

Section LineFacts.

Import Host Wire.

Variable parseFloat : string -> F64.number.
Variable clock : nat -> Z.

Lemma readLoop_line (body : string) (k : nat) :
  absent "010"%char body = true ->
  readLoop parseFloat clock [body +:+ LF] EmptyString k
  = (EmptyString, parseLine parseFloat (clock k) (trim body)).
Proof.
  intros Hb. cbn [readLoop].
  change (EmptyString +:+ (body +:+ LF)) with (body +:+ LF).
  unfold LF. rewrite split_app_sep by done.
  cbn [split pop List.removelast List.last fst snd parseLines length].
  by rewrite !app_nil_r.
Qed.

(** What [parseLine] makes of a [DATA:] line that carries the five
    quantities of the firmware under their keys. *)
Lemma parseLine_data (now : Z) (v i p t a : string) :
  Forall (fun s => absent ","%char s = true /\ absent "="%char s = true
                   /\ truthy s = true) [v; i; p; t; a] ->
  parseLine parseFloat now
    (data_line [pair "V" v; pair "I" i; pair "P" p; pair "THEFT" t;
                pair "ALERT" a])
  = [OnData (mkDeviceData (parseFloat v) (parseFloat i) (parseFloat p)
               (parseFloat t)
               (F64.strict_eq (parseFloat a) (F64.of_Z 1))
               false now)].
Proof.
  intros H.
  apply Forall_cons in H as [(Hv1 & Hv2 & Hv3) H].
  apply Forall_cons in H as [(Hi1 & Hi2 & Hi3) H].
  apply Forall_cons in H as [(Hp1 & Hp2 & Hp3) H].
  apply Forall_cons in H as [(Ht1 & Ht2 & Ht3) H].
  apply Forall_cons in H as [(Ha1 & Ha2 & Ha3) _].
  unfold parseLine, data_line.
  change (truthy ("DATA:" +:+ ?x)) with true.
  change (String.prefix "OK:" ("DATA:" +:+ ?x)) with false.
  change (String.prefix "ERR:" ("DATA:" +:+ ?x)) with false.
  change (String.prefix "HTTP" ("DATA:" +:+ ?x)) with false.
  change (substring 5 ("DATA:" +:+ ?x)) with x.
  replace (String.prefix "DATA:" ("DATA:" +:+ _)) with true
    by (symmetry; apply prefix_app; by eexists).
  cbn [negb orb]. rewrite app_nil_r.
  rewrite split_join.
  2: done.
  2:{ repeat constructor; unfold pair; rewrite absent_app; cbn [absent];
      by rewrite ?Hv1, ?Hi1, ?Hp1, ?Ht1, ?Ha1. }
  cbn [fold_left]. rewrite !assign_pair by done.
  change (toLowerCase "V") with "v"%string.
  change (toLowerCase "I") with "i"%string.
  change (toLowerCase "P") with "p"%string.
  change (toLowerCase "THEFT") with "theft"%string.
  change (toLowerCase "ALERT") with "alert"%string.
  rewrite (lookup_insert_eq _ "alert"%string).
  rewrite !(lookup_insert_ne _ "alert"%string) by done.
  rewrite (lookup_insert_eq _ "theft"%string).
  rewrite !(lookup_insert_ne _ "theft"%string) by done.
  rewrite (lookup_insert_eq _ "p"%string).
  rewrite !(lookup_insert_ne _ "p"%string) by done.
  rewrite (lookup_insert_eq _ "i"%string).
  rewrite !(lookup_insert_ne _ "i"%string) by done.
  rewrite (lookup_insert_eq _ "v"%string).
  rewrite (lookup_insert_ne _ "v"%string) by done.
  by rewrite lookup_empty.
Qed.

Lemma data_line_trim (ps : list string) (x : string) :
  ends_black x = true -> trim (data_line (ps ++ [x])) = data_line (ps ++ [x]).
Proof.
  intros Hx. unfold trim, data_line.
  change (trimStart ("DATA:" +:+ ?y)) with ("DATA:" +:+ y).
  apply trimEnd_id, ends_black_app. by apply ends_black_join.
Qed.

Lemma telemetry_body_parse (V I P ewma : float) (alert : bool) (now : Z) :
  parseLine parseFloat now (trim (telemetry_body V I P ewma alert))
  = [OnData (telemetry_data parseFloat V I P ewma alert now)].
Proof.
  unfold telemetry_body.
  pose proof (data_line_trim
                [pair "V" (Printf.fmt_f 0 3 V); pair "I" (Printf.fmt_f 0 3 I);
                 pair "P" (Printf.fmt_f 0 3 P);
                 pair "THEFT" (Printf.fmt_f 0 2 ewma)]
                (pair "ALERT" (if alert then "1" else "0"))) as Htrim.
  cbn [app] in Htrim. rewrite Htrim by (by destruct alert).
  apply parseLine_data.
  repeat (constructor; [by rewrite !fmt_f_absent, fmt_f_truthy by done|]).
  constructor; [by destruct alert | constructor].
Qed.

End LineFacts.

(** X15.  The dashboard understands the firmware.  Fed the telemetry line
    of a window as one chunk, the read loop of the dashboard calls the data
    callback exactly once and logs nothing: voltage, current, power and
    theft are [parseFloat] of the decimals printed, the alert flag is that
    of the digit printed, the relay flag is false because the line carries
    no RELAY key, and the buffer is empty again.  This holds for every
    value of the quantities, NaN and the infinities included. *)
Theorem host_reads_telemetry
    (parseFloat : string -> F64.number) (clock : nat -> Z)
    (V I P ewma : float) (alert : bool) (k : nat) :
  Host.readLoop parseFloat clock [ML.telemetry V I P ewma alert] EmptyString k
  = (EmptyString,
     [Host.OnData
        (Host.mkDeviceData
           (parseFloat (Printf.fmt_f 0 3 V))
           (parseFloat (Printf.fmt_f 0 3 I))
           (parseFloat (Printf.fmt_f 0 3 P))
           (parseFloat (Printf.fmt_f 0 2 ewma))
           (F64.strict_eq (parseFloat (if alert then "1" else "0"))
                          (F64.of_Z 1))
           false (clock k))]).
Proof.
  rewrite telemetry_shape, readLoop_line by apply telemetry_body_absent.
  by rewrite telemetry_body_parse.
Qed.

Section StreamFacts.

Import Host Wire.

Variable parseFloat : string -> F64.number.
Variable clock : nat -> Z.

Lemma pop_split (s : string) : pop (split "010"%char s) = lines_rest s.
Proof.
  induction s as [|x s IH]; [done|]. cbn [split lines_rest].
  rewrite <- IH. pose proof (split_nonempty "010"%char s) as Hne.
  destruct (Ascii.eqb x "010"%char).
  - unfold pop. destruct (split "010"%char s) as [|h t]; done.
  - unfold pop. destruct (split "010"%char s) as [|h [|h' t]]; done.
Qed.

Lemma lines_rest_app (a b : string) :
  lines_rest (a +:+ b)
  = ((lines_rest a).1 ++ (lines_rest ((lines_rest a).2 +:+ b)).1,
     (lines_rest ((lines_rest a).2 +:+ b)).2).
Proof.
  induction a as [|x a IH].
  - change (EmptyString +:+ b) with b. cbn [lines_rest fst snd app].
    change (EmptyString +:+ b) with b. by destruct (lines_rest b).
  - change (String x a +:+ b) with (String x (a +:+ b)).
    cbn [lines_rest]. rewrite IH. cbn [fst snd].
    destruct (Ascii.eqb x "010"%char) eqn:E; [done|].
    destruct (lines_rest a) as [[|l ls] ra]; cbn [fst snd app].
    + change (String x ra +:+ b) with (String x (ra +:+ b)).
      cbn [lines_rest]. rewrite E.
      by destruct (lines_rest (ra +:+ b)) as [[|l' ls'] rb].
    + done.
Qed.

Lemma lines_rest_open (s : string) : absent "010"%char (lines_rest s).2 = true.
Proof.
  induction s as [|x s IH]; [done|]. cbn [lines_rest].
  destruct (Ascii.eqb x "010"%char) eqn:E; [done|].
  destruct (lines_rest s) as [[|l ls] r]; cbn [fst snd absent] in *;
    by rewrite ?E, ?IH.
Qed.

Lemma lines_rest_absent (s : string) :
  absent "010"%char s = true -> lines_rest s = ([], s).
Proof.
  induction s as [|x s IH]; [done|]. cbn [absent lines_rest].
  intros [Hx Hs]%andb_true_iff. rewrite (IH Hs).
  by destruct (Ascii.eqb x "010"%char).
Qed.

Lemma parseLines_app (k : nat) (l1 l2 : list string) :
  parseLines parseFloat clock k (l1 ++ l2)
  = parseLines parseFloat clock k l1
    ++ parseLines parseFloat clock (k + length l1) l2.
Proof.
  revert k. induction l1 as [|l l1 IH]; intros k.
  - cbn [app parseLines length]. by rewrite Nat.add_0_r.
  - cbn [app parseLines length]. rewrite IH, <- app_assoc.
    by replace (S k + length l1)%nat with (k + S (length l1))%nat by lia.
Qed.

(** The read loop sees the text, not the chunks. *)
Lemma readLoop_stream (chunks : list string) (buffer : string) (k : nat) :
  absent "010"%char buffer = true ->
  readLoop parseFloat clock chunks buffer k
  = ((lines_rest (buffer +:+ stream chunks)).2,
     parseLines parseFloat clock k (lines_rest (buffer +:+ stream chunks)).1).
Proof.
  revert buffer k. induction chunks as [|v rest IH]; intros buffer k Hb.
  - cbn [readLoop stream fold_right]. rewrite append_empty_r.
    by rewrite lines_rest_absent.
  - cbn [readLoop stream fold_right]. fold (stream rest).
    rewrite pop_split, <- append_assoc_s, (lines_rest_app (buffer +:+ v)).
    rewrite IH by apply lines_rest_open.
    cbn [fst snd]. by rewrite parseLines_app.
Qed.

End StreamFacts.


Section ReplyFacts.

Import Host Wire.

Variable parseFloat : string -> F64.number.
Variable clock : nat -> Z.

Lemma lines_rest_line (body rest : string) :
  absent "010"%char body = true ->
  lines_rest (body +:+ String "010"%char rest)
  = (body :: (lines_rest rest).1, (lines_rest rest).2).
Proof.
  induction body as [|x body IH].
  - by intros _.
  - cbn [absent]. intros [Hx Hb]%andb_true_iff.
    change (String x body +:+ ?r) with (String x (body +:+ r)).
    cbn [lines_rest]. rewrite (IH Hb). cbn [fst snd].
    by destruct (Ascii.eqb x "010"%char).
Qed.

(** Every effect of a stream of telemetry lines is a data callback with
    the relay flag false. *)
Lemma telemetry_stream_effects (chunks : list string) (k : nat) :
  Forall (fun c => exists V I P ewma alert,
            c = ML.telemetry V I P ewma alert) chunks ->
  Forall (fun e => exists d, e = OnData d /\ relay d = false)
         (readLoop parseFloat clock chunks EmptyString k).2.
Proof.
  intros H. rewrite readLoop_stream by done. cbn [snd].
  change (EmptyString +:+ ?x) with x.
  revert k. induction H as [|c chunks (V & I & P & ewma & alert & ->) _ IH];
    intros k; [by constructor|].
  cbn [stream fold_right]. fold (stream chunks).
  rewrite telemetry_shape, append_assoc_s.
  change (LF +:+ ?r) with (String "010"%char r).
  rewrite lines_rest_line by apply telemetry_body_absent.
  cbn [fst parseLines]. rewrite telemetry_body_parse.
  constructor; [by eexists | apply IH].
Qed.

Lemma relayOn_after_false (effects : list effect) :
  Forall (fun e => exists d, e = OnData d /\ relay d = false) effects ->
  relayOn_after effects false = false.
Proof.
  unfold relayOn_after. induction 1 as [|e l (d & -> & Hd) _ IH]; [done|].
  cbn [fold_left]. by rewrite Hd.
Qed.

Lemma classifier_error_shape (err : Z) :
  ML.classifier_error err
  = ("ERR:Classifier(" +:+ Printf.fmt_d err +:+ ")") +:+ LF.
Proof.
  unfold ML.classifier_error.
  repeat (rewrite !append_assoc_s
          || change (String ?c ?a +:+ ?b) with (String c (a +:+ b))).
  done.
Qed.

End ReplyFacts.

(** X17.  The dashboard logs what the firmware answers.  Every reply of
    the command parser to a line ([OK:RELAY:ON], [OK:RELAY:OFF],
    [ERR:UNKNOWN_CMD], or nothing for an empty line) and every classifier
    error line reaches the console of the dashboard verbatim, without its
    line end, and none of them is taken for data. *)
Theorem host_logs_firmware_replies
    (parseFloat : string -> F64.number) (clock : nat -> Z)
    (l : list ascii) (err : Z) (k : nat) :
  Host.readLoop parseFloat clock (map Wire.sent (Parser.dispatch l))
    EmptyString k
  = (EmptyString,
     map Host.ConsoleLog (flat_map Wire.printed (Parser.dispatch l)))
  /\ Host.readLoop parseFloat clock [ML.classifier_error err] EmptyString k
     = (EmptyString,
        [Host.ConsoleLog ("ERR:Classifier(" +:+ Printf.fmt_d err +:+ ")")]).
Proof.
  split.
  - unfold Parser.dispatch. repeat case_decide; [done | done |].
    by destruct l.
  - rewrite classifier_error_shape, readLoop_line.
    2:{ rewrite !absent_app.
        by rewrite (plain_absent _ (Printf.fmt_d err))
          by (done || apply fmt_d_plain). }
    f_equal. unfold Host.trim.
    change (Host.trimStart ("ERR:Classifier(" +:+ ?x))
      with ("ERR:Classifier(" +:+ x).
    rewrite trimEnd_id by (by do 2 apply ends_black_app).
    unfold Host.parseLine.
    change (Host.truthy ("ERR:Classifier(" +:+ ?x)) with true.
    change (String.prefix "DATA:" ("ERR:Classifier(" +:+ ?x)) with false.
    change (String.prefix "OK:" ("ERR:Classifier(" +:+ ?x)) with false.
    replace (String.prefix "ERR:"
               ("ERR:Classifier(" +:+ Printf.fmt_d err +:+ ")"))
      with true; [done|].
    symmetry. apply prefix_app.
    by exists ("Classifier(" +:+ Printf.fmt_d err +:+ ")").
Qed.

(** X18.  The toggle of the dashboard only ever switches the relay on.
    After any sequence of telemetry lines, read one line per chunk, the
    relay state the dashboard holds is false, so its toggle sends
    [RELAY:ON]; a firmware parser at the start of a line
    answers it by driving the relay on and printing [OK:RELAY:ON],
    whatever state the relay was in. *)
Theorem dashboard_toggle_only_switches_on
    (parseFloat : string -> F64.number) (clock : nat -> Z)
    (chunks : list string) (k : nat) (st : Parser.state) (v0 : bool) :
  Forall (fun c => exists V I P ewma alert,
            c = ML.telemetry V I P ewma alert) chunks ->
  Parser.wf st -> Parser.line st = [] ->
  let effects := (Host.readLoop parseFloat clock chunks EmptyString k).2 in
  let command := Host.handleRelayToggle (Wire.relayOn_after effects false) in
  command = Host.sendCommand "RELAY:ON"
  /\ (Parser.feed (list_ascii_of_string command) st).2
     = [relayWrite true; SerialPrintln "OK:RELAY:ON"]
  /\ relayIsOn
       (pin_after RELAY_PIN v0 (Parser.feed (list_ascii_of_string command) st).2)
     = true.
Proof.
  intros Hc Hwf Hline effects command.
  assert (Hcmd : command = Host.sendCommand "RELAY:ON").
  { unfold command, effects.
    by rewrite relayOn_after_false by by apply telemetry_stream_effects. }
  destruct (feed_line_parser (list_ascii_of_string command) st Hwf) as [_ H].
  rewrite Hline, Hcmd in H. rewrite Hcmd.
  assert (Hev : (Parser.feed
                   (list_ascii_of_string (Host.sendCommand "RELAY:ON")) st).2
                = [relayWrite true; SerialPrintln "OK:RELAY:ON"]).
  { change (snd (Parser.line
                   (Parser.feed
                      (list_ascii_of_string (Host.sendCommand "RELAY:ON")) st).1,
                 (Parser.feed
                    (list_ascii_of_string (Host.sendCommand "RELAY:ON")) st).2)
            = [relayWrite true; SerialPrintln "OK:RELAY:ON"]).
    by rewrite H. }
  rewrite Hev. by destruct v0.
Qed.

Lemma dashboard_toggle_only_switches_on_witness :
  Host.handleRelayToggle
    (Wire.relayOn_after
       (Host.readLoop (fun _ => F64.of_Z 0) (fun _ => 0)
          [ML.telemetry (F32.of_Z 230) (F32.of_Z 1) (F32.of_Z 230)
             (F32.of_Z 1) true] EmptyString 0).2 false)
  = Host.sendCommand "RELAY:ON".
Proof.
  assert (H1 : Forall (fun c => exists V I P ewma alert,
                         c = ML.telemetry V I P ewma alert)
                 [ML.telemetry (F32.of_Z 230) (F32.of_Z 1) (F32.of_Z 230)
                    (F32.of_Z 1) true])
    by (constructor; [by do 5 eexists | constructor]).
  assert (H2 : Parser.line Parser.init = []) by reflexivity.
  exact (proj1 (dashboard_toggle_only_switches_on (fun _ => F64.of_Z 0)
                  (fun _ => 0) _ 0%nat Parser.init false H1 init_wf H2)).
Defined.
